(** * Robot Config Service: a shallow embedding of [robot_config_service.py]

    The service runs once per boot.  It reads a cached event id, resolves the
    address of the control-plane cluster, asks it for the current event id and,
    when the event is new, fetches a skupper token and runs an ansible playbook
    that sets the tunnel up.

    The embedding follows the Python source function by function.  Everything
    the program does to the outside world (HTTP requests, sub-processes, file
    writes, sleeps) goes through an explicit [world] value: the two files the
    service owns and the ordered trace of effects.  What the outside world
    answers is given by an [Env] of oracles, indexed by how many interactions
    of the same kind happened before.  Python exceptions are a result
    constructor of the monad [M]; the one unbounded loop of the program
    ([while True] in [query_skupper_token]) is run with fuel. *)

From Stdlib Require Import String Ascii List ZArith Bool Lia Arith.
Import ListNotations.
Open Scope string_scope.
Open Scope Z_scope.

(* ===================================================================== *)
(** * Python strings

    A [str] is modelled as a [string] of code points below 256.  The
    operations below are the ones the service uses. *)
(* ===================================================================== *)

Module PyStr.

(** [c.isspace()] for a code point below 256. *)
Definition is_space (c : ascii) : bool :=
  let n := nat_of_ascii c in
  ((9 <=? n) && (n <=? 13) || (28 <=? n) && (n <=? 32)
   || (n =? 133) || (n =? 160))%nat.

(** [s.lstrip()]. *)
Fixpoint lstrip (s : string) : string :=
  match s with
  | EmptyString => EmptyString
  | String c s' => if is_space c then lstrip s' else s
  end.

(** [s.rstrip()]: a character is dropped when it is white space and
    everything after it has been dropped as well. *)
Fixpoint rstrip (s : string) : string :=
  match s with
  | EmptyString => EmptyString
  | String c s' =>
      match rstrip s' with
      | EmptyString => if is_space c then EmptyString else String c EmptyString
      | r => String c r
      end
  end.

(** [s.strip()]. *)
Definition strip (s : string) : string := rstrip (lstrip s).

(** [s.lstrip(ch)] and [s.rstrip(ch)] for a one-character argument. *)
Fixpoint lstrip_char (ch : ascii) (s : string) : string :=
  match s with
  | EmptyString => EmptyString
  | String c s' => if Ascii.eqb c ch then lstrip_char ch s' else s
  end.

Fixpoint rstrip_char (ch : ascii) (s : string) : string :=
  match s with
  | EmptyString => EmptyString
  | String c s' =>
      match rstrip_char ch s' with
      | EmptyString => if Ascii.eqb c ch then EmptyString else String c EmptyString
      | r => String c r
      end
  end.

Definition strip_char (ch : ascii) (s : string) : string :=
  rstrip_char ch (lstrip_char ch s).

(** [s.split(ch)[0]]: the part of [s] before the first [ch]. *)
Fixpoint before_first (ch : ascii) (s : string) : string :=
  match s with
  | EmptyString => EmptyString
  | String c s' => if Ascii.eqb c ch then EmptyString else String c (before_first ch s')
  end.

(** [s.startswith(p)]. *)
Definition startswith (p s : string) : bool := String.prefix p s.

(** [s.endswith(p)]. *)
Definition endswith (p s : string) : bool :=
  (String.length p <=? String.length s)%nat &&
  String.eqb (String.substring (String.length s - String.length p) (String.length p) s) p.

(** [sub in s]. *)
Fixpoint contains (sub s : string) : bool :=
  String.prefix sub s ||
  match s with
  | EmptyString => false
  | String _ s' => contains sub s'
  end.

(** [c.lower()] for a code point below 256: the ASCII capitals and the
    Latin-1 capitals (192 to 222, the multiplication sign 215 apart). *)
Definition lower_char (c : ascii) : ascii :=
  let n := nat_of_ascii c in
  if ((65 <=? n) && (n <=? 90)
      || (192 <=? n) && (n <=? 222) && negb (n =? 215))%nat
  then ascii_of_nat (n + 32) else c.

(** [s.lower()]. *)
Fixpoint lower (s : string) : string :=
  match s with
  | EmptyString => EmptyString
  | String c s' => String (lower_char c) (lower s')
  end.

(** Truth value of a [str]: non-empty. *)
Definition nonempty (s : string) : bool :=
  match s with EmptyString => false | _ => true end.

(** What reading a text file gives for stored contents [s]: [open(path, 'r')]
    uses universal newlines, so [\r\n] and a lone [\r] both arrive as [\n]. *)
Fixpoint universal_newlines (s : string) : string :=
  match s with
  | EmptyString => EmptyString
  | String c s' =>
      if Ascii.eqb c "013"%char then
        match s' with
        | String c' s'' =>
            if Ascii.eqb c' "010"%char
            then String "010"%char (universal_newlines s'')
            else String "010"%char (universal_newlines s')
        | EmptyString => String "010"%char EmptyString
        end
      else String c (universal_newlines s')
  end.

End PyStr.

(* ===================================================================== *)
(** * Python values, HTTP responses, sub-processes *)
(* ===================================================================== *)

(** The values [response.json()] can produce.  A float is [mantissa * 2^exponent]. *)
#[warnings="-register-all"]
Inductive pyval : Type :=
| PNone
| PBool (b : bool)
| PInt (z : Z)
| PFloat (mantissa exponent : Z)
| PStr (s : string)
| PList (items : list pyval)
| PDict (items : list (string * pyval)).

(** [bool(v)]. *)
Definition truthy (v : pyval) : bool :=
  match v with
  | PNone => false
  | PBool b => b
  | PInt z => negb (z =? 0)
  | PFloat m _ => negb (m =? 0)
  | PStr s => PyStr.nonempty s
  | PList l => match l with [] => false | _ => true end
  | PDict l => match l with [] => false | _ => true end
  end.

(** [a or b]. *)
Definition py_or (a b : pyval) : pyval := if truthy a then a else b.

(** [d.get(key)] on the items of a dict: [None] when the key is missing. *)
Fixpoint dict_get (items : list (string * pyval)) (key : string) : pyval :=
  match items with
  | [] => PNone
  | (k, v) :: rest => if String.eqb k key then v else dict_get rest key
  end.

(** [cached != current] where [cached] is a [str]: a [str] equals only a
    [str] with the same characters. *)
Definition str_eq_val (cached : string) (current : pyval) : bool :=
  match current with
  | PStr s => String.eqb cached s
  | _ => false
  end.

(** What [requests] hands back.  [json] is [None] when the body does not
    decode ([response.json()] raises [ValueError]); [location] is
    [response.headers.get('Location')]; [url] is [response.url].  A body
    nested so deeply that the decoder exceeds the recursion limit
    ([RecursionError]) is outside this model. *)
Record response : Type := {
  status_code : Z;
  text : string;
  json : option pyval;
  location : option string;
  url : string
}.

(** A request either gets a response or raises a [RequestException]
    (connection error, timeout). *)
Inductive http_result : Type :=
| Response (r : response)
| RequestError.

(** [response.raise_for_status()] raises [HTTPError] for 4xx and 5xx. *)
Definition raises_for_status (r : response) : bool :=
  (400 <=? status_code r) && (status_code r <? 600).

(** [response.is_redirect] of [requests]: a Location header and one of the
    redirect statuses 301, 302, 303, 307, 308. *)
Definition is_redirect (r : response) : bool :=
  match location r with
  | None => false
  | Some _ =>
      let s := status_code r in
      (s =? 301) || (s =? 302) || (s =? 303) || (s =? 307) || (s =? 308)
  end.

(** Truth value of [response.headers.get('Location')]. *)
Definition location_truthy (r : response) : bool :=
  match location r with
  | None => false
  | Some l => PyStr.nonempty l
  end.

(** Result of [urlparse]. *)
Record parsed_url : Type := {
  scheme : string;
  netloc : string;
  path : string
}.

(** Outcome of [subprocess.run(..., capture_output=True, text=True, timeout=...)]. *)
Inductive proc_result : Type :=
| Completed (returncode : Z) (stdout stderr : string)
| NotFound        (* FileNotFoundError: no such binary *)
| TimedOut        (* subprocess.TimeoutExpired *)
| ProcError.      (* any other exception of subprocess.run *)

(** Outcome of writing the event-id cache file. *)
Inductive write_outcome : Type :=
| WriteRefused             (* mkdir or open raised: the file is untouched *)
| WriteBroken (kept : nat) (* opened with 'w', then the write raised: only [kept] characters arrived *)
| WriteOk.

(** Outcome of writing the token file (mkdir, write_text, chmod). *)
Inductive token_write_outcome : Type :=
| TokenDirFails                      (* mkdir raised: nothing is written *)
| TokenWriteFails (kept : option nat)
    (* write_text or chmod raised: [None] when the file could not be opened
       (it is as it was), [Some k] when it was opened, and so emptied, and
       the first [k] characters of the token arrived before the error *)
| TokenWritten.

(** Python exceptions the program meets. *)
Inductive exn : Type :=
| RequestException
| ValueError
| AttributeError
| TypeError
| NameError
| FileNotFoundError
| TimeoutExpired
| OSError
| OverflowError
| SystemExit (code : Z).

(** The statuses posted to [/control/initStatus]; the source sends them as
    text, some with a leading pictogram. *)
Inductive init_status : Type :=
| StEidUnknown          (* "EID unknown" *)
| StEidKnown            (* "EID known" *)
| StQueryingToken       (* "Querying skupper token" *)
| StTokenRetrieved      (* "Successfully retrieved skupper token" *)
| StStartingConfigure   (* "Starting configure robot" *)
| StFailedConfigure     (* "Failed to configure robot" *)
| StConfigured          (* "configured" *)
| StOkay.               (* "Okay" *)

(* ===================================================================== *)
(** * Configuration, outside world, program state *)
(* ===================================================================== *)

(** The module-level constants, as read from the process environment. *)
Record Config : Type := {
  REDIRECT_URL : string;
  REDIRECT_RETRIES : Z;
  REDIRECT_RETRY_DELAY : Z;
  REDIRECT_URL_IS_CLUSTER : bool;
  env_RCS_GIT_REPO : string;          (* os.getenv("RCS_GIT_REPO", "") *)
  env_RCS_GIT_BRANCH : string;        (* os.getenv("RCS_GIT_BRANCH", "main") *)
  SERVICE_STARTUP_DELAY : Z;
  env_PLAYBOOK_RETRIES : Z;           (* int(os.getenv("PLAYBOOK_RETRIES", "2")) *)
  PLAYBOOK_RETRY_DELAY : Z;
  env_ANSIBLE_OUTPUT_LOG : string;
  robot_name : string                 (* socket.gethostname() *)
}.

Definition RCS_GIT_REPO (cfg : Config) : string := PyStr.strip (env_RCS_GIT_REPO cfg).

Definition RCS_GIT_BRANCH (cfg : Config) : string :=
  let b := PyStr.strip (env_RCS_GIT_BRANCH cfg) in
  if PyStr.nonempty b then b else "main".

Definition PLAYBOOK_RETRIES (cfg : Config) : Z := Z.max 1 (env_PLAYBOOK_RETRIES cfg).

Definition ANSIBLE_OUTPUT_LOG (cfg : Config) : string := PyStr.strip (env_ANSIBLE_OUTPUT_LOG cfg).

(** What the outside world answers.  Each oracle is indexed by the number
    of earlier interactions of the same kind in this run.  [urlparse] and
    [str_of_dict] ([str] of a dict) are library functions. *)
Record Env : Type := {
  urlparse : string -> option parsed_url;       (* [None]: urlparse raised ValueError *)
  str_of_dict : list (string * pyval) -> string;
  http_get : nat -> string -> http_result;
  skupper_status : nat -> proc_result;
  ansible_playbook : nat -> proc_result;
  token_write : nat -> token_write_outcome;
  cache_write : nat -> write_outcome;
  unlink_ok : nat -> bool
}.

Inductive get_kind : Type := GetRaw | GetRedirect | GetEventId | GetToken.

(** The effects of a run, in the order they happen (newest first in the trace). *)
Inductive event : Type :=
| EvGet (k : get_kind) (url : string)
| EvPost (url : string) (status : init_status)
| EvSleep (seconds : Z)
| EvSkupperStatus (r : proc_result)
| EvTokenWrite (o : token_write_outcome)
| EvPlaybook (r : proc_result)
| EvAudit (returncode : Z)
| EvCacheWrite (event_id : pyval) (o : write_outcome)
| EvUnlink (ok : bool).

(** A file the service owns. *)
Inductive file_state : Type :=
| Missing
| Unreadable                 (* exists, but open or read raises *)
| Content (s : string).

Record world : Type := {
  event_file : file_state;          (* EVENT_ID_FILE *)
  token_file : option string;       (* SKUPPER_TOKEN_FILE, [None] when it does not exist *)
  trace : list event
}.

Definition emit (e : event) (w : world) : world :=
  {| event_file := event_file w; token_file := token_file w; trace := e :: trace w |}.

Definition set_event_file (f : file_state) (w : world) : world :=
  {| event_file := f; token_file := token_file w; trace := trace w |}.

Definition set_token_file (f : option string) (w : world) : world :=
  {| event_file := event_file w; token_file := f; trace := trace w |}.

Definition is_get (e : event) : bool := match e with EvGet _ _ => true | _ => false end.
Definition is_token_get (e : event) : bool := match e with EvGet GetToken _ => true | _ => false end.
Definition is_skupper (e : event) : bool := match e with EvSkupperStatus _ => true | _ => false end.
Definition is_token_write (e : event) : bool := match e with EvTokenWrite _ => true | _ => false end.
Definition is_playbook (e : event) : bool := match e with EvPlaybook _ => true | _ => false end.
Definition is_cache_write (e : event) : bool := match e with EvCacheWrite _ _ => true | _ => false end.
Definition is_unlink (e : event) : bool := match e with EvUnlink _ => true | _ => false end.
Definition is_sleep (e : event) : bool := match e with EvSleep _ => true | _ => false end.

(** How many events of a kind the trace holds. *)
Definition count (p : event -> bool) (t : list event) : nat := List.length (List.filter p t).

(* ===================================================================== *)
(** * The monad: state, exceptions, fuel *)
(* ===================================================================== *)

Inductive result (A : Type) : Type :=
| Ret (a : A)
| Raise (e : exn)
| OutOfFuel.
Arguments Ret {A} a.
Arguments Raise {A} e.
Arguments OutOfFuel {A}.

Definition M (A : Type) : Type := world -> result A * world.

Definition ret {A} (a : A) : M A := fun w => (Ret a, w).

Definition raise {A} (e : exn) : M A := fun w => (Raise e, w).

Definition bind {A B} (m : M A) (k : A -> M B) : M B :=
  fun w =>
    match m w with
    | (Ret a, w') => k a w'
    | (Raise e, w') => (Raise e, w')
    | (OutOfFuel, w') => (OutOfFuel, w')
    end.

(** [try: m  except <classes>: h], where [catches e] says whether an
    [except] clause matches [e]. *)
Definition try_except {A} (m : M A) (catches : exn -> bool) (h : exn -> M A) : M A :=
  fun w =>
    match m w with
    | (Raise e, w') => if catches e then h e w' else (Raise e, w')
    | other => other
    end.

Declare Scope monad_scope.
Delimit Scope monad_scope with monad.
Notation "x <- m ;; k" := (bind m (fun x => k))
  (at level 61, m at next level, right associativity) : monad_scope.
Notation "m ;; k" := (bind m (fun _ => k))
  (at level 61, right associativity) : monad_scope.
Open Scope monad_scope.

(** A computation that has no effect on the world. *)
Definition lift {A} (r : result A) : M A := fun w => (r, w).

Definition tell (e : event) : M unit := fun w => (Ret tt, emit e w).

(** [except requests.exceptions.RequestException]. *)
Definition is_RequestException (e : exn) : bool :=
  match e with RequestException => true | _ => false end.

(** [except Exception]: everything but [SystemExit]. *)
Definition is_Exception (e : exn) : bool :=
  match e with SystemExit _ => false | _ => true end.

(** The longest sleep, in seconds: [time.sleep] turns its argument into a
    signed 64-bit count of nanoseconds. *)
Definition sleep_max : Z := 9223372036.

(** [time.sleep(d)] for an [int]: an [OverflowError] when [d] seconds do not
    fit the 64-bit count of nanoseconds, a [ValueError] when [d] is
    negative. *)
Definition sleep (d : Z) : M unit :=
  if (d <? - sleep_max) || (sleep_max <? d) then raise OverflowError
  else if d <? 0 then raise ValueError
  else tell (EvSleep d).

(* ===================================================================== *)
(** * The service, method by method *)
(* ===================================================================== *)

Section Service.

Variable cfg : Config.
Variable env : Env.

(** [requests.get(url, ...)]: the answer is the oracle's, at the number of
    GETs made so far.  The request is one that can be sent: the
    credentials of [self.auth] are taken to be encodable as Latin-1, so
    that [HTTPBasicAuth] does not raise [UnicodeEncodeError] while the
    request is being prepared. *)
Definition get (k : get_kind) (u : string) : M http_result :=
  fun w => (Ret (http_get env (count is_get (trace w)) u), emit (EvGet k u) w).

(** ** StateStore *)

(** [get_cached_event_id]: the stripped contents of the cache file, or
    [None] when the file is missing, unreadable (the exception is logged) or
    blank. *)
Definition get_cached_event_id : M (option string) :=
  fun w =>
    match event_file w with
    | Missing => (Ret None, w)
    | Unreadable => (Ret None, w)
    | Content s =>
        let event_id := PyStr.strip (PyStr.universal_newlines s) in
        if PyStr.nonempty event_id then (Ret (Some event_id), w) else (Ret None, w)
    end.

(** [cache_event_id]: [mkdir], [open(..., 'w')] (which empties the file),
    [f.write(event_id)] (a [TypeError] for anything but a [str]), flush on
    leaving the [with] block.  Every exception is logged and gives [False]. *)
Definition cache_event_id (event_id : pyval) : M bool :=
  fun w =>
    let o := cache_write env (count is_cache_write (trace w)) in
    let w1 := emit (EvCacheWrite event_id o) w in
    match o with
    | WriteRefused => (Ret false, w1)
    | WriteBroken kept =>
        match event_id with
        | PStr s => (Ret false, set_event_file (Content (String.substring 0 kept s)) w1)
        | _ => (Ret false, set_event_file (Content "") w1)
        end
    | WriteOk =>
        match event_id with
        | PStr s => (Ret true, set_event_file (Content s) w1)
        | _ => (Ret false, set_event_file (Content "") w1)
        end
    end.

(** ** EndpointResolver *)

(** [_github_raw_base_url]. *)
Definition _github_raw_base_url : option string :=
  if negb (PyStr.nonempty (RCS_GIT_REPO cfg)) then None
  else
    match urlparse env (PyStr.strip (RCS_GIT_REPO cfg)) with
    | None => None
    | Some parsed =>
        if negb (String.eqb (netloc parsed) "github.com") || negb (PyStr.nonempty (path parsed))
        then None
        else
          let p := PyStr.strip_char "/" (path parsed) in
          let p := if PyStr.endswith ".git" p
                   then String.substring 0 (String.length p - 4) p else p in
          if negb (PyStr.contains "/" p) then None
          else Some ("https://raw.githubusercontent.com/" ++ p ++ "/" ++ RCS_GIT_BRANCH cfg)
    end.

(** [_fetch_cluster_url_from_github_raw]: the loop over the two file names. *)
Fixpoint fetch_names (raw_base : string) (names : list string) : M (option string) :=
  match names with
  | [] => ret None
  | name :: rest =>
      r <- get GetRaw (PyStr.rstrip_char "/" raw_base ++ "/" ++ name) ;;
      match r with
      | Response resp =>
          if status_code resp =? 200 then
            let cluster_url := PyStr.strip (text resp) in
            if PyStr.nonempty cluster_url then ret (Some cluster_url)
            else fetch_names raw_base rest
          else fetch_names raw_base rest
      | RequestError => fetch_names raw_base rest
      end
  end.

Definition _fetch_cluster_url_from_github_raw (raw_base : string) : M (option string) :=
  fetch_names raw_base [robot_name cfg; "catch-all"].

(** Truth value of an [Optional[str]]. *)
Definition opt_truthy (o : option string) : bool :=
  match o with
  | None => false
  | Some s => PyStr.nonempty s
  end.

(** The pause between two resolution attempts. *)
Definition retry_pause (attempt : Z) : M unit :=
  if (attempt <? REDIRECT_RETRIES cfg - 1) && (REDIRECT_RETRY_DELAY cfg >? 0)
  then sleep (REDIRECT_RETRY_DELAY cfg) else ret tt.

(** [for attempt in range(REDIRECT_RETRIES)] of the GitHub strategy, with
    [todo] attempts left. *)
Fixpoint raw_attempts (raw_base : string) (todo : nat) (attempt : Z) : M (option string) :=
  match todo with
  | O => ret None
  | S todo' =>
      cluster_url <- _fetch_cluster_url_from_github_raw raw_base ;;
      if opt_truthy cluster_url then ret cluster_url
      else retry_pause attempt ;; raw_attempts raw_base todo' (attempt + 1)
  end.

(** [for _ in range(10)] of the redirect chase, with [hops] iterations left.
    A [Ret] is a [return] of [get_cluster_url]; a raised [RequestException]
    goes to the [except] clause of the attempt. *)
Fixpoint chase (hops : nat) (u : string) (seen : list string) : M (option string) :=
  match hops with
  | O => ret None                                  (* "Too many redirects" *)
  | S hops' =>
      if existsb (String.eqb u) seen then ret None (* "Redirect loop detected" *)
      else
        let seen := u :: seen in
        r <- get GetRedirect u ;;
        match r with
        | RequestError => raise RequestException
        | Response resp =>
            if raises_for_status resp then raise RequestException
            else if is_redirect resp && location_truthy resp then
              match location resp with
              | None => ret None                   (* excluded by [location_truthy] *)
              | Some next_location =>
                  if PyStr.startswith "/" next_location then
                    match urlparse env (url resp) with
                    | None => raise ValueError
                    | Some parsed =>
                        chase hops' (scheme parsed ++ "://" ++ netloc parsed ++ next_location) seen
                    end
                  else chase hops' next_location seen
              end
            else ret (Some (PyStr.rstrip_char "/" (url resp)))
        end
  end.

(** [for attempt in range(REDIRECT_RETRIES)] of the redirect strategy. *)
Fixpoint redirect_attempts (todo : nat) (attempt : Z) : M (option string) :=
  match todo with
  | O => ret None
  | S todo' =>
      try_except (chase 10 (REDIRECT_URL cfg) [])
        is_RequestException
        (fun _ => retry_pause attempt ;; redirect_attempts todo' (attempt + 1))
  end.

(** [get_cluster_url]. *)
Definition get_cluster_url : M (option string) :=
  if REDIRECT_URL_IS_CLUSTER cfg && PyStr.nonempty (REDIRECT_URL cfg) then
    ret (Some (PyStr.rstrip_char "/" (PyStr.before_first "?" (REDIRECT_URL cfg))))
  else
    match _github_raw_base_url with
    | Some raw_base =>
        if PyStr.nonempty raw_base
        then raw_attempts raw_base (Z.to_nat (REDIRECT_RETRIES cfg)) 0
        else if negb (PyStr.nonempty (REDIRECT_URL cfg)) then ret None
        else redirect_attempts (Z.to_nat (REDIRECT_RETRIES cfg)) 0
    | None =>
        if negb (PyStr.nonempty (REDIRECT_URL cfg)) then ret None
        else redirect_attempts (Z.to_nat (REDIRECT_RETRIES cfg)) 0
    end.

(** ** ControlPlaneClient *)

(** [data.get(k1) or data.get(k2) or str(data)]; [data.get] exists on a dict
    only, any other JSON value raises [AttributeError]. *)
Definition pick (data : pyval) (k1 k2 : string) : result pyval :=
  match data with
  | PDict items =>
      Ret (py_or (dict_get items k1)
             (py_or (dict_get items k2) (PStr (str_of_dict env items))))
  | _ => Raise AttributeError
  end.

(** The body of a response, read as JSON or else as stripped text (for
    bodies within the recursion limit of the decoder). *)
Definition parse_body (resp : response) (k1 k2 : string) : result pyval :=
  match json resp with
  | Some data => pick data k1 k2
  | None => Ret (PStr (PyStr.strip (text resp)))
  end.

(** [_control_base]. *)
Definition _control_base (cluster_url : string) : string :=
  PyStr.rstrip_char "/" (PyStr.before_first "?" cluster_url) ++ "/control".

(** [query_event_id]: one attempt; a [RequestException] gives [None]. *)
Definition query_event_id (cluster_url : string) : M pyval :=
  try_except
    (let base := PyStr.rstrip_char "/" (PyStr.before_first "?" cluster_url) in
     r <- get GetEventId (base ++ "/control/eventId") ;;
     match r with
     | RequestError => raise RequestException
     | Response resp =>
         if raises_for_status resp then raise RequestException
         else lift (parse_body resp "event_id" "eventId")
     end)
    is_RequestException
    (fun _ => ret PNone).

(** [report_init_status]: a POST whose failure ([RequestException], HTTP
    error status) is logged and dropped; nothing of the answer is used. *)
Definition report_init_status (cluster_url : string) (status : init_status) : M unit :=
  tell (EvPost (_control_base cluster_url ++ "/initStatus") status).

(** The [while True] loop of [query_skupper_token]. *)
Fixpoint token_loop (fuel : nat) (cluster_url : string) : M pyval :=
  match fuel with
  | O => fun w => (OutOfFuel, w)
  | S fuel' =>
      r <- get GetToken (_control_base cluster_url ++ "/getToken") ;;
      match r with
      | Response resp =>
          if status_code resp =? 200 then
            token <- lift (parse_body resp "token" "skupper_token") ;;
            report_init_status cluster_url StTokenRetrieved ;;
            ret token
          else sleep 5 ;; token_loop fuel' cluster_url
      | RequestError => sleep 5 ;; token_loop fuel' cluster_url
      end
  end.

(** [query_skupper_token]. *)
Definition query_skupper_token (fuel : nat) (cluster_url : string) : M pyval :=
  report_init_status cluster_url StQueryingToken ;;
  token_loop fuel cluster_url.

(** ** TunnelProbe *)

(** What [check_skupper_tunnel] concludes from the outcome of
    [skupper status -n skupper]. *)
Definition tunnel_verdict (r : proc_result) : bool :=
  match r with
  | Completed returncode out _ =>
      let stdout := PyStr.lower out in
      if negb (returncode =? 0) then false
      else PyStr.contains "connected to" stdout && PyStr.contains "other site" stdout
  | NotFound => false        (* except FileNotFoundError *)
  | TimedOut => false        (* except subprocess.TimeoutExpired *)
  | ProcError => false       (* except Exception *)
  end.

(** [check_skupper_tunnel]. *)
Definition check_skupper_tunnel : M bool :=
  fun w =>
    let r := skupper_status env (count is_skupper (trace w)) in
    (Ret (tunnel_verdict r), emit (EvSkupperStatus r) w).

(** [token_path.unlink()]; an [OSError] is logged and dropped. *)
Definition unlink_token_file : M unit :=
  fun w =>
    let ok := unlink_ok env (count is_unlink (trace w)) in
    let w1 := emit (EvUnlink ok) w in
    if ok then (Ret tt, set_token_file None w1) else (Ret tt, w1).

(** [_remove_token_file_after_tunnel_up]. *)
Definition _remove_token_file_after_tunnel_up : M unit :=
  fun w =>
    match token_file w with
    | None => (Ret tt, w)
    | Some _ =>
        (sleep 15 ;;
         up <- check_skupper_tunnel ;;
         if up then unlink_token_file else ret tt) w
    end.

(** ** Provisioner *)

(** [mkdir], [write_text(token)], [chmod(0o600)] at the start of
    [_run_ansible_playbook_once].  [write_text] raises [TypeError] for
    anything but a [str] before it opens the file. *)
Definition write_token_file (token : pyval) : M unit :=
  fun w =>
    let o := token_write env (count is_token_write (trace w)) in
    let w1 := emit (EvTokenWrite o) w in
    match o with
    | TokenDirFails => (Raise OSError, w1)
    | TokenWriteFails kept =>
        match token with
        | PStr s =>
            match kept with
            | None => (Raise OSError, w1)
            | Some k => (Raise OSError, set_token_file (Some (String.substring 0 k s)) w1)
            end
        | _ => (Raise TypeError, w1)
        end
    | TokenWritten =>
        match token with
        | PStr s => (Ret tt, set_token_file (Some s) w1)
        | _ => (Raise TypeError, w1)
        end
    end.

(** [subprocess.run(['ansible-playbook', ...], timeout=600)]. *)
Definition run_playbook_process : M proc_result :=
  fun w =>
    let r := ansible_playbook env (count is_playbook (trace w)) in
    (Ret r, emit (EvPlaybook r) w).

(** The record appended to [ANSIBLE_OUTPUT_LOG] when that is set; an
    [OSError] while writing is logged and dropped. *)
Definition append_audit (returncode : Z) : M unit :=
  if PyStr.nonempty (ANSIBLE_OUTPUT_LOG cfg) then tell (EvAudit returncode) else ret tt.

(** [_run_ansible_playbook_once]. *)
Definition _run_ansible_playbook_once (token : pyval) : M bool :=
  write_token_file token ;;
  r <- run_playbook_process ;;
  match r with
  | Completed returncode _ _ =>
      append_audit returncode ;;
      ret (returncode =? 0)
  | NotFound => raise FileNotFoundError
  | TimedOut => raise TimeoutExpired
  | ProcError => raise OSError
  end.

(** [for attempt in range(1, PLAYBOOK_RETRIES + 1)], with [todo] attempts left. *)
Fixpoint playbook_attempts (token : pyval) (todo : nat) (attempt : Z) : M bool :=
  match todo with
  | O => ret false
  | S todo' =>
      (if attempt >? 1 then sleep (PLAYBOOK_RETRY_DELAY cfg) else ret tt) ;;
      ok <- _run_ansible_playbook_once token ;;
      if ok then ret true else playbook_attempts token todo' (attempt + 1)
  end.

(** [run_ansible_playbook].  The [try] encloses the whole loop.  Each of
    the three [except] clauses starts with
    [self.report_init_status(cluster_url, ...)], and [cluster_url] is bound
    neither in this method nor at module level: evaluating the argument
    raises [NameError] before anything is posted, logged or returned. *)
Definition run_ansible_playbook (token : pyval) : M bool :=
  try_except
    (playbook_attempts token (Z.to_nat (PLAYBOOK_RETRIES cfg)) 1)
    is_Exception
    (fun _ => raise NameError).

(** ** Orchestrator *)

(** The part the two provisioning branches of [process_event] share: token,
    playbook, cache, token-file removal.  [done] is the status posted after
    a successful playbook ("configured" without a cached id, "Okay" with one). *)
Definition configure (fuel : nat) (cluster_url : string) (current_event_id : pyval)
    (done : init_status) : M bool :=
  token <- query_skupper_token fuel cluster_url ;;
  if negb (truthy token) then ret false
  else
    report_init_status cluster_url StStartingConfigure ;;
    ok <- run_ansible_playbook token ;;
    if negb ok then
      report_init_status cluster_url StFailedConfigure ;;
      ret false
    else
      report_init_status cluster_url done ;;
      cached <- cache_event_id current_event_id ;;
      if cached then
        _remove_token_file_after_tunnel_up ;;
        ret true
      else ret false.

(** [process_event]. *)
Definition process_event (fuel : nat) : M bool :=
  cached_event_id <- get_cached_event_id ;;
  cluster_url <- get_cluster_url ;;
  match cluster_url with
  | None => ret false
  | Some cluster_url =>
      if negb (PyStr.nonempty cluster_url) then ret false
      else
        current_event_id <- query_event_id cluster_url ;;
        if negb (truthy current_event_id) then ret false
        else
          match cached_event_id with
          | None =>
              report_init_status cluster_url StEidUnknown ;;
              configure fuel cluster_url current_event_id StConfigured
          | Some cached =>
              if str_eq_val cached current_event_id then
                report_init_status cluster_url StEidKnown ;;
                ret true
              else configure fuel cluster_url current_event_id StOkay
          end
  end.

(** [run]: the start-up delay, a first look at the cache (for the log
    only), then [process_event].  [success] is only logged; an exception
    out of [process_event] is caught and turned into [sys.exit(1)]. *)
Definition run (fuel : nat) : M unit :=
  (if SERVICE_STARTUP_DELAY cfg >? 0 then sleep (SERVICE_STARTUP_DELAY cfg) else ret tt) ;;
  _ <- get_cached_event_id ;;
  try_except
    (_ <- process_event fuel ;; ret tt)
    is_Exception
    (fun _ => raise (SystemExit 1)).

(** [RobotConfigService.__init__]: the constructor refuses to build a
    service that has neither [REDIRECT_URL] nor [RCS_GIT_REPO]; the rest of
    it only stores values. *)
Definition __init__ : result unit :=
  if negb (PyStr.nonempty (REDIRECT_URL cfg)) && negb (PyStr.nonempty (RCS_GIT_REPO cfg))
  then Raise ValueError
  else Ret tt.

(** [main]: the two [mkdir(parents=True, exist_ok=True)] of the state
    directories ([mkdirs_ok] tells whether they go through, an [OSError]
    otherwise), the constructor, then [run]. *)
Definition main (mkdirs_ok : bool) (fuel : nat) : M unit :=
  if mkdirs_ok then lift __init__ ;; run fuel else raise OSError.

End Service.

(** The exit status of the process when [run] ends with [r]: [0] when it
    returns, the code of a [SystemExit], [1] for any other exception that
    reaches the top level; nothing while the run has not ended. *)
Definition exit_status (r : result unit) : option Z :=
  match r with
  | Ret _ => Some 0
  | Raise (SystemExit code) => Some code
  | Raise _ => Some 1
  | OutOfFuel => None
  end.

(** The world a run starts from: the two files, no effect yet. *)
Definition boot (cache : file_state) (token : option string) : world :=
  {| event_file := cache; token_file := token; trace := [] |}.

(* ===================================================================== *)
(** * Reading a run off its trace *)
(* ===================================================================== *)

Open Scope list_scope.

(** A playbook run that exited with status 0. *)
Definition playbook_ok (e : event) : bool :=
  match e with
  | EvPlaybook (Completed returncode _ _) => returncode =? 0
  | _ => false
  end.

(** A cache write that went through, for a [str] event id. *)
Definition cache_written (e : event) : bool :=
  match e with
  | EvCacheWrite (PStr _) WriteOk => true
  | _ => false
  end.

(** A tunnel probe that said "up". *)
Definition probe_up (e : event) : bool :=
  match e with
  | EvSkupperStatus r => tunnel_verdict r
  | _ => false
  end.

(** An [unlink] of the token file that went through. *)
Definition unlinked (e : event) : bool :=
  match e with
  | EvUnlink ok => ok
  | _ => false
  end.

(** The token was received: the status post that follows HTTP 200. *)
Definition token_retrieved (e : event) : bool :=
  match e with
  | EvPost _ StTokenRetrieved => true
  | _ => false
  end.

(** Events of the resolution phase, of the event-id query, of the token
    fetch, of the playbook phase. *)
Definition ev_resolve (e : event) : bool :=
  match e with
  | EvGet GetRaw _ | EvGet GetRedirect _ | EvSleep _ => true
  | _ => false
  end.

Definition ev_query (e : event) : bool :=
  match e with
  | EvGet GetEventId _ => true
  | _ => false
  end.

Definition ev_token (e : event) : bool :=
  match e with
  | EvGet GetToken _ | EvSleep _ | EvPost _ _ => true
  | _ => false
  end.

Definition ev_playbook (e : event) : bool :=
  match e with
  | EvSleep _ | EvTokenWrite _ | EvPlaybook _ | EvAudit _ => true
  | _ => false
  end.

(** [w'] comes after [w]: the trace grew by events that all satisfy [P],
    the cache file changed only if a cache write is among them, the token
    file changed only if a token write or an unlink is among them, and it
    did not disappear without a successful unlink. *)
Definition follows (P : event -> bool) (w w' : world) : Prop :=
  exists new,
    trace w' = new ++ trace w /\
    forallb P new = true /\
    (existsb is_cache_write new = false -> event_file w' = event_file w) /\
    (existsb is_token_write new = false -> existsb is_unlink new = false ->
     token_file w' = token_file w) /\
    (existsb unlinked new = false -> token_file w <> None -> token_file w' <> None).

(** Every run of [m] leads to a world that [follows P]. *)
Definition respects {A} (P : event -> bool) (m : M A) : Prop :=
  forall w r w', m w = (r, w') -> follows P w w'.

(** [m] always ends: it returns or raises without ever running out of fuel. *)
Definition total {A} (m : M A) : Prop :=
  forall w, fst (m w) <> OutOfFuel.

(** The event id a run obtains from the control plane: resolution gave a
    non-empty URL and the query at that URL gave a true value. *)
Definition queried (cfg : Config) (env : Env) (w : world) : option pyval :=
  match get_cluster_url cfg env w with
  | (Ret (Some cluster_url), w1) =>
      if PyStr.nonempty cluster_url then
        match query_event_id env cluster_url w1 with
        | (Ret v, _) => if truthy v then Some v else None
        | _ => None
        end
      else None
  | _ => None
  end.


(** [k] rounds of the token loop that did not get HTTP 200, newest first. *)
Fixpoint token_retries (k : nat) (u : string) : list event :=
  match k with
  | O => []
  | S k' => EvSleep 5 :: EvGet GetToken u :: token_retries k' u
  end.

(** An answer that makes [query_skupper_token] go round again. *)
Definition not_200 (r : http_result) : bool :=
  match r with
  | Response resp => negb (status_code resp =? 200)
  | RequestError => true
  end.




(** A redirect answer that the chase follows. *)
Definition redirects (r : http_result) : bool :=
  match r with
  | Response resp => negb (raises_for_status resp) && is_redirect resp && location_truthy resp
  | RequestError => false
  end.

(** Where the chase goes after an answer: the [Location] of a redirect
    that it follows, made absolute against the URL of the answer when it
    starts with a slash; [None] when the chase stops there. *)
Definition redirect_target (env : Env) (r : http_result) : option string :=
  match r with
  | Response resp =>
      if negb (raises_for_status resp) && is_redirect resp && location_truthy resp then
        match location resp with
        | Some next_location =>
            if PyStr.startswith "/" next_location then
              match urlparse env (url resp) with
              | Some parsed =>
                  Some (scheme parsed ++ "://" ++ netloc parsed ++ next_location)%string
              | None => None
              end
            else Some next_location
        | None => None
        end
      else None
  | RequestError => None
  end.

(** The answers send the chase from [u], asked with the [n]-th GET,
    through the URLs of [path] one after the other, and from the last of
    them to [last]. *)
Fixpoint redirected_along (env : Env) (n : nat) (u : string) (path : list string)
    (last : string) : Prop :=
  match path with
  | [] => redirect_target env (http_get env n u) = Some last
  | v :: path' =>
      redirect_target env (http_get env n u) = Some v /\
      redirected_along env (S n) v path' last
  end.

(** The world after the chase has asked for each of [urls] in turn. *)
Definition visited (urls : list string) (w : world) : world :=
  fold_left (fun w u => emit (EvGet GetRedirect u) w) urls w.

(** [s] holds a carriage return. *)
Fixpoint has_cr (s : string) : bool :=
  match s with
  | EmptyString => false
  | String c s' => Ascii.eqb c "013"%char || has_cr s'
  end.

(* ===================================================================== *)
(** * Worlds used as concrete inputs *)
(* ===================================================================== *)

Module Example.

Definition cfg : Config := {|
  REDIRECT_URL := "https://hub.example/start";
  REDIRECT_RETRIES := 3;
  REDIRECT_RETRY_DELAY := 10;
  REDIRECT_URL_IS_CLUSTER := false;
  env_RCS_GIT_REPO := "";
  env_RCS_GIT_BRANCH := "main";
  SERVICE_STARTUP_DELAY := 60;
  env_PLAYBOOK_RETRIES := 2;
  PLAYBOOK_RETRY_DELAY := 30;
  env_ANSIBLE_OUTPUT_LOG := "/var/log/robot-config-service-ansible.log";
  robot_name := "robot1"
|}.

(** The same configuration with [REDIRECT_URL] used as the cluster URL. *)
Definition cfg_direct : Config := {|
  REDIRECT_URL := "https://cluster.example/";
  REDIRECT_RETRIES := 3;
  REDIRECT_RETRY_DELAY := 10;
  REDIRECT_URL_IS_CLUSTER := true;
  env_RCS_GIT_REPO := "";
  env_RCS_GIT_BRANCH := "main";
  SERVICE_STARTUP_DELAY := 0;
  env_PLAYBOOK_RETRIES := 2;
  PLAYBOOK_RETRY_DELAY := 30;
  env_ANSIBLE_OUTPUT_LOG := "";
  robot_name := "robot1"
|}.

Definition plain (status : Z) (u body : string) : http_result :=
  Response {| status_code := status; text := body; json := None;
              location := None; url := u |}.

Definition redirect_to (u target : string) : http_result :=
  Response {| status_code := 302; text := ""; json := None;
              location := Some target; url := u |}.

Definition parse_any (_ : string) : option parsed_url :=
  Some {| scheme := "https"; netloc := "hub.example"; path := "/" |}.

(** A control plane that answers every GET with HTTP 200 and the body
    chosen by [body], a playbook given by [playbook], a cache write given
    by [cache], and a tunnel that is up. *)
Definition env_with (body : nat -> string) (playbook : nat -> proc_result)
    (cache : write_outcome) : Env := {|
  urlparse := parse_any;
  str_of_dict := fun _ => "{}";
  http_get := fun n u => plain 200 u (body n);
  skupper_status := fun _ => Completed 0 "Connected to 1 other site" "";
  ansible_playbook := playbook;
  token_write := fun _ => TokenWritten;
  cache_write := fun _ => cache;
  unlink_ok := fun _ => true
|}.

(** First GET: the event id; second GET: the token. *)
Definition bodies (event_id token : string) (n : nat) : string :=
  match n with
  | O => event_id
  | _ => token
  end.

Definition playbook_succeeds (_ : nat) : proc_result := Completed 0 "ok" "".
Definition playbook_fails (_ : nat) : proc_result := Completed 2 "" "fatal".



(** Everything goes well. *)
Definition env_happy : Env := env_with (bodies "ev-42" "tok") playbook_succeeds WriteOk.

(** The playbook succeeds, the cache file cannot be written. *)
Definition env_cache_refused : Env :=
  env_with (bodies "ev-42" "tok") playbook_succeeds WriteRefused.

(** The playbook exits non-zero on every attempt. *)
Definition env_playbook_fails : Env := env_with (bodies "ev-2" "tok") playbook_fails WriteOk.



(** The token endpoint answers 200 with a blank body. *)
Definition env_blank_token : Env := env_with (bodies "ev-2" "  ") playbook_succeeds WriteOk.

(** The event id is "ev-2"; the token endpoint answers 503 once, then 200
    with a blank body. *)
Definition env_blank_later : Env := {|
  urlparse := parse_any;
  str_of_dict := fun _ => "{}";
  http_get := fun n u =>
    match n with
    | O => plain 200 u "ev-2"
    | 1%nat => plain 503 u ""
    | _ => plain 200 u "  "
    end;
  skupper_status := fun _ => Completed 0 "" "";
  ansible_playbook := playbook_succeeds;
  token_write := fun _ => TokenWritten;
  cache_write := fun _ => WriteOk;
  unlink_ok := fun _ => true
|}.

(** The token endpoint answers 503 twice, then 200. *)
Definition env_token_later : Env := {|
  urlparse := parse_any;
  str_of_dict := fun _ => "{}";
  http_get := fun n u =>
    match n with
    | O => plain 503 u ""
    | 1%nat => RequestError
    | _ => plain 200 u "tok"
    end;
  skupper_status := fun _ => Completed 0 "" "";
  ansible_playbook := playbook_succeeds;
  token_write := fun _ => TokenWritten;
  cache_write := fun _ => WriteOk;
  unlink_ok := fun _ => true
|}.

(** Two URLs that redirect to each other. *)
Definition env_cycle : Env := {|
  urlparse := parse_any;
  str_of_dict := fun _ => "{}";
  http_get := fun _ u =>
    if String.eqb u "https://hub.example/start"
    then redirect_to u "https://hub.example/next"
    else redirect_to u "https://hub.example/start";
  skupper_status := fun _ => Completed 0 "" "";
  ansible_playbook := playbook_succeeds;
  token_write := fun _ => TokenWritten;
  cache_write := fun _ => WriteOk;
  unlink_ok := fun _ => true
|}.

(** A robot whose cluster URL is published in a GitHub repository; the
    redirect URL is set as well. *)
Definition cfg_github : Config := {|
  REDIRECT_URL := "https://hub.example/start";
  REDIRECT_RETRIES := 3;
  REDIRECT_RETRY_DELAY := 10;
  REDIRECT_URL_IS_CLUSTER := false;
  env_RCS_GIT_REPO := "https://github.com/org/robots.git";
  env_RCS_GIT_BRANCH := "";
  SERVICE_STARTUP_DELAY := 0;
  env_PLAYBOOK_RETRIES := 0;
  PLAYBOOK_RETRY_DELAY := 30;
  env_ANSIBLE_OUTPUT_LOG := "";
  robot_name := "robot1"
|}.

(** The repository has no file for this robot (404); "catch-all" holds the
    cluster URL. *)
Definition env_github : Env := {|
  urlparse := fun _ =>
    Some {| scheme := "https"; netloc := "github.com"; path := "/org/robots.git" |};
  str_of_dict := fun _ => "{}";
  http_get := fun n u =>
    match n with
    | O => plain 404 u "404: Not Found"
    | _ => plain 200 u "https://cluster.example"
    end;
  skupper_status := fun _ => Completed 0 "" "";
  ansible_playbook := playbook_succeeds;
  token_write := fun _ => TokenWritten;
  cache_write := fun _ => WriteOk;
  unlink_ok := fun _ => true
|}.

(** The control plane answers every GET with the JSON string "ev-42"
    rather than with a JSON object. *)
Definition env_bare_json : Env := {|
  urlparse := parse_any;
  str_of_dict := fun _ => "{}";
  http_get := fun _ u =>
    Response {| status_code := 200; text := "ev-42"; json := Some (PStr "ev-42");
                location := None; url := u |};
  skupper_status := fun _ => Completed 0 "" "";
  ansible_playbook := playbook_succeeds;
  token_write := fun _ => TokenWritten;
  cache_write := fun _ => WriteOk;
  unlink_ok := fun _ => true
|}.

(** No network at all. *)
Definition env_offline : Env := {|
  urlparse := parse_any;
  str_of_dict := fun _ => "{}";
  http_get := fun _ _ => RequestError;
  skupper_status := fun _ => NotFound;
  ansible_playbook := playbook_succeeds;
  token_write := fun _ => TokenWritten;
  cache_write := fun _ => WriteOk;
  unlink_ok := fun _ => true
|}.

End Example.

(* ===================================================================== *)
(** * Shapes of runs *)
(* ===================================================================== *)

(** What a run of the playbook loop leaves behind: only playbook-phase
    events, the cache file untouched, the token file not removed, a playbook
    exit status 0 in the trace exactly when the result is [True] (and then
    the token file is there), and never a lack of fuel. *)
Definition provisioned (r : result bool) (w w' : world) : Prop :=
  exists new,
    trace w' = new ++ trace w /\
    forallb ev_playbook new = true /\
    event_file w' = event_file w /\
    (token_file w <> None -> token_file w' <> None) /\
    existsb playbook_ok new = (match r with Ret true => true | _ => false end) /\
    (r = Ret true -> token_file w' <> None) /\
    r <> OutOfFuel.

(** The three ways the commit phase (status post, cache write, token-file
    removal) can go, with the events it leaves, newest first.  [old] is the
    cache file before, [w'] the world after.  A cache write that fails
    leaves the file as it was when it is refused, and otherwise, the file
    having been opened for writing, with the part of the id that arrived. *)
Inductive committed (cur : pyval) (done : init_status) (old : file_state) (w' : world) :
    result bool -> list event -> Prop :=
| CommitCacheFails u o :
    cache_written (EvCacheWrite cur o) = false ->
    event_file w' =
      match o with
      | WriteRefused => old
      | WriteBroken kept =>
          Content (match cur with PStr s => String.substring 0 kept s | _ => "" end)
      | WriteOk => Content ""
      end ->
    token_file w' <> None ->
    committed cur done old w' (Ret false) [EvCacheWrite cur o; EvPost u done]
| CommitTunnelDown u s pr :
    cur = PStr s ->
    tunnel_verdict pr = false ->
    event_file w' = Content s ->
    token_file w' <> None ->
    committed cur done old w' (Ret true)
      [EvSkupperStatus pr; EvSleep 15; EvCacheWrite cur WriteOk; EvPost u done]
| CommitTunnelUp u s pr ok :
    cur = PStr s ->
    tunnel_verdict pr = true ->
    event_file w' = Content s ->
    (token_file w' = None <-> ok = true) ->
    committed cur done old w' (Ret true)
      [EvUnlink ok; EvSkupperStatus pr; EvSleep 15; EvCacheWrite cur WriteOk; EvPost u done].

(** What the token fetch leaves behind: only token-phase events, both
    files untouched, and the "token retrieved" post whenever it returns. *)
Definition fetched (rt : result pyval) (w w1 : world) (nt : list event) : Prop :=
  trace w1 = nt ++ trace w /\
  forallb ev_token nt = true /\
  event_file w1 = event_file w /\
  token_file w1 = token_file w /\
  (forall tok, rt = Ret tok -> existsb token_retrieved nt = true).

(** The ways [configure] can go: no usable token; a token but no
    successful playbook; a successful playbook followed by the commit
    phase.  [new] holds the events of the run, newest first. *)
Inductive configured (cur : pyval) (done : init_status) (w w' : world) (r : result bool) :
    list event -> Prop :=
| ConfNoToken nt :
    forallb ev_token nt = true ->
    event_file w' = event_file w ->
    token_file w' = token_file w ->
    r <> Ret true ->
    configured cur done w w' r nt
| ConfNoPlaybook nt np post u :
    forallb ev_token nt = true ->
    existsb token_retrieved nt = true ->
    forallb ev_playbook np = true ->
    existsb playbook_ok np = false ->
    (post = [] \/ exists u', post = [EvPost u' StFailedConfigure]) ->
    event_file w' = event_file w ->
    (token_file w <> None -> token_file w' <> None) ->
    r <> Ret true ->
    configured cur done w w' r (post ++ np ++ EvPost u StStartingConfigure :: nt)
| ConfPlaybookOk nt np nc u :
    forallb ev_token nt = true ->
    existsb token_retrieved nt = true ->
    forallb ev_playbook np = true ->
    existsb playbook_ok np = true ->
    committed cur done (event_file w) w' r nc ->
    configured cur done w w' r (nc ++ np ++ EvPost u StStartingConfigure :: nt).

(** Events before the token fetch: resolution, the event-id query, and the
    "EID unknown" or "EID known" post. *)
Definition ev_early (e : event) : bool :=
  match e with
  | EvGet GetRaw _ | EvGet GetRedirect _ | EvGet GetEventId _ | EvSleep _ => true
  | EvPost _ StEidUnknown | EvPost _ StEidKnown => true
  | _ => false
  end.

(** The ways [process_event] can go: it ends before any token is asked for
    (resolution or query failed, or the event is known), or it obtains the
    current event id [cur] and runs [configure] from a world [w2] that
    still has both files as they were. *)
Inductive processed (cfg : Config) (env : Env) (w w' : world) (r : result bool) :
    list event -> Prop :=
| ProcEarly ne :
    forallb ev_early ne = true ->
    event_file w' = event_file w ->
    token_file w' = token_file w ->
    processed cfg env w w' r ne
| ProcConfigure ne nc cur done w2 :
    forallb ev_early ne = true ->
    queried cfg env w = Some cur ->
    event_file w2 = event_file w ->
    token_file w2 = token_file w ->
    configured cur done w2 w' r nc ->
    processed cfg env w w' r (nc ++ ne).

(** Every character of [s] is white space. *)
Fixpoint all_space (s : string) : bool :=
  match s with
  | EmptyString => true
  | String c s' => PyStr.is_space c && all_space s'
  end.

(** Every run of [m] ends (it returns or raises), and adds at most [n]
    events of the kind [p] to the trace. *)
Definition within {A} (p : event -> bool) (n : nat) (m : M A) : Prop :=
  forall w r w',
    m w = (r, w') ->
    r <> OutOfFuel /\
    exists new, trace w' = new ++ trace w /\ (count p new <= n)%nat.




(** What one run of the playbook makes of [_run_ansible_playbook_once]. *)
Definition once_outcome (r : proc_result) : result bool :=
  match r with
  | Completed returncode _ _ => Ret (returncode =? 0)
  | NotFound => Raise FileNotFoundError
  | TimedOut => Raise TimeoutExpired
  | ProcError => Raise OSError
  end.

(** Events that touch neither the cache file nor the tunnel nor remove the
    token file. *)
Definition ev_quiet (e : event) : bool :=
  negb (is_cache_write e || is_skupper e || is_unlink e).

(** [s] holds the character [ch]. *)
Fixpoint has_char (ch : ascii) (s : string) : bool :=
  match s with
  | EmptyString => false
  | String c s' => Ascii.eqb c ch || has_char ch s'
  end.

(** [s] does not start with white space. *)
Definition no_leading_space (s : string) : bool :=
  match s with
  | EmptyString => true
  | String c _ => negb (PyStr.is_space c)
  end.

(** Events of the GitHub strategy: GETs of raw files and pauses. *)
Definition ev_raw (e : event) : bool :=
  match e with
  | EvGet GetRaw _ | EvSleep _ => true
  | _ => false
  end.

(** [process_event], started in [w0], gets as far as the provisioning part:
    resolution gives the non-empty [cluster_url], the query gives the true
    value [cur], and either nothing is cached ("EID unknown" is posted, and
    a success will be reported as "configured") or another id is cached (a
    success will be reported as "Okay").  [wc] is the world in which the
    token is asked for. *)
Definition reaches_configure (cfg : Config) (env : Env) (w0 : world)
    (cluster_url : string) (cur : pyval) (done : init_status) (wc : world) : Prop :=
  exists cached w1 w2,
    get_cached_event_id w0 = (Ret cached, w0) /\
    get_cluster_url cfg env w0 = (Ret (Some cluster_url), w1) /\
    PyStr.nonempty cluster_url = true /\
    query_event_id env cluster_url w1 = (Ret cur, w2) /\
    truthy cur = true /\
    match cached with
    | None =>
        done = StConfigured /\
        wc = emit (EvPost (_control_base cluster_url ++ "/initStatus") StEidUnknown) w2
    | Some c => str_eq_val c cur = false /\ done = StOkay /\ wc = w2
    end.



(** What the GitHub strategy makes of one answer: the stripped body of an
    HTTP 200 answer, unless it is blank. *)
Definition raw_answer (r : http_result) : option string :=
  match r with
  | Response resp =>
      if (status_code resp =? 200) && PyStr.nonempty (PyStr.strip (text resp))
      then Some (PyStr.strip (text resp)) else None
  | RequestError => None
  end.

(* ===================================================================== *)
(** * Frame lemmas: which events a method emits, which files it touches *)
(* ===================================================================== *)

Lemma sleep_cases (d : Z) (w : world) :
  sleep d w = (Raise OverflowError, w) \/
  sleep d w = (Raise ValueError, w) \/
  sleep d w = (Ret tt, emit (EvSleep d) w).
Proof.
  unfold sleep. destruct ((d <? - sleep_max) || (sleep_max <? d)); [left; reflexivity|].
  destruct (d <? 0); [right; left; reflexivity | right; right; reflexivity].
Qed.



Lemma existsb_app_false {A} (f : A -> bool) (l1 l2 : list A) :
  existsb f (l1 ++ l2) = false -> existsb f l1 = false /\ existsb f l2 = false.
Proof.
  rewrite existsb_app. intros H. apply orb_false_iff in H. exact H.
Qed.

Lemma forallb_excludes (P Q : event -> bool) (l : list event) :
  (forall e, P e = true -> Q e = false) ->
  forallb P l = true -> existsb Q l = false.
Proof.
  intros HPQ. induction l as [|e l IH]; simpl; intros H.
  - reflexivity.
  - apply andb_true_iff in H. destruct H as [He Hl].
    rewrite (HPQ e He), (IH Hl). reflexivity.
Qed.

Lemma forallb_weaken (P Q : event -> bool) (l : list event) :
  (forall e, P e = true -> Q e = true) ->
  forallb P l = true -> forallb Q l = true.
Proof.
  intros HPQ. induction l as [|e l IH]; simpl; intros H.
  - reflexivity.
  - apply andb_true_iff in H. destruct H as [He Hl].
    rewrite (HPQ e He), (IH Hl). reflexivity.
Qed.

Lemma count_app (p : event -> bool) (l1 l2 : list event) :
  count p (l1 ++ l2) = (count p l1 + count p l2)%nat.
Proof.
  unfold count. rewrite filter_app, length_app. reflexivity.
Qed.

Lemma count_excluded (P Q : event -> bool) (l : list event) :
  (forall e, P e = true -> Q e = false) ->
  forallb P l = true -> count Q l = 0%nat.
Proof.
  intros HPQ. unfold count. induction l as [|e l IH]; simpl; intros H.
  - reflexivity.
  - apply andb_true_iff in H. destruct H as [He Hl].
    rewrite (HPQ e He). exact (IH Hl).
Qed.

Section Frames.

Variable P : event -> bool.

Lemma follows_refl (w : world) : follows P w w.
Proof.
  exists []. simpl. repeat split; auto.
Qed.

Lemma follows_trans (a b c : world) :
  follows P a b -> follows P b c -> follows P a c.
Proof.
  intros (n1 & T1 & F1 & C1 & K1 & U1) (n2 & T2 & F2 & C2 & K2 & U2).
  exists (n2 ++ n1). repeat split.
  - rewrite T2, T1, app_assoc. reflexivity.
  - rewrite forallb_app, F1, F2. reflexivity.
  - intros H. apply existsb_app_false in H. destruct H as [H2 H1].
    rewrite (C2 H2). exact (C1 H1).
  - intros Hw Hu. apply existsb_app_false in Hw. apply existsb_app_false in Hu.
    destruct Hw as [Hw2 Hw1]. destruct Hu as [Hu2 Hu1].
    rewrite (K2 Hw2 Hu2). exact (K1 Hw1 Hu1).
  - intros H Ha. apply existsb_app_false in H. destruct H as [H2 H1].
    exact (U2 H2 (U1 H1 Ha)).
Qed.

(** An event that touches no file. *)
Lemma follows_emit (e : event) (w : world) :
  P e = true -> follows P w (emit e w).
Proof.
  intros He. exists [e]. simpl. rewrite He. repeat split; auto.
Qed.

Lemma respects_ret {A} (a : A) : respects P (ret a).
Proof. intros w r w' H. inversion H; subst. apply follows_refl. Qed.

Lemma respects_raise {A} (e : exn) : respects P (@raise A e).
Proof. intros w r w' H. inversion H; subst. apply follows_refl. Qed.

Lemma respects_lift {A} (x : result A) : respects P (lift x).
Proof. intros w r w' H. inversion H; subst. apply follows_refl. Qed.

Lemma respects_tell (e : event) : P e = true -> respects P (tell e).
Proof. intros He w r w' H. inversion H; subst. apply follows_emit, He. Qed.

Lemma respects_bind {A B} (m : M A) (k : A -> M B) :
  respects P m -> (forall a, respects P (k a)) -> respects P (bind m k).
Proof.
  intros Hm Hk w r w' H. unfold bind in H.
  destruct (m w) as [[a| e |] w1] eqn:E.
  - eapply follows_trans; [exact (Hm _ _ _ E) | exact (Hk _ _ _ _ H)].
  - inversion H; subst. exact (Hm _ _ _ E).
  - inversion H; subst. exact (Hm _ _ _ E).
Qed.

Lemma respects_try_except {A} (m : M A) (c : exn -> bool) (h : exn -> M A) :
  respects P m -> (forall e, respects P (h e)) -> respects P (try_except m c h).
Proof.
  intros Hm Hh w r w' H. unfold try_except in H.
  destruct (m w) as [[a| e |] w1] eqn:E.
  - inversion H; subst. exact (Hm _ _ _ E).
  - destruct (c e).
    + eapply follows_trans; [exact (Hm _ _ _ E) | exact (Hh _ _ _ _ H)].
    + inversion H; subst. exact (Hm _ _ _ E).
  - inversion H; subst. exact (Hm _ _ _ E).
Qed.

Lemma respects_sleep (d : Z) : P (EvSleep d) = true -> respects P (sleep d).
Proof.
  intros He. unfold sleep.
  destruct ((d <? - sleep_max) || (sleep_max <? d)); [apply respects_raise|].
  destruct (d <? 0).
  - apply respects_raise.
  - apply respects_tell, He.
Qed.

Lemma respects_get (env : Env) (k : get_kind) (u : string) :
  P (EvGet k u) = true -> respects P (get env k u).
Proof.
  intros He w r w' H. unfold get in H. inversion H; subst. apply follows_emit, He.
Qed.

End Frames.

Lemma follows_weaken (P Q : event -> bool) (w w' : world) :
  (forall e, P e = true -> Q e = true) -> follows P w w' -> follows Q w w'.
Proof.
  intros HPQ (n & T & F & C & K & U). exists n. repeat split; auto.
  eapply forallb_weaken; eauto.
Qed.

Lemma respects_weaken {A} (P Q : event -> bool) (m : M A) :
  (forall e, P e = true -> Q e = true) -> respects P m -> respects Q m.
Proof.
  intros HPQ Hm w r w' H. eapply follows_weaken; [exact HPQ | exact (Hm _ _ _ H)].
Qed.

(** One step of a frame proof: the monad combinators, the primitive
    effects, then a case split on whatever the program branches on. *)
Ltac frame_step :=
  first
    [ solve [auto]
    | apply respects_ret | apply respects_raise | apply respects_lift
    | apply respects_tell; reflexivity
    | apply respects_sleep; reflexivity
    | apply respects_get; reflexivity
    | apply respects_bind; [ | intros ? ]
    | apply respects_try_except; [ | intros ? ]
    | match goal with
      | |- respects _ (match ?x with _ => _ end) => destruct x
      end ].

Ltac frame := repeat frame_step.

Section ServiceFrames.

Variable cfg : Config.
Variable env : Env.

Lemma fetch_names_respects (raw_base : string) (names : list string) :
  respects ev_resolve (fetch_names env raw_base names).
Proof.
  induction names as [|name rest IH]; simpl; frame.
Qed.

Lemma retry_pause_respects (attempt : Z) :
  respects ev_resolve (retry_pause cfg attempt).
Proof.
  unfold retry_pause. frame.
Qed.

Lemma raw_attempts_respects (raw_base : string) (todo : nat) :
  forall attempt, respects ev_resolve (raw_attempts cfg env raw_base todo attempt).
Proof.
  induction todo as [|todo IH]; intros attempt; simpl.
  - frame.
  - apply respects_bind; [apply fetch_names_respects | intros cluster_url].
    destruct (opt_truthy cluster_url); [frame|].
    apply respects_bind; [apply retry_pause_respects | intros _; apply IH].
Qed.

Lemma chase_respects (hops : nat) :
  forall u seen, respects ev_resolve (chase env hops u seen).
Proof.
  induction hops as [|hops IH]; intros u seen; simpl; frame.
Qed.

Lemma redirect_attempts_respects (todo : nat) :
  forall attempt, respects ev_resolve (redirect_attempts cfg env todo attempt).
Proof.
  induction todo as [|todo IH]; intros attempt; cbn [redirect_attempts].
  - frame.
  - apply respects_try_except; [apply chase_respects | intros _].
    apply respects_bind; [apply retry_pause_respects | intros _; apply IH].
Qed.

Lemma get_cluster_url_respects : respects ev_resolve (get_cluster_url cfg env).
Proof.
  unfold get_cluster_url.
  repeat match goal with
         | |- respects _ (match ?x with _ => _ end) => destruct x
         end;
    first [ apply respects_ret | apply raw_attempts_respects
          | apply redirect_attempts_respects ].
Qed.

Lemma query_event_id_respects (cluster_url : string) :
  respects ev_query (query_event_id env cluster_url).
Proof.
  unfold query_event_id. frame.
Qed.

Lemma report_init_status_respects (cluster_url : string) (status : init_status) :
  respects ev_token (report_init_status cluster_url status).
Proof.
  unfold report_init_status. frame.
Qed.

Lemma token_loop_respects (fuel : nat) (cluster_url : string) :
  respects ev_token (token_loop env fuel cluster_url).
Proof.
  induction fuel as [|fuel IH]; simpl.
  - intros w r w' H. inversion H; subst. apply follows_refl.
  - pose proof (report_init_status_respects cluster_url StTokenRetrieved). frame.
Qed.

Lemma query_skupper_token_respects (fuel : nat) (cluster_url : string) :
  respects ev_token (query_skupper_token env fuel cluster_url).
Proof.
  unfold query_skupper_token.
  apply respects_bind; [apply report_init_status_respects | intros _].
  apply token_loop_respects.
Qed.

End ServiceFrames.

(* ===================================================================== *)
(** * The provisioner and the commit phase, step by step *)
(* ===================================================================== *)

(** Case analysis on everything the hypotheses branch on. *)
Ltac split_all :=
  repeat match goal with
         | H : context [match ?x with _ => _ end] |- _ => destruct x eqn:?
         | H : (_, _) = (_, _) |- _ => inversion H; subst; clear H
         end.

(** The new part of a trace, read off the goal. *)
Ltac give_new :=
  match goal with
  | |- exists new, trace ?w = new ++ trace ?w /\ _ => exists []
  | |- exists new, ?a :: trace ?w = new ++ trace ?w /\ _ => exists [a]
  | |- exists new, ?a :: ?b :: trace ?w = new ++ trace ?w /\ _ => exists [a; b]
  | |- exists new, ?a :: ?b :: ?c :: trace ?w = new ++ trace ?w /\ _ => exists [a; b; c]
  | |- exists new, ?a :: ?b :: ?c :: ?d :: trace ?w = new ++ trace ?w /\ _ =>
      exists [a; b; c; d]
  | |- exists new, ?a :: ?b :: ?c :: ?d :: ?e :: trace ?w = new ++ trace ?w /\ _ =>
      exists [a; b; c; d; e]
  end.

Section Provisioner.

Variable cfg : Config.
Variable env : Env.

Lemma once_provisioned (token : pyval) (w : world) (r : result bool) (w' : world) :
  _run_ansible_playbook_once cfg env token w = (r, w') -> provisioned r w w'.
Proof.
  unfold _run_ansible_playbook_once, write_token_file, run_playbook_process,
    append_audit, bind, ret, raise, tell.
  intros H. split_all; unfold provisioned; simpl; give_new; simpl;
    repeat match goal with
           | E : (_ =? 0) = _ |- _ => rewrite E
           end;
    repeat split; auto; try discriminate; try congruence.
Qed.

Lemma provisioned_after_sleep (d : Z) (w : world) (r : result bool) (w1 w' : world) :
  sleep d w = (Ret tt, w1) -> provisioned r w1 w' -> provisioned r w w'.
Proof.
  intros H. destruct (sleep_cases d w) as [Es | [Es | Es]]; rewrite Es in H;
    try discriminate. inversion H; subst; clear H Es.
  intros (new & T & F & E & K & O & S & Q).
  exists (new ++ [EvSleep d]). simpl in T. repeat split; auto.
  - rewrite T, <- app_assoc. reflexivity.
  - rewrite forallb_app, F. reflexivity.
  - rewrite existsb_app, O. simpl. rewrite !orb_false_r. reflexivity.
Qed.

Lemma provisioned_after_failure (w w1 w' : world) (r : result bool) :
  provisioned (Ret false) w w1 -> provisioned r w1 w' -> provisioned r w w'.
Proof.
  intros (n1 & T1 & F1 & E1 & K1 & O1 & S1 & Q1) (n2 & T2 & F2 & E2 & K2 & O2 & S2 & Q2).
  exists (n2 ++ n1). repeat split; auto.
  - rewrite T2, T1, app_assoc. reflexivity.
  - rewrite forallb_app, F1, F2. reflexivity.
  - congruence.
  - rewrite existsb_app, O1, O2, orb_false_r. reflexivity.
Qed.

Lemma sleep_raises (d : Z) (w : world) (e : exn) (w1 : world) :
  sleep d w = (Raise e, w1) -> w1 = w.
Proof.
  intros H. destruct (sleep_cases d w) as [E | [E | E]]; rewrite E in H;
    inversion H; reflexivity.
Qed.

Lemma sleep_has_fuel (d : Z) (w w1 : world) : sleep d w <> (OutOfFuel, w1).
Proof.
  destruct (sleep_cases d w) as [E | [E | E]]; rewrite E; discriminate.
Qed.

Lemma provisioned_nothing (e : exn) (w : world) : provisioned (Raise e) w w.
Proof.
  exists []. simpl. repeat split; auto; discriminate.
Qed.

Lemma playbook_attempts_provisioned (token : pyval) (todo : nat) :
  forall attempt w r w',
    playbook_attempts cfg env token todo attempt w = (r, w') -> provisioned r w w'.
Proof.
  induction todo as [|todo IH]; intros attempt w r w'; simpl.
  - unfold ret. intros H. inversion H; subst. exists []. simpl.
    repeat split; auto; discriminate.
  - unfold bind at 1.
    destruct (attempt >? 1).
    + destruct (sleep (PLAYBOOK_RETRY_DELAY cfg) w) as [[[]| e |] w1] eqn:Es.
      * unfold bind.
        destruct (_run_ansible_playbook_once cfg env token w1) as [[[|]| e |] w2] eqn:Eo;
          intros H.
        -- unfold ret in H. inversion H; subst.
           eapply provisioned_after_sleep; [exact Es | exact (once_provisioned _ _ _ _ Eo)].
        -- eapply provisioned_after_sleep; [exact Es|].
           eapply provisioned_after_failure; [exact (once_provisioned _ _ _ _ Eo)|].
           exact (IH _ _ _ _ H).
        -- inversion H; subst.
           eapply provisioned_after_sleep; [exact Es | exact (once_provisioned _ _ _ _ Eo)].
        -- inversion H; subst.
           eapply provisioned_after_sleep; [exact Es | exact (once_provisioned _ _ _ _ Eo)].
      * intros H. inversion H; subst. rewrite (sleep_raises _ _ _ _ Es).
        apply provisioned_nothing.
      * exfalso. exact (sleep_has_fuel _ _ _ Es).
    + unfold ret at 1. unfold bind.
      destruct (_run_ansible_playbook_once cfg env token w) as [[[|]| e |] w2] eqn:Eo;
        intros H.
      * unfold ret in H. inversion H; subst. exact (once_provisioned _ _ _ _ Eo).
      * eapply provisioned_after_failure; [exact (once_provisioned _ _ _ _ Eo)|].
        exact (IH _ _ _ _ H).
      * inversion H; subst. exact (once_provisioned _ _ _ _ Eo).
      * inversion H; subst. exact (once_provisioned _ _ _ _ Eo).
Qed.

(** Whatever the loop raised, the handler turns it into another exception:
    the facts about the world stay. *)
Lemma provisioned_reraise (e e' : exn) (w w' : world) :
  provisioned (Raise e) w w' -> provisioned (Raise e') w w'.
Proof.
  intros (new & T & F & E & K & O & S & Q). exists new.
  repeat split; auto; discriminate.
Qed.

Lemma run_ansible_playbook_provisioned (token : pyval) (w : world) (r : result bool)
    (w' : world) :
  run_ansible_playbook cfg env token w = (r, w') -> provisioned r w w'.
Proof.
  unfold run_ansible_playbook, try_except.
  destruct (playbook_attempts cfg env token (Z.to_nat (PLAYBOOK_RETRIES cfg)) 1 w)
    as [[b| e |] w1] eqn:E; intros H.
  - inversion H; subst. exact (playbook_attempts_provisioned _ _ _ _ _ _ E).
  - pose proof (playbook_attempts_provisioned _ _ _ _ _ _ E) as HP.
    destruct (is_Exception e).
    + unfold raise in H. inversion H; subst. eapply provisioned_reraise, HP.
    + inversion H; subst. exact HP.
  - inversion H; subst. exact (playbook_attempts_provisioned _ _ _ _ _ _ E).
Qed.

End Provisioner.

Section Commit.

Variable env : Env.

Lemma commit_committed (cluster_url : string) (cur : pyval) (done : init_status)
    (w : world) (r : result bool) (w' : world) :
  token_file w <> None ->
  (report_init_status cluster_url done ;;
   cached <- cache_event_id env cur ;;
   if cached then _remove_token_file_after_tunnel_up env ;; ret true else ret false) w
  = (r, w') ->
  exists nc, trace w' = nc ++ trace w /\ committed cur done (event_file w) w' r nc.
Proof.
  intros Htok.
  unfold report_init_status, cache_event_id, _remove_token_file_after_tunnel_up,
    check_skupper_tunnel, unlink_token_file, sleep, bind, ret, tell.
  simpl. destruct (token_file w) as [t|] eqn:Et; [clear Htok | congruence].
  intros H. split_all; simpl in *; try congruence.
  all: try (eexists; split; [reflexivity|]).
  all: try (match goal with
            | |- exists nc, ?a :: ?b :: ?c :: ?d :: ?e :: trace ?w = nc ++ trace ?w /\ _ =>
                exists [a; b; c; d; e]; split; [reflexivity|]
            | |- exists nc, ?a :: ?b :: ?c :: ?d :: trace ?w = nc ++ trace ?w /\ _ =>
                exists [a; b; c; d]; split; [reflexivity|]
            | |- exists nc, ?a :: ?b :: trace ?w = nc ++ trace ?w /\ _ =>
                exists [a; b]; split; [reflexivity|]
            end).
  all: try (eapply CommitTunnelUp; simpl; eauto; split; congruence).
  all: try (eapply CommitTunnelDown; simpl; eauto; congruence).
  all: apply CommitCacheFails; simpl; try rewrite Et; auto; try congruence;
    destruct cur; reflexivity.
Qed.

End Commit.

Section Configure.

Variable cfg : Config.
Variable env : Env.

Lemma token_loop_fetched (cluster_url : string) (fuel : nat) :
  forall w rt w1,
    token_loop env fuel cluster_url w = (rt, w1) -> exists nt, fetched rt w w1 nt.
Proof.
  induction fuel as [|fuel IH]; intros w rt w1; simpl.
  - intros H. inversion H; subst. exists []. unfold fetched. simpl.
    repeat split; auto. discriminate.
  - unfold bind at 1. unfold get at 1.
    destruct (http_get env (count is_get (trace w)) (_control_base cluster_url ++ "/getToken"))
      as [resp|] eqn:Eg.
    + destruct (status_code resp =? 200).
      * unfold bind, lift, report_init_status, tell, ret.
        destruct (parse_body env resp "token" "skupper_token") as [tok| e |];
          intros H; inversion H; subst; clear H; unfold fetched; simpl.
        -- eexists [_; _]. simpl. repeat split; auto.
        -- eexists [_]. simpl. repeat split; auto. discriminate.
        -- eexists [_]. simpl. repeat split; auto. discriminate.
      * unfold bind, sleep, tell. simpl. intros H.
        destruct (IH _ _ _ H) as (nt & T & F & E & K & R).
        exists (nt ++ [EvSleep 5; EvGet GetToken (_control_base cluster_url ++ "/getToken")]).
        unfold fetched. simpl in *. repeat split; auto.
        -- rewrite T, <- app_assoc. reflexivity.
        -- rewrite forallb_app, F. reflexivity.
        -- intros tok Hr. rewrite existsb_app, (R _ Hr). reflexivity.
    + unfold bind, sleep, tell. simpl. intros H.
      destruct (IH _ _ _ H) as (nt & T & F & E & K & R).
      exists (nt ++ [EvSleep 5; EvGet GetToken (_control_base cluster_url ++ "/getToken")]).
      unfold fetched. simpl in *. repeat split; auto.
      * rewrite T, <- app_assoc. reflexivity.
      * rewrite forallb_app, F. reflexivity.
      * intros tok Hr. rewrite existsb_app, (R _ Hr). reflexivity.
Qed.

Lemma query_skupper_token_fetched (cluster_url : string) (fuel : nat) (w : world)
    (rt : result pyval) (w1 : world) :
  query_skupper_token env fuel cluster_url w = (rt, w1) -> exists nt, fetched rt w w1 nt.
Proof.
  unfold query_skupper_token, bind, report_init_status, tell. intros H.
  destruct (token_loop_fetched _ _ _ _ _ H) as (nt & T & F & E & K & R).
  eexists (nt ++ [_]). unfold fetched. simpl in *. repeat split; auto.
  - rewrite T, <- app_assoc. reflexivity.
  - rewrite forallb_app, F. reflexivity.
  - intros tok Hr. rewrite existsb_app, (R _ Hr). reflexivity.
Qed.

Lemma configure_configured (fuel : nat) (cluster_url : string) (cur : pyval)
    (done : init_status) (w : world) (r : result bool) (w' : world) :
  configure cfg env fuel cluster_url cur done w = (r, w') ->
  exists new, trace w' = new ++ trace w /\ configured cur done w w' r new.
Proof.
  unfold configure. unfold bind at 1.
  destruct (query_skupper_token env fuel cluster_url w) as [[token| e |] w1] eqn:Eq;
    destruct (query_skupper_token_fetched _ _ _ _ _ Eq) as (nt & T & F & E & K & R).
  2,3: intros H; inversion H; subst; exists nt; split; [exact T|];
       apply ConfNoToken; auto; discriminate.
  destruct (truthy token); simpl.
  2: { unfold ret. intros H; inversion H; subst. exists nt. split; [exact T|].
       apply ConfNoToken; auto; discriminate. }
  unfold bind at 1. unfold report_init_status at 1. unfold tell at 1.
  unfold bind at 1.
  set (w2 := emit (EvPost (_control_base cluster_url ++ "/initStatus") StStartingConfigure) w1).
  destruct (run_ansible_playbook cfg env token w2) as [[ok| e |] w3] eqn:Ep.
  - pose proof (run_ansible_playbook_provisioned _ _ _ _ _ _ Ep)
      as (np & Tp & Fp & Ee & Kp & Op & Sp & Qp).
    destruct ok; simpl.
    + intros H. apply commit_committed in H; [| apply Sp; reflexivity].
      destruct H as (nc & Tc & Hc).
      exists (nc ++ np ++ EvPost (_control_base cluster_url ++ "/initStatus") StStartingConfigure :: nt).
      split.
      * rewrite Tc, Tp. subst w2. simpl. rewrite T.
        rewrite <- !app_assoc. reflexivity.
      * apply ConfPlaybookOk; auto.
        -- apply R with token. reflexivity.
        -- replace (event_file w) with (event_file w3); [exact Hc|].
           rewrite Ee. subst w2. simpl. exact E.
    + unfold bind, report_init_status, tell, ret. intros H. inversion H; subst; clear H.
      exists ([EvPost (_control_base cluster_url ++ "/initStatus") StFailedConfigure]
              ++ np ++ EvPost (_control_base cluster_url ++ "/initStatus") StStartingConfigure :: nt).
      split.
      * simpl. rewrite Tp. subst w2. simpl. rewrite T. rewrite <- !app_assoc. reflexivity.
      * apply ConfNoPlaybook; auto.
        -- apply R with token. reflexivity.
        -- right. eexists. reflexivity.
        -- simpl. rewrite Ee. subst w2. simpl. exact E.
        -- simpl. intros Hw. apply Kp. subst w2. simpl. rewrite K. exact Hw.
        -- discriminate.
  - pose proof (run_ansible_playbook_provisioned _ _ _ _ _ _ Ep)
      as (np & Tp & Fp & Ee & Kp & Op & Sp & Qp).
    intros H. inversion H; subst; clear H.
    exists ([] ++ np ++ EvPost (_control_base cluster_url ++ "/initStatus") StStartingConfigure :: nt).
    split.
    + simpl. rewrite Tp. subst w2. simpl. rewrite T. rewrite <- !app_assoc. reflexivity.
    + apply ConfNoPlaybook; auto.
      * apply R with token. reflexivity.
      * rewrite Ee. subst w2. simpl. exact E.
      * intros Hw. apply Kp. subst w2. simpl. rewrite K. exact Hw.
      * discriminate.
  - pose proof (run_ansible_playbook_provisioned _ _ _ _ _ _ Ep)
      as (np & Tp & Fp & Ee & Kp & Op & Sp & Qp).
    congruence.
Qed.

End Configure.

Section Process.

Variable cfg : Config.
Variable env : Env.

Lemma get_cached_event_id_pure (w : world) :
  exists c, get_cached_event_id w = (Ret c, w).
Proof.
  unfold get_cached_event_id. destruct (event_file w) as [| |s]; eauto.
  destruct (PyStr.nonempty _); eauto.
Qed.

Lemma resolve_early (e : event) : ev_resolve e = true -> ev_early e = true.
Proof. destruct e as [[] ?| ? ?| ?| ?| ?| ?| ?| ? ?| ?]; simpl; congruence. Qed.

Lemma query_early (e : event) : ev_query e = true -> ev_early e = true.
Proof. destruct e as [[] ?| ? ?| ?| ?| ?| ?| ?| ? ?| ?]; simpl; congruence. Qed.

Lemma early_no_cache_write (e : event) : ev_early e = true -> is_cache_write e = false.
Proof. destruct e as [[] ?| ? []| ?| ?| ?| ?| ?| ? ?| ?]; simpl; congruence. Qed.

Lemma early_no_token_write (e : event) : ev_early e = true -> is_token_write e = false.
Proof. destruct e as [[] ?| ? []| ?| ?| ?| ?| ?| ? ?| ?]; simpl; congruence. Qed.

Lemma early_no_unlink (e : event) : ev_early e = true -> is_unlink e = false.
Proof. destruct e as [[] ?| ? []| ?| ?| ?| ?| ?| ? ?| ?]; simpl; congruence. Qed.

(** A world that follows by early events only has both files as before. *)
Lemma follows_early_files (w w1 : world) :
  follows ev_early w w1 ->
  exists ne, trace w1 = ne ++ trace w /\ forallb ev_early ne = true /\
             event_file w1 = event_file w /\ token_file w1 = token_file w.
Proof.
  intros (ne & T & F & C & K & U). exists ne. repeat split; auto.
  - apply C. eapply forallb_excludes; [exact early_no_cache_write | exact F].
  - apply K.
    + eapply forallb_excludes; [exact early_no_token_write | exact F].
    + eapply forallb_excludes; [exact early_no_unlink | exact F].
Qed.

Lemma process_event_processed (fuel : nat) (w : world) (r : result bool) (w' : world) :
  process_event cfg env fuel w = (r, w') ->
  exists new, trace w' = new ++ trace w /\ processed cfg env w w' r new.
Proof.
  unfold process_event. unfold bind at 1.
  destruct (get_cached_event_id_pure w) as (cached & Ec). rewrite Ec.
  unfold bind at 1.
  destruct (get_cluster_url cfg env w) as [[[cluster_url|]| e |] w1] eqn:Eu;
    pose proof (follows_early_files _ _
                  (follows_weaken _ _ _ _ resolve_early (get_cluster_url_respects _ _ _ _ _ Eu)))
      as (n1 & T1 & F1 & E1 & K1).
  2,3,4: unfold ret; intros H; inversion H; subst; exists n1; split; [exact T1|];
         apply ProcEarly; auto.
  destruct (PyStr.nonempty cluster_url) eqn:En; simpl.
  2: { unfold ret; intros H; inversion H; subst; exists n1; split; [exact T1|];
       apply ProcEarly; auto. }
  unfold bind at 1.
  destruct (query_event_id env cluster_url w1) as [[cur| e |] w2] eqn:Eq;
    pose proof (follows_early_files _ _
                  (follows_weaken _ _ _ _ query_early (query_event_id_respects _ _ _ _ _ Eq)))
      as (n2 & T2 & F2 & E2 & K2).
  2,3: intros H; inversion H; subst; exists (n2 ++ n1); split;
       [rewrite T2, T1, app_assoc; reflexivity|];
       apply ProcEarly; [rewrite forallb_app, F1, F2; reflexivity | congruence | congruence].
  destruct (truthy cur) eqn:Ht; simpl.
  2: { unfold ret; intros H; inversion H; subst; exists (n2 ++ n1); split;
       [rewrite T2, T1, app_assoc; reflexivity|].
       apply ProcEarly; [rewrite forallb_app, F1, F2; reflexivity | congruence | congruence]. }
  destruct cached as [c|].
  - destruct (str_eq_val c cur).
    + unfold bind, report_init_status, tell, ret. intros H. inversion H; subst; clear H.
      eexists (_ :: n2 ++ n1). split.
      * simpl. rewrite T2, T1, app_assoc. reflexivity.
      * apply ProcEarly; simpl; [rewrite forallb_app, F1, F2; reflexivity | congruence | congruence].
    + intros H. apply configure_configured in H. destruct H as (nc & Tc & Hc).
      exists (nc ++ n2 ++ n1). split.
      * rewrite Tc, T2, T1, !app_assoc. reflexivity.
      * eapply ProcConfigure; [ | | | | exact Hc].
        -- rewrite forallb_app, F1, F2. reflexivity.
        -- unfold queried. rewrite Eu, En, Eq, Ht. reflexivity.
        -- congruence.
        -- congruence.
  - unfold bind at 1. unfold report_init_status at 1. unfold tell at 1.
    intros H. apply configure_configured in H. destruct H as (nc & Tc & Hc).
    eexists (nc ++ _ :: n2 ++ n1). split.
    + rewrite Tc. simpl. rewrite T2, T1. rewrite <- !app_assoc. simpl.
      rewrite <- !app_assoc. reflexivity.
    + eapply ProcConfigure; [ | | | | exact Hc].
      * simpl. rewrite forallb_app, F1, F2. reflexivity.
      * unfold queried. rewrite Eu, En, Eq, Ht. reflexivity.
      * simpl. congruence.
      * simpl. congruence.
Qed.

End Process.

(* ===================================================================== *)
(** * Strings *)
(* ===================================================================== *)

Section StringFacts.

Local Open Scope string_scope.

Lemma prefix_iff (p s : string) :
  String.prefix p s = true <-> exists post, s = p ++ post.
Proof.
  revert s. induction p as [|c p IH]; intros s.
  - split; [intros _; exists s; reflexivity | intros _; destruct s; reflexivity].
  - destruct s as [|d s]; simpl.
    + split; [discriminate | intros (post & H); discriminate].
    + destruct (Ascii.ascii_dec c d) as [->|Hcd].
      * rewrite IH. split; intros (post & H); exists post; congruence.
      * split; [discriminate | intros (post & H); congruence].
Qed.

(** [sub in s] holds exactly when [s] is some text, then [sub], then some text. *)
Lemma contains_iff (sub s : string) :
  PyStr.contains sub s = true <-> exists pre post, s = pre ++ sub ++ post.
Proof.
  induction s as [|c s IH]; cbn [PyStr.contains].
  - rewrite orb_false_r, prefix_iff. split.
    + intros (post & H). exists "", post. exact H.
    + intros (pre & post & H). destruct pre; simpl in H; [exists post; exact H | discriminate].
  - rewrite orb_true_iff, prefix_iff, IH. split.
    + intros [(post & H) | (pre & post & H)].
      * exists "", post. exact H.
      * exists (String c pre), post. simpl. congruence.
    + intros (pre & post & H). destruct pre as [|d pre]; simpl in H.
      * left. exists post. exact H.
      * right. exists pre, post. congruence.
Qed.

Lemma lstrip_empty (s : string) : PyStr.lstrip s = "" <-> all_space s = true.
Proof.
  induction s as [|c s IH]; simpl.
  - split; reflexivity.
  - destruct (PyStr.is_space c); simpl; [exact IH | split; discriminate].
Qed.

Lemma rstrip_empty (s : string) : PyStr.rstrip s = "" <-> all_space s = true.
Proof.
  induction s as [|c s IH]; simpl.
  - split; reflexivity.
  - destruct (PyStr.rstrip s) eqn:E.
    + destruct (PyStr.is_space c); simpl.
      * split; [intros _; apply IH; reflexivity | reflexivity].
      * split; discriminate.
    + split; [discriminate|]. intros H. apply andb_true_iff in H.
      destruct H as [_ H]. apply IH in H. discriminate.
Qed.

Lemma lstrip_all_space (s : string) :
  all_space (PyStr.lstrip s) = true -> all_space s = true.
Proof.
  induction s as [|c s IH]; simpl; [reflexivity|].
  destruct (PyStr.is_space c) eqn:E; simpl.
  - exact IH.
  - rewrite E. discriminate.
Qed.

Lemma strip_empty (s : string) : PyStr.strip s = "" <-> all_space s = true.
Proof.
  unfold PyStr.strip. rewrite rstrip_empty. split.
  - apply lstrip_all_space.
  - intros H. apply lstrip_empty in H. rewrite H. reflexivity.
Qed.

Lemma newline_is_space : PyStr.is_space "010"%char = true.
Proof. reflexivity. Qed.

Lemma universal_newlines_all_space (s : string) :
  (all_space s = true -> all_space (PyStr.universal_newlines s) = true) /\
  (forall c, all_space (String c s) = true ->
             all_space (PyStr.universal_newlines (String c s)) = true).
Proof.
  induction s as [|a s [IH1 IH2]].
  - split; [reflexivity|]. intros c. simpl.
    destruct (Ascii.eqb c "013"%char); simpl; auto.
  - split; [apply IH2|]. intros c H.
    change (all_space (String c (String a s)))
      with (PyStr.is_space c && all_space (String a s)) in H.
    apply andb_true_iff in H. destruct H as [Hc Ha].
    cbn [PyStr.universal_newlines].
    destruct (Ascii.eqb c "013"%char).
    + destruct (Ascii.eqb a "010"%char).
      * cbn [all_space]. rewrite newline_is_space. simpl.
        apply IH1. simpl in Ha. apply andb_true_iff in Ha. exact (proj2 Ha).
      * cbn [all_space]. rewrite newline_is_space. simpl. exact (IH2 a Ha).
    + cbn [all_space]. rewrite Hc. simpl. exact (IH2 a Ha).
Qed.

Lemma universal_newlines_no_cr (s : string) :
  has_cr s = false -> PyStr.universal_newlines s = s.
Proof.
  induction s as [|c s IH]; simpl; [reflexivity|].
  intros H. apply orb_false_iff in H. destruct H as [Hc Hs].
  rewrite Hc, (IH Hs). reflexivity.
Qed.

Lemma nonempty_iff (s : string) : PyStr.nonempty s = true <-> s <> "".
Proof.
  destruct s; simpl; split; congruence.
Qed.

End StringFacts.

(* ===================================================================== *)
(** * TunnelProbe *)
(* ===================================================================== *)

(** C6. [check_skupper_tunnel] never raises; it returns [True] exactly when
    the status command completed with exit status 0 and its lower-cased
    output holds both "connected to" and "other site".  A single marker, a
    non-zero exit status, a missing binary, a timeout or any other error of
    the command give [False]. *)
Theorem check_skupper_tunnel_up_iff (env : Env) (w : world) :
  let r := skupper_status env (count is_skupper (trace w)) in
  check_skupper_tunnel env w = (Ret (tunnel_verdict r), emit (EvSkupperStatus r) w) /\
  (tunnel_verdict r = true <->
   exists out err,
     r = Completed 0 out err /\
     (exists a b, PyStr.lower out = (a ++ "connected to" ++ b)%string) /\
     (exists a b, PyStr.lower out = (a ++ "other site" ++ b)%string)).
Proof.
  intros r. split; [reflexivity|].
  destruct r as [rc out err| | |]; simpl.
  - destruct (rc =? 0) eqn:E; simpl.
    + apply Z.eqb_eq in E. subst rc.
      rewrite andb_true_iff, !contains_iff. split.
      * intros [H1 H2]. exists out, err. auto.
      * intros (out' & err' & Heq & H1 & H2). inversion Heq; subst. auto.
    + split; [discriminate|]. intros (out' & err' & Heq & _).
      inversion Heq; subst. discriminate.
  - split; [discriminate | intros (? & ? & H & _); discriminate].
  - split; [discriminate | intros (? & ? & H & _); discriminate].
  - split; [discriminate | intros (? & ? & H & _); discriminate].
Qed.

(* ===================================================================== *)
(** * StateStore *)
(* ===================================================================== *)

(** C9, as stated, fails: an event id with a carriage return inside is
    non-empty and equal to its own trim, the write succeeds, and the next
    read gives the id with a line feed in place of the carriage return. *)
Lemma cache_round_trip_carriage_return :
  let s := String "a" (String "013" (String "b" EmptyString)) in
  s <> ""%string /\ PyStr.strip s = s /\
  exists w1,
    cache_event_id Example.env_happy (PStr s) (boot Missing None) = (Ret true, w1) /\
    get_cached_event_id w1
    = (Ret (Some (String "a" (String "010" (String "b" EmptyString)))), w1) /\
    fst (get_cached_event_id w1) <> Ret (Some s).
Proof.
  simpl. split; [discriminate|]. split; [reflexivity|].
  eexists. split; [reflexivity|]. split; [reflexivity|]. discriminate.
Qed.

(** C9, amended.  For a non-empty event id that equals its own trim and
    holds no carriage return, a [cache_event_id] that returns [True] makes
    the next [get_cached_event_id] return that id; and a cache file whose
    contents trim to the empty string reads as absent. *)
Theorem cache_round_trip (env : Env) (s : string) (w w1 : world) :
  s <> ""%string ->
  PyStr.strip s = s ->
  has_cr s = false ->
  cache_event_id env (PStr s) w = (Ret true, w1) ->
  get_cached_event_id w1 = (Ret (Some s), w1) /\
  (forall w0 blank,
     event_file w0 = Content blank -> PyStr.strip blank = ""%string ->
     get_cached_event_id w0 = (Ret None, w0)).
Proof.
  intros Hne Hstrip Hcr Hw. split.
  - unfold cache_event_id in Hw.
    destruct (cache_write env (count is_cache_write (trace w))); inversion Hw; subst.
    unfold get_cached_event_id. simpl.
    rewrite (universal_newlines_no_cr _ Hcr), Hstrip.
    apply nonempty_iff in Hne. rewrite Hne. reflexivity.
  - intros w0 blank Hf Hb. unfold get_cached_event_id. rewrite Hf.
    apply strip_empty in Hb.
    apply (proj1 (universal_newlines_all_space blank)) in Hb.
    apply strip_empty in Hb. rewrite Hb. reflexivity.
Qed.

Lemma cache_round_trip_witness :
  get_cached_event_id
    (snd (cache_event_id Example.env_happy (PStr "ev-42") (boot Missing None)))
  = (Ret (Some "ev-42"%string),
     snd (cache_event_id Example.env_happy (PStr "ev-42") (boot Missing None))) /\
  (forall w0 blank,
     event_file w0 = Content blank -> PyStr.strip blank = ""%string ->
     get_cached_event_id w0 = (Ret None, w0)).
Proof.
  apply (cache_round_trip Example.env_happy "ev-42" (boot Missing None)).
  - discriminate.
  - reflexivity.
  - reflexivity.
  - reflexivity.
Defined.

(* ===================================================================== *)
(** * ControlPlaneClient: the token fetch *)
(* ===================================================================== *)

Section TokenFetch.

Variable env : Env.
Variable cluster_url : string.

Let endpoint : string := (_control_base cluster_url ++ "/getToken")%string.
Let status_url : string := (_control_base cluster_url ++ "/initStatus")%string.

Lemma token_retries_snoc (k : nat) (u : string) :
  token_retries k u ++ [EvSleep 5; EvGet GetToken u]
  = EvSleep 5 :: EvGet GetToken u :: token_retries k u.
Proof.
  induction k as [|k IH]; simpl; [reflexivity|]. rewrite IH. reflexivity.
Qed.

Lemma count_get_round (w : world) :
  count is_get (trace (emit (EvSleep 5) (emit (EvGet GetToken endpoint) w)))
  = S (count is_get (trace w)).
Proof. reflexivity. Qed.

(** One round that does not get HTTP 200: a GET, then five seconds of sleep. *)
Lemma token_loop_round (fuel : nat) (w : world) :
  not_200 (http_get env (count is_get (trace w)) endpoint) = true ->
  token_loop env (S fuel) cluster_url w
  = token_loop env fuel cluster_url
      (emit (EvSleep 5) (emit (EvGet GetToken endpoint) w)).
Proof.
  intros H. cbn [token_loop]. unfold bind at 1. unfold get. fold endpoint.
  destruct (http_get env (count is_get (trace w)) endpoint) as [resp|]; simpl in H.
  - destruct (status_code resp =? 200); [discriminate|]. reflexivity.
  - reflexivity.
Qed.

Lemma token_loop_skip (k : nat) :
  forall fuel w,
    (forall i, (i < k)%nat ->
               not_200 (http_get env (count is_get (trace w) + i) endpoint) = true) ->
    exists w1,
      token_loop env (k + fuel) cluster_url w = token_loop env fuel cluster_url w1 /\
      trace w1 = token_retries k endpoint ++ trace w /\
      event_file w1 = event_file w /\ token_file w1 = token_file w.
Proof.
  induction k as [|k IH]; intros fuel w H.
  - exists w. auto.
  - assert (H0 : not_200 (http_get env (count is_get (trace w)) endpoint) = true).
    { rewrite <- (Nat.add_0_r (count is_get (trace w))). apply H. lia. }
    cbn [Nat.add]. rewrite (token_loop_round _ _ H0).
    destruct (IH fuel (emit (EvSleep 5) (emit (EvGet GetToken endpoint) w)))
      as (w1 & E & T & Fe & Ft).
    { intros i Hi. rewrite count_get_round, Nat.add_succ_comm. apply H. lia. }
    exists w1. repeat split; auto.
    rewrite T.
    change (trace (emit (EvSleep 5) (emit (EvGet GetToken endpoint) w)))
      with ([EvSleep 5; EvGet GetToken endpoint] ++ trace w).
    rewrite app_assoc, token_retries_snoc. reflexivity.
Qed.

Lemma token_loop_never (fuel : nat) :
  forall w,
    (forall i, not_200 (http_get env (count is_get (trace w) + i) endpoint) = true) ->
    fst (token_loop env fuel cluster_url w) = OutOfFuel.
Proof.
  induction fuel as [|fuel IH]; intros w H; [reflexivity|].
  rewrite token_loop_round.
  - apply IH. intros i. rewrite count_get_round, Nat.add_succ_comm. apply H.
  - rewrite <- (Nat.add_0_r (count is_get (trace w))). apply H.
Qed.

Lemma token_loop_returns (fuel : nat) :
  forall w tok w',
    token_loop env fuel cluster_url w = (Ret tok, w') ->
    exists k resp,
      (k < fuel)%nat /\
      (forall i, (i < k)%nat ->
                 not_200 (http_get env (count is_get (trace w) + i) endpoint) = true) /\
      http_get env (count is_get (trace w) + k) endpoint = Response resp /\
      status_code resp = 200 /\
      parse_body env resp "token" "skupper_token" = Ret tok.
Proof.
  induction fuel as [|fuel IH]; intros w tok w' H; [discriminate|].
  destruct (not_200 (http_get env (count is_get (trace w)) endpoint)) eqn:E.
  - rewrite (token_loop_round _ _ E) in H.
    destruct (IH _ _ _ H) as (k & resp & Hk & Hbefore & Hget & Hs & Hp).
    exists (S k), resp. repeat split; auto.
    + lia.
    + intros i Hi. destruct i as [|i].
      * rewrite Nat.add_0_r. exact E.
      * rewrite <- Nat.add_succ_comm, <- (count_get_round w). apply Hbefore. lia.
    + rewrite <- Nat.add_succ_comm, <- (count_get_round w). exact Hget.
  - cbn [token_loop] in H. unfold bind at 1 in H. unfold get in H. fold endpoint in H.
    destruct (http_get env (count is_get (trace w)) endpoint) as [resp|] eqn:Eg;
      simpl in E; [|discriminate].
    destruct (status_code resp =? 200) eqn:Es; [|discriminate].
    exists 0%nat, resp. rewrite Nat.add_0_r. repeat split; auto.
    + lia.
    + intros i Hi. lia.
    + apply Z.eqb_eq. exact Es.
    + unfold bind, lift in H.
      destruct (parse_body env resp "token" "skupper_token"); try discriminate.
      unfold report_init_status, tell, ret in H. inversion H. reflexivity.
Qed.

(** C8. [query_skupper_token] goes round for as long as the answers are
    non-200 responses or network errors, sleeping five seconds after each:
    when the first HTTP 200 is the answer to GET number [k] it ends there,
    with the token parsed from that response (or the exception that parsing
    raises), after [k] sleeps; when no answer is ever HTTP 200 it neither
    returns nor raises, whatever the fuel; and whenever it returns, the
    value is the token parsed from an HTTP 200 response that only non-200
    answers and network errors preceded. *)
Theorem query_skupper_token_retries_until_200 (fuel : nat) (w : world) :
  let n0 := count is_get (trace w) in
  (forall k resp,
     (forall i, (i < k)%nat -> not_200 (http_get env (n0 + i) endpoint) = true) ->
     http_get env (n0 + k) endpoint = Response resp ->
     status_code resp = 200 ->
     (k < fuel)%nat ->
     exists w',
       query_skupper_token env fuel cluster_url w
       = (parse_body env resp "token" "skupper_token", w') /\
       trace w'
       = (match parse_body env resp "token" "skupper_token" with
          | Ret _ => [EvPost status_url StTokenRetrieved]
          | _ => []
          end)
         ++ EvGet GetToken endpoint :: token_retries k endpoint
         ++ EvPost status_url StQueryingToken :: trace w) /\
  ((forall i, not_200 (http_get env (n0 + i) endpoint) = true) ->
   fst (query_skupper_token env fuel cluster_url w) = OutOfFuel) /\
  (forall tok w',
     query_skupper_token env fuel cluster_url w = (Ret tok, w') ->
     exists k resp,
       (k < fuel)%nat /\
       (forall i, (i < k)%nat -> not_200 (http_get env (n0 + i) endpoint) = true) /\
       http_get env (n0 + k) endpoint = Response resp /\
       status_code resp = 200 /\
       parse_body env resp "token" "skupper_token" = Ret tok).
Proof.
  intros n0.
  set (w0 := emit (EvPost status_url StQueryingToken) w).
  assert (Hq : query_skupper_token env fuel cluster_url w
               = token_loop env fuel cluster_url w0) by reflexivity.
  assert (Hn : count is_get (trace w0) = n0) by reflexivity.
  split; [|split].
  - intros k resp Hbefore Hget Hs Hk.
    destruct fuel as [|fuel]; [lia|].
    replace (S fuel) with (k + S (fuel - k))%nat in Hq |- * by lia.
    destruct (token_loop_skip k (S (fuel - k)) w0) as (w1 & E & T & _ & _).
    { rewrite Hn. exact Hbefore. }
    rewrite Hq, E. cbn [token_loop]. unfold bind at 1. unfold get. fold endpoint.
    assert (Hc : count is_get (trace w1) = (n0 + k)%nat).
    { rewrite T, count_app, Hn. clear. induction k as [|k IH]; simpl.
      - unfold count. simpl. lia.
      - unfold count in *. simpl. lia. }
    rewrite Hc, Hget. apply Z.eqb_eq in Hs. rewrite Hs.
    unfold bind, lift, report_init_status, tell, ret. fold status_url.
    destruct (parse_body env resp "token" "skupper_token"); eexists; split;
      try reflexivity; simpl; rewrite T; reflexivity.
  - intros Hall. rewrite Hq. apply token_loop_never. rewrite Hn. exact Hall.
  - intros tok w' H. rewrite Hq in H. apply token_loop_returns in H.
    rewrite Hn in H. exact H.
Qed.

End TokenFetch.

Lemma query_skupper_token_retries_witness :
  exists w',
    query_skupper_token Example.env_token_later 5 "https://cluster.example"
      (boot Missing None)
    = (Ret (PStr "tok"), w').
Proof.
  destruct (proj1 (query_skupper_token_retries_until_200 Example.env_token_later
                     "https://cluster.example" 5 (boot Missing None))
              2%nat
              {| status_code := 200; text := "tok"; json := None; location := None;
                 url := "https://cluster.example/control/getToken" |})
    as (w' & H & _).
  - intros i Hi. destruct i as [|[|i]]; [reflexivity | reflexivity | lia].
  - reflexivity.
  - reflexivity.
  - lia.
  - exists w'. exact H.
Defined.

(* ===================================================================== *)
(** * EndpointResolver: the redirect chase *)
(* ===================================================================== *)

Section Within.

Variable p : event -> bool.

Lemma within_ret {A} (a : A) : within p 0 (ret a).
Proof.
  intros w r w' H. inversion H; subst. split; [discriminate|].
  exists []. split; [reflexivity | apply Nat.le_refl].
Qed.

Lemma within_raise {A} (e : exn) : within p 0 (@raise A e).
Proof.
  intros w r w' H. inversion H; subst. split; [discriminate|].
  exists []. split; [reflexivity | apply Nat.le_refl].
Qed.

Lemma within_mono {A} (n k : nat) (m : M A) :
  (n <= k)%nat -> within p n m -> within p k m.
Proof.
  intros Hle Hm w r w' H. destruct (Hm _ _ _ H) as (Hr & new & T & C).
  split; [exact Hr|]. exists new. split; [exact T | lia].
Qed.

Lemma within_tell (e : event) : within p 1 (tell e).
Proof.
  intros w r w' H. inversion H; subst. split; [discriminate|].
  exists [e]. split; [reflexivity|]. unfold count. simpl. destruct (p e); simpl; lia.
Qed.

Lemma within_tell_other (e : event) : p e = false -> within p 0 (tell e).
Proof.
  intros He w r w' H. inversion H; subst. split; [discriminate|].
  exists [e]. split; [reflexivity|]. unfold count. simpl. rewrite He. simpl. lia.
Qed.

Lemma within_bind {A B} (n k : nat) (m : M A) (f : A -> M B) :
  within p n m -> (forall a, within p k (f a)) -> within p (n + k) (bind m f).
Proof.
  intros Hm Hf w r w' H. unfold bind in H.
  destruct (m w) as [[a| e |] w1] eqn:E; destruct (Hm _ _ _ E) as (Hr & new & T & C).
  - destruct (Hf _ _ _ _ H) as (Hr' & new' & T' & C').
    split; [exact Hr'|]. exists (new' ++ new). split.
    + rewrite T', T, app_assoc. reflexivity.
    + rewrite count_app. lia.
  - inversion H; subst. split; [discriminate|]. exists new. split; [exact T | lia].
  - contradiction.
Qed.

Lemma within_try_except {A} (n k : nat) (m : M A) (c : exn -> bool) (h : exn -> M A) :
  within p n m -> (forall e, within p k (h e)) -> within p (n + k) (try_except m c h).
Proof.
  intros Hm Hh w r w' H. unfold try_except in H.
  destruct (m w) as [[a| e |] w1] eqn:E; destruct (Hm _ _ _ E) as (Hr & new & T & C).
  - inversion H; subst. split; [discriminate|]. exists new. split; [exact T | lia].
  - destruct (c e).
    + destruct (Hh _ _ _ _ H) as (Hr' & new' & T' & C').
      split; [exact Hr'|]. exists (new' ++ new). split.
      * rewrite T', T, app_assoc. reflexivity.
      * rewrite count_app. lia.
    + inversion H; subst. split; [discriminate|]. exists new. split; [exact T | lia].
  - contradiction.
Qed.

End Within.

Lemma within_sleep_gets (d : Z) : within is_get 0 (sleep d).
Proof.
  unfold sleep.
  destruct ((d <? - sleep_max) || (sleep_max <? d)); [apply within_raise|].
  destruct (d <? 0).
  - apply within_raise.
  - apply within_tell_other. reflexivity.
Qed.

Lemma within_get (env : Env) (k : get_kind) (u : string) : within is_get 1 (get env k u).
Proof.
  intros w r w' H. inversion H; subst. split; [discriminate|].
  exists [EvGet k u]. split; [reflexivity|]. apply Nat.le_refl.
Qed.

Lemma within_get_sleeps (env : Env) (k : get_kind) (u : string) :
  within is_sleep 0 (get env k u).
Proof.
  intros w r w' H. inversion H; subst. split; [discriminate|].
  exists [EvGet k u]. split; [reflexivity|]. apply Nat.le_refl.
Qed.

Section RedirectChase.

Variable cfg : Config.
Variable env : Env.

Ltac within_leaf :=
  first
    [ assumption
    | eapply within_mono; [ | apply within_ret ]; lia
    | eapply within_mono; [ | apply within_raise ]; lia ].

Lemma chase_gets (hops : nat) :
  forall u seen, within is_get hops (chase env hops u seen).
Proof.
  induction hops as [|hops IH]; intros u seen; cbn [chase].
  - apply within_ret.
  - destruct (existsb (String.eqb u) seen); [within_leaf|].
    apply (within_bind is_get 1 hops); [apply within_get | intros [resp|]]; [|within_leaf].
    destruct (raises_for_status resp); [within_leaf|].
    destruct (is_redirect resp && location_truthy resp); [|within_leaf].
    destruct (location resp) as [next_location|]; [|within_leaf].
    destruct (PyStr.startswith "/" next_location); [|apply IH].
    destruct (urlparse env (url resp)); [apply IH | within_leaf].
Qed.

Lemma chase_sleeps (hops : nat) :
  forall u seen, within is_sleep 0 (chase env hops u seen).
Proof.
  induction hops as [|hops IH]; intros u seen; cbn [chase].
  - apply within_ret.
  - destruct (existsb (String.eqb u) seen); [within_leaf|].
    apply (within_bind is_sleep 0 0); [apply within_get_sleeps | intros [resp|]];
      [|within_leaf].
    destruct (raises_for_status resp); [within_leaf|].
    destruct (is_redirect resp && location_truthy resp); [|within_leaf].
    destruct (location resp) as [next_location|]; [|within_leaf].
    destruct (PyStr.startswith "/" next_location); [|apply IH].
    destruct (urlparse env (url resp)); [apply IH | within_leaf].
Qed.

Lemma chase_revisit (hops : nat) (u : string) (seen : list string) (w : world) :
  existsb (String.eqb u) seen = true ->
  chase env hops u seen w = (Ret None, w).
Proof.
  intros H. destruct hops; cbn [chase]; [reflexivity|]. rewrite H. reflexivity.
Qed.

Lemma retry_pause_gets (attempt : Z) : within is_get 0 (retry_pause cfg attempt).
Proof.
  unfold retry_pause.
  destruct ((attempt <? REDIRECT_RETRIES cfg - 1) && (REDIRECT_RETRY_DELAY cfg >? 0)).
  - apply within_sleep_gets.
  - apply within_ret.
Qed.

Lemma redirect_attempts_gets (todo : nat) :
  forall attempt, within is_get (10 * todo) (redirect_attempts cfg env todo attempt).
Proof.
  induction todo as [|todo IH]; intros attempt; cbn [redirect_attempts].
  - apply within_ret.
  - apply (within_mono is_get (10 + (0 + 10 * todo))); [lia|].
    apply within_try_except; [apply chase_gets | intros _].
    apply within_bind; [apply retry_pause_gets | intros _; apply IH].
Qed.

Lemma fetch_names_gets (raw_base : string) (names : list string) :
  within is_get (List.length names) (fetch_names env raw_base names).
Proof.
  induction names as [|name rest IH]; cbn [fetch_names List.length].
  - apply within_ret.
  - apply (within_bind is_get 1 (List.length rest)); [apply within_get | intros [resp|]];
      [|exact IH].
    destruct (status_code resp =? 200); [|exact IH].
    destruct (PyStr.nonempty (PyStr.strip (text resp))); [within_leaf | exact IH].
Qed.

Lemma raw_attempts_gets (raw_base : string) (todo : nat) :
  forall attempt,
    within is_get (2 * todo) (raw_attempts cfg env raw_base todo attempt).
Proof.
  induction todo as [|todo IH]; intros attempt; cbn [raw_attempts].
  - apply within_ret.
  - apply (within_mono is_get (2 + (0 + 2 * todo))); [lia|].
    apply within_bind; [apply (fetch_names_gets raw_base [_; _]) | intros cluster_url].
    destruct (opt_truthy cluster_url); [within_leaf|].
    apply within_bind; [apply retry_pause_gets | intros _; apply IH].
Qed.

Lemma get_cluster_url_gets :
  within is_get (10 * Z.to_nat (REDIRECT_RETRIES cfg)) (get_cluster_url cfg env).
Proof.
  unfold get_cluster_url.
  destruct (REDIRECT_URL_IS_CLUSTER cfg && PyStr.nonempty (REDIRECT_URL cfg));
    [within_leaf|].
  destruct (_github_raw_base_url cfg env) as [raw_base|].
  - destruct (PyStr.nonempty raw_base).
    + eapply within_mono; [|apply raw_attempts_gets]. lia.
    + destruct (negb (PyStr.nonempty (REDIRECT_URL cfg)));
        [within_leaf | apply redirect_attempts_gets].
  - destruct (negb (PyStr.nonempty (REDIRECT_URL cfg)));
      [within_leaf | apply redirect_attempts_gets].
Qed.

(** When every answer is a redirect that the chase can follow, the chase
    ends with [None]: by the visited set or by the cap on the hops. *)
Lemma chase_all_redirects :
  (forall n u, redirects (http_get env n u) = true) ->
  (forall u, urlparse env u <> None) ->
  forall hops u seen w, exists w', chase env hops u seen w = (Ret None, w').
Proof.
  intros Hred Hparse hops.
  induction hops as [|hops IH]; intros u seen w; cbn [chase].
  - exists w. reflexivity.
  - destruct (existsb (String.eqb u) seen); [exists w; reflexivity|].
    unfold bind at 1. unfold get.
    specialize (Hred (count is_get (trace w)) u).
    destruct (http_get env (count is_get (trace w)) u) as [resp|]; simpl in Hred;
      [|discriminate].
    apply andb_true_iff in Hred. destruct Hred as [Hred Hloc].
    apply andb_true_iff in Hred. destruct Hred as [Hst Hre].
    apply negb_true_iff in Hst. rewrite Hst, Hre, Hloc. cbn [andb].
    destruct (location resp) as [next_location|]; [|eexists; reflexivity].
    destruct (PyStr.startswith "/" next_location); [|apply IH].
    specialize (Hparse (url resp)).
    destruct (urlparse env (url resp)); [apply IH | contradiction].
Qed.

Lemma seen_In (u : string) (seen : list string) :
  existsb (String.eqb u) seen = true <-> In u seen.
Proof.
  rewrite existsb_exists. split.
  - intros (x & Hin & E). apply String.eqb_eq in E. subst x. exact Hin.
  - intros H. exists u. split; [exact H | apply String.eqb_refl].
Qed.

Lemma not_seen (u : string) (seen : list string) :
  ~ In u seen -> existsb (String.eqb u) seen = false.
Proof.
  intros H. destruct (existsb (String.eqb u) seen) eqn:E; [|reflexivity].
  apply seen_In in E. contradiction.
Qed.

Lemma visited_trace (urls : list string) :
  forall w,
    trace (visited urls w) = map (EvGet GetRedirect) (rev urls) ++ trace w /\
    event_file (visited urls w) = event_file w /\
    token_file (visited urls w) = token_file w.
Proof.
  unfold visited. induction urls as [|u urls IH]; intros w; cbn [fold_left rev].
  - auto.
  - destruct (IH (emit (EvGet GetRedirect u) w)) as (T & E & K).
    rewrite T, E, K. cbn [trace emit event_file token_file].
    rewrite map_app, <- app_assoc. auto.
Qed.

Lemma visited_gets (urls : list string) (w : world) :
  count is_get (trace (visited urls w))
  = (List.length urls + count is_get (trace w))%nat.
Proof.
  unfold visited. revert w. induction urls as [|u urls IH]; intros w; cbn [fold_left].
  - reflexivity.
  - rewrite IH. cbn [trace emit List.length]. unfold count. cbn [filter is_get List.length].
    lia.
Qed.

(** One hop: an answer that redirects to [v] adds [u] to the visited set
    and goes on with [v]. *)
Lemma chase_redirect (hops : nat) (u : string) (seen : list string) (w : world)
    (v : string) :
  existsb (String.eqb u) seen = false ->
  redirect_target env (http_get env (count is_get (trace w)) u) = Some v ->
  chase env (S hops) u seen w
  = chase env hops v (u :: seen) (emit (EvGet GetRedirect u) w).
Proof.
  intros Hs Ht. cbn [chase]. rewrite Hs. unfold bind at 1. unfold get.
  unfold redirect_target in Ht.
  destruct (http_get env (count is_get (trace w)) u) as [resp|]; [|discriminate].
  destruct (raises_for_status resp); [discriminate|]. cbn [negb andb] in Ht.
  destruct (is_redirect resp && location_truthy resp); [|discriminate].
  destruct (location resp) as [next_location|]; [|discriminate].
  destruct (PyStr.startswith "/" next_location).
  - destruct (urlparse env (url resp)); [|discriminate]. congruence.
  - congruence.
Qed.

(** One hop: an answer that is no redirect ends the chase with its URL. *)
Lemma chase_final (hops : nat) (u : string) (seen : list string) (w : world)
    (resp : response) :
  existsb (String.eqb u) seen = false ->
  http_get env (count is_get (trace w)) u = Response resp ->
  raises_for_status resp = false ->
  is_redirect resp && location_truthy resp = false ->
  chase env (S hops) u seen w
  = (Ret (Some (PyStr.rstrip_char "/" (url resp))), emit (EvGet GetRedirect u) w).
Proof.
  intros Hs Hg Hst Hre. cbn [chase]. rewrite Hs. unfold bind at 1. unfold get.
  rewrite Hg, Hst, Hre. reflexivity.
Qed.

(** Along a path of URLs that are all new, the chase asks for each of them
    once, in turn, and comes to the target of the last with all of them in
    the visited set. *)
Lemma chase_along (path : list string) :
  forall hops u seen last w,
    (List.length path < hops)%nat ->
    NoDup (u :: path) ->
    (forall v, In v (u :: path) -> ~ In v seen) ->
    redirected_along env (count is_get (trace w)) u path last ->
    chase env hops u seen w
    = chase env (hops - S (List.length path)) last (rev (u :: path) ++ seen)
        (visited (u :: path) w).
Proof.
  induction path as [|v path IH]; intros hops u seen last w Hh Hnd Hnew Hp;
    (destruct hops as [|hops]; [cbn [List.length] in Hh; lia|]).
  - cbn [redirected_along] in Hp.
    rewrite (chase_redirect hops u seen w last
               (not_seen _ _ (Hnew u (or_introl eq_refl))) Hp).
    cbn [List.length rev app]. rewrite Nat.sub_succ, Nat.sub_0_r. reflexivity.
  - cbn [redirected_along] in Hp. destruct Hp as [Hv Hp].
    rewrite (chase_redirect hops u seen w v
               (not_seen _ _ (Hnew u (or_introl eq_refl))) Hv).
    inversion Hnd as [|x l Hu Hnd']; subst.
    rewrite (IH hops v (u :: seen) last (emit (EvGet GetRedirect u) w)).
    + cbn [List.length]. rewrite (Nat.sub_succ hops).
      replace (rev (u :: v :: path) ++ seen) with (rev (v :: path) ++ u :: seen)
        by (cbn [rev]; rewrite <- !app_assoc; reflexivity).
      reflexivity.
    + cbn [List.length] in Hh. lia.
    + exact Hnd'.
    + intros x Hx [Hxu | Hxs].
      * subst x. apply Hu. exact Hx.
      * exact (Hnew x (or_intror Hx) Hxs).
    + cbn [trace emit]. unfold count in *. cbn [filter is_get List.length]. exact Hp.
Qed.

(** C7. The redirect strategy of [get_cluster_url] ends on every input.
    One attempt makes at most 10 GETs and ends; a URL that is already in
    the visited set ends the attempt at once, with [None] and without
    another GET; all attempts together, and [get_cluster_url] as a whole,
    end after at most 10 GETs per configured attempt; and when every
    answer is a redirect (so that the locations can only go round), the
    strategy ends in its first attempt with [None], after at most 10 GETs
    and without a pause.  The visited set holds every URL asked for in the
    attempt: when the answers lead from [REDIRECT_URL] through URLs that
    are all different back to one of them, the attempt asks for each of
    them once, in turn, and ends with [None] right after the answer that
    leads back, without a further GET, a pause or another attempt.  A URL
    that was not asked for before does not end the attempt: when the path
    leads to a new URL whose answer is no redirect, the URL of that answer
    is the result. *)
Theorem redirect_chase_terminates :
  (forall u seen, within is_get 10 (chase env 10 u seen)) /\
  (forall hops u seen w,
     existsb (String.eqb u) seen = true ->
     chase env hops u seen w = (Ret None, w)) /\
  (forall todo attempt,
     within is_get (10 * todo) (redirect_attempts cfg env todo attempt)) /\
  within is_get (10 * Z.to_nat (REDIRECT_RETRIES cfg)) (get_cluster_url cfg env) /\
  ((forall n u, redirects (http_get env n u) = true) ->
   (forall u, urlparse env u <> None) ->
   forall todo attempt w,
   exists w' new,
     redirect_attempts cfg env (S todo) attempt w = (Ret None, w') /\
     trace w' = new ++ trace w /\
     (count is_get new <= 10)%nat /\
     count is_sleep new = 0%nat) /\
  (forall path last todo attempt w,
     NoDup (REDIRECT_URL cfg :: path) ->
     (List.length path < 10)%nat ->
     redirected_along env (count is_get (trace w)) (REDIRECT_URL cfg) path last ->
     In last (REDIRECT_URL cfg :: path) ->
     exists w',
       redirect_attempts cfg env (S todo) attempt w = (Ret None, w') /\
       trace w' = map (EvGet GetRedirect) (rev (REDIRECT_URL cfg :: path)) ++ trace w) /\
  (forall path last resp todo attempt w,
     NoDup (REDIRECT_URL cfg :: path) ->
     (List.length path < 9)%nat ->
     redirected_along env (count is_get (trace w)) (REDIRECT_URL cfg) path last ->
     ~ In last (REDIRECT_URL cfg :: path) ->
     http_get env (S (List.length path) + count is_get (trace w)) last = Response resp ->
     raises_for_status resp = false ->
     is_redirect resp && location_truthy resp = false ->
     exists w',
       redirect_attempts cfg env (S todo) attempt w
       = (Ret (Some (PyStr.rstrip_char "/" (url resp))), w') /\
       trace w'
       = map (EvGet GetRedirect) (last :: rev (REDIRECT_URL cfg :: path)) ++ trace w).
Proof.
  split; [intros u seen; apply chase_gets|].
  split; [intros hops u seen w; apply chase_revisit|].
  split; [intros todo attempt; apply redirect_attempts_gets|].
  split; [apply get_cluster_url_gets|].
  split; [|split].
  - intros Hred Hparse todo attempt w.
    destruct (chase_all_redirects Hred Hparse 10 (REDIRECT_URL cfg) [] w) as (w' & E).
    destruct (chase_gets 10 (REDIRECT_URL cfg) [] _ _ _ E) as (_ & new & T & C).
    destruct (chase_sleeps 10 (REDIRECT_URL cfg) [] _ _ _ E) as (_ & new' & T' & C').
    assert (new' = new) by (apply (app_inv_tail (trace w)); congruence). subst new'.
    exists w', new. cbn [redirect_attempts]. unfold try_except. rewrite E.
    repeat split; auto. lia.
  - intros path last todo attempt w Hnd Hlen Hp Hin.
    exists (visited (REDIRECT_URL cfg :: path) w).
    split; [|apply visited_trace].
    cbn [redirect_attempts]. unfold try_except.
    rewrite (chase_along path 10 (REDIRECT_URL cfg) [] last w Hlen Hnd
               (fun _ _ H => H) Hp).
    rewrite chase_revisit; [reflexivity|].
    apply seen_In. rewrite app_nil_r. apply in_rev in Hin. exact Hin.
  - intros path last resp todo attempt w Hnd Hlen Hp Hnew Hg Hst Hre.
    exists (emit (EvGet GetRedirect last) (visited (REDIRECT_URL cfg :: path) w)).
    split.
    + cbn [redirect_attempts]. unfold try_except.
      rewrite (chase_along path 10 (REDIRECT_URL cfg) [] last w ltac:(lia) Hnd
                 (fun _ _ H => H) Hp).
      destruct (10 - S (List.length path))%nat as [|hops] eqn:Eh; [lia|].
      rewrite (chase_final hops last _ _ resp); [reflexivity | | | exact Hst | exact Hre].
      * apply not_seen. rewrite app_nil_r. intros H. apply Hnew.
        apply in_rev. exact H.
      * rewrite visited_gets. exact Hg.
    + cbn [trace emit map].
      rewrite (proj1 (visited_trace (REDIRECT_URL cfg :: path) w)). reflexivity.
Qed.

End RedirectChase.

Lemma redirect_chase_terminates_witness :
  exists w',
    redirect_attempts Example.cfg Example.env_cycle 3 0 (boot Missing None)
    = (Ret None, w') /\
    trace w' = [EvGet GetRedirect "https://hub.example/next";
                EvGet GetRedirect "https://hub.example/start"].
Proof.
  apply (proj1 (proj2 (proj2 (proj2 (proj2 (proj2
           (redirect_chase_terminates Example.cfg Example.env_cycle))))))
         ["https://hub.example/next"] "https://hub.example/start" 2%nat 0
         (boot Missing None)).
  - repeat constructor; simpl; intuition discriminate.
  - simpl. lia.
  - split; reflexivity.
  - left. reflexivity.
Defined.

(* ===================================================================== *)
(** * Provisioner: how often the playbook runs *)
(* ===================================================================== *)

Section Retries.

Variable cfg : Config.
Variable env : Env.
Variable s : string.

Hypothesis delay_ok : 0 <= PLAYBOOK_RETRY_DELAY cfg <= sleep_max.
Hypothesis token_written : forall i, token_write env i = TokenWritten.

Let d : Z := PLAYBOOK_RETRY_DELAY cfg.











End Retries.






(* ===================================================================== *)
(** * Orchestrator: the exit status *)
(* ===================================================================== *)





Section FailureCases.

Variable cfg : Config.
Variable env : Env.
Variable fuel : nat.




Lemma process_event_configure (w0 : world) (cluster_url : string) (cur : pyval)
    (done : init_status) (wc : world) :
  reaches_configure cfg env w0 cluster_url cur done wc ->
  process_event cfg env fuel w0 = configure cfg env fuel cluster_url cur done wc.
Proof.
  intros (cached & w1 & w2 & Ec & Eu & En & Eq & Et & Hc).
  unfold process_event. unfold bind at 1. rewrite Ec.
  unfold bind at 1. rewrite Eu, En. cbn [negb].
  unfold bind at 1. rewrite Eq, Et. cbn [negb].
  destruct cached as [c|].
  - destruct Hc as (Hs & -> & ->). rewrite Hs. reflexivity.
  - destruct Hc as (-> & ->). reflexivity.
Qed.



End FailureCases.



(* ===================================================================== *)
(** * Orchestrator: the known event *)
(* ===================================================================== *)

Lemma early_no_token_get (e : event) : ev_early e = true -> is_token_get e = false.
Proof. destruct e as [[] ?| ? []| ?| ?| ?| ?| ?| ? ?| ?]; simpl; congruence. Qed.

Lemma early_no_playbook (e : event) : ev_early e = true -> is_playbook e = false.
Proof. destruct e as [[] ?| ? []| ?| ?| ?| ?| ?| ? ?| ?]; simpl; congruence. Qed.

(** The resolution and the event-id query leave early events only. *)
Lemma queried_early (cfg : Config) (env : Env) (w w1 w2 : world)
    (r1 : result (option string)) (url : string) (r2 : result pyval) :
  get_cluster_url cfg env w = (r1, w1) ->
  query_event_id env url w1 = (r2, w2) ->
  follows ev_early w w2.
Proof.
  intros Eu Eq. apply (follows_trans ev_early w w1 w2).
  - eapply follows_weaken; [exact resolve_early|].
    exact (get_cluster_url_respects cfg env _ _ _ Eu).
  - eapply follows_weaken; [exact query_early|].
    exact (query_event_id_respects env url _ _ _ Eq).
Qed.

(** C5. When the cache holds an event id and the control plane reports
    that same id, [process_event] posts "EID known" and returns [True];
    between the start and that post there is no GET of the token, no write
    of the token file, no run of the playbook and no write of the cache, and
    the cache file and the token file are as they were. *)
Theorem process_event_known (cfg : Config) (env : Env) (fuel : nat) (w : world)
    (cached : string) :
  get_cached_event_id w = (Ret (Some cached), w) ->
  queried cfg env w = Some (PStr cached) ->
  exists w' url new,
    process_event cfg env fuel w = (Ret true, w') /\
    trace w' = EvPost (_control_base url ++ "/initStatus") StEidKnown :: new ++ trace w /\
    existsb is_token_get new = false /\
    existsb is_token_write new = false /\
    existsb is_playbook new = false /\
    existsb is_cache_write new = false /\
    event_file w' = event_file w /\
    token_file w' = token_file w.
Proof.
  intros Hc Hq. unfold queried in Hq.
  destruct (get_cluster_url cfg env w) as [[[url|]| |] w1] eqn:Eu; try discriminate.
  destruct (PyStr.nonempty url) eqn:En; try discriminate.
  destruct (query_event_id env url w1) as [[v| |] w2] eqn:Eq; try discriminate.
  destruct (truthy v) eqn:Et; try discriminate.
  inversion Hq; subst v; clear Hq.
  destruct (follows_early_files _ _ (queried_early _ _ _ _ _ _ _ _ Eu Eq))
    as (ne & T & F & Fe & Ft).
  exists (emit (EvPost (_control_base url ++ "/initStatus") StEidKnown) w2), url, ne.
  split.
  - unfold process_event. unfold bind at 1. rewrite Hc.
    unfold bind at 1. rewrite Eu, En. cbn [negb].
    unfold bind at 1. rewrite Eq, Et. cbn [negb str_eq_val].
    rewrite String.eqb_refl. reflexivity.
  - cbn [trace emit event_file token_file]. rewrite T.
    repeat split; auto.
    + eapply forallb_excludes; [exact early_no_token_get | exact F].
    + eapply forallb_excludes; [exact early_no_token_write | exact F].
    + eapply forallb_excludes; [exact early_no_playbook | exact F].
    + eapply forallb_excludes; [exact early_no_cache_write | exact F].
Qed.

Lemma process_event_known_witness :
  exists w' url new,
    process_event Example.cfg_direct Example.env_happy 3 (boot (Content "ev-42") (Some "old"))
    = (Ret true, w') /\
    trace w' = EvPost (_control_base url ++ "/initStatus") StEidKnown :: new ++ [] /\
    existsb is_token_get new = false /\
    existsb is_token_write new = false /\
    existsb is_playbook new = false /\
    existsb is_cache_write new = false /\
    event_file w' = Content "ev-42" /\
    token_file w' = Some "old".
Proof.
  apply (process_event_known Example.cfg_direct Example.env_happy 3
           (boot (Content "ev-42") (Some "old")) "ev-42").
  - reflexivity.
  - reflexivity.
Defined.

Lemma token_retries_counts (k : nat) (u : string) :
  count is_token_get (token_retries k u) = k /\
  count is_get (token_retries k u) = k /\
  existsb is_token_write (token_retries k u) = false /\
  existsb is_playbook (token_retries k u) = false /\
  existsb is_cache_write (token_retries k u) = false.
Proof.
  induction k as [|k (G & A & W & P & C)]; [repeat split|].
  unfold count in *. cbn [token_retries filter existsb is_token_get is_get is_token_write
                           is_playbook is_cache_write orb List.length].
  rewrite G, A, W, P, C. repeat split.
Qed.

(** The token loop ends at the first HTTP 200: [k] rounds of GET and
    pause, one more GET, and the "token retrieved" post when the body
    parses. *)
Lemma query_skupper_token_first_200 (env : Env) (cluster_url : string) (fuel : nat)
    (w : world) (k : nat) (resp : response) :
  let endpoint := (_control_base cluster_url ++ "/getToken")%string in
  let status_url := (_control_base cluster_url ++ "/initStatus")%string in
  (forall i, (i < k)%nat ->
             not_200 (http_get env (count is_get (trace w) + i) endpoint) = true) ->
  http_get env (count is_get (trace w) + k) endpoint = Response resp ->
  status_code resp = 200 ->
  (k < fuel)%nat ->
  exists w',
    query_skupper_token env fuel cluster_url w
    = (parse_body env resp "token" "skupper_token", w') /\
    trace w'
    = (match parse_body env resp "token" "skupper_token" with
       | Ret _ => [EvPost status_url StTokenRetrieved]
       | _ => []
       end)
      ++ EvGet GetToken endpoint :: token_retries k endpoint
      ++ EvPost status_url StQueryingToken :: trace w /\
    event_file w' = event_file w /\
    token_file w' = token_file w.
Proof.
  intros endpoint status_url Hbefore Hget Hs Hk.
  set (w0 := emit (EvPost status_url StQueryingToken) w).
  assert (Hq : query_skupper_token env fuel cluster_url w
               = token_loop env fuel cluster_url w0) by reflexivity.
  assert (Hn : count is_get (trace w0) = count is_get (trace w)) by reflexivity.
  destruct fuel as [|fuel]; [lia|].
  replace (S fuel) with (k + S (fuel - k))%nat in Hq |- * by lia.
  destruct (token_loop_skip env cluster_url k (S (fuel - k)) w0) as (w1 & E & T & Fe & Ft).
  { rewrite Hn. exact Hbefore. }
  rewrite Hq, E. cbn [token_loop]. unfold bind at 1. unfold get. fold endpoint.
  assert (Hc : count is_get (trace w1) = (count is_get (trace w) + k)%nat).
  { rewrite T, count_app, Hn.
    pose proof (proj1 (proj2 (token_retries_counts k endpoint))) as Hr.
    unfold endpoint in Hr. rewrite Hr. lia. }
  rewrite Hc, Hget. apply Z.eqb_eq in Hs. rewrite Hs.
  unfold bind, lift, report_init_status, tell, ret. fold status_url.
  destruct (parse_body env resp "token" "skupper_token"); eexists; split;
    try reflexivity; cbn [trace emit event_file token_file app]; rewrite T;
    repeat split; assumption.
Qed.

(* ===================================================================== *)
(** * Orchestrator: the blank token *)
(* ===================================================================== *)

(** C10. An HTTP 200 answer of the token endpoint whose body parses to the
    empty string ends [query_skupper_token], whether it is the first answer
    or comes after [k] rounds of non-200 answers and network errors: the
    empty string is returned after that GET, without a pause and without
    another GET.  [process_event], when it gets that far (the current
    event id is known and differs from the cached one, or nothing is
    cached), then returns [False] after those [k + 1] GETs of the token,
    with no write of the token file, no run of the playbook, no write of
    the cache, and both files as they were. *)
Theorem blank_token_is_failure (cfg : Config) (env : Env) (fuel : nat)
    (cluster_url : string) (resp : response) (k : nat) :
  status_code resp = 200 ->
  parse_body env resp "token" "skupper_token" = Ret (PStr "") ->
  (k < fuel)%nat ->
  let endpoint := (_control_base cluster_url ++ "/getToken")%string in
  let status_url := (_control_base cluster_url ++ "/initStatus")%string in
  (forall w0,
     (forall i, (i < k)%nat ->
                not_200 (http_get env (count is_get (trace w0) + i) endpoint) = true) ->
     http_get env (count is_get (trace w0) + k) endpoint = Response resp ->
     exists w1,
       query_skupper_token env fuel cluster_url w0 = (Ret (PStr ""), w1) /\
       trace w1
       = EvPost status_url StTokenRetrieved :: EvGet GetToken endpoint
         :: token_retries k endpoint ++ EvPost status_url StQueryingToken :: trace w0 /\
       event_file w1 = event_file w0 /\
       token_file w1 = token_file w0) /\
  (forall w w1 w2 cached cur,
     get_cached_event_id w = (Ret cached, w) ->
     get_cluster_url cfg env w = (Ret (Some cluster_url), w1) ->
     PyStr.nonempty cluster_url = true ->
     query_event_id env cluster_url w1 = (Ret cur, w2) ->
     truthy cur = true ->
     (forall c, cached = Some c -> str_eq_val c cur = false) ->
     (forall i, (i < k)%nat ->
                not_200 (http_get env (count is_get (trace w2) + i) endpoint) = true) ->
     http_get env (count is_get (trace w2) + k) endpoint = Response resp ->
     exists w' new,
       process_event cfg env fuel w = (Ret false, w') /\
       trace w' = new ++ trace w /\
       count is_token_get new = S k /\
       existsb is_token_write new = false /\
       existsb is_playbook new = false /\
       existsb is_cache_write new = false /\
       event_file w' = event_file w /\
       token_file w' = token_file w).
Proof.
  intros Hs Hp Hk endpoint status_url.
  assert (Part1 : forall w0,
     (forall i, (i < k)%nat ->
                not_200 (http_get env (count is_get (trace w0) + i) endpoint) = true) ->
     http_get env (count is_get (trace w0) + k) endpoint = Response resp ->
     exists w1,
       query_skupper_token env fuel cluster_url w0 = (Ret (PStr ""), w1) /\
       trace w1
       = EvPost status_url StTokenRetrieved :: EvGet GetToken endpoint
         :: token_retries k endpoint ++ EvPost status_url StQueryingToken :: trace w0 /\
       event_file w1 = event_file w0 /\
       token_file w1 = token_file w0).
  { intros w0 Hbefore Hg.
    destruct (query_skupper_token_first_200 env cluster_url fuel w0 k resp
                Hbefore Hg Hs Hk) as (w1 & E & T & Fe & Ft).
    rewrite Hp in E, T. exists w1. auto. }
  split; [exact Part1|].
  intros w w1 w2 cached cur Hc Eu En Eq Et Hdiff Hbefore Hg.
  destruct (follows_early_files _ _ (queried_early _ _ _ _ _ _ _ _ Eu Eq))
    as (ne & T & F & Fe & Ft).
  destruct (token_retries_counts k endpoint) as (Rg & _ & Rw & Rp & Rc).
  assert (Counts : forall post,
            forallb ev_early post = true ->
            let new := (EvPost status_url StTokenRetrieved :: EvGet GetToken endpoint
                        :: token_retries k endpoint ++ [EvPost status_url StQueryingToken])
                       ++ post ++ ne in
            count is_token_get new = S k /\
            existsb is_token_write new = false /\
            existsb is_playbook new = false /\
            existsb is_cache_write new = false).
  { intros post Fp new.
    assert (Fa : forallb ev_early (post ++ ne) = true)
      by (rewrite forallb_app, Fp, F; reflexivity).
    unfold new. repeat split.
    - rewrite count_app, (count_excluded ev_early is_token_get _ early_no_token_get Fa).
      unfold count in *. cbn [filter is_token_get List.length].
      rewrite filter_app, length_app, Rg. cbn [filter is_token_get List.length]. lia.
    - rewrite existsb_app, (forallb_excludes _ _ _ early_no_token_write Fa).
      cbn [existsb is_token_write orb]. rewrite existsb_app, Rw. reflexivity.
    - rewrite existsb_app, (forallb_excludes _ _ _ early_no_playbook Fa).
      cbn [existsb is_playbook orb]. rewrite existsb_app, Rp. reflexivity.
    - rewrite existsb_app, (forallb_excludes _ _ _ early_no_cache_write Fa).
      cbn [existsb is_cache_write orb]. rewrite existsb_app, Rc. reflexivity. }
  unfold process_event. unfold bind at 1. rewrite Hc.
  unfold bind at 1. rewrite Eu, En. cbn [negb].
  unfold bind at 1. rewrite Eq, Et. cbn [negb].
  destruct cached as [c|].
  - rewrite (Hdiff c eq_refl). unfold configure. unfold bind at 1.
    destruct (Part1 w2 Hbefore Hg) as (w3 & E3 & T3 & Fe3 & Ft3).
    rewrite E3. cbn [truthy PyStr.nonempty negb].
    destruct (Counts [] eq_refl) as (C1 & C2 & C3 & C4).
    exists w3. eexists. split; [reflexivity|].
    split; [|repeat split; [exact C1 | exact C2 | exact C3 | exact C4
                           | congruence | congruence]].
    rewrite T3, T. cbn [app]. rewrite <- !app_assoc. reflexivity.
  - unfold bind at 1. unfold report_init_status at 1. unfold tell at 1.
    unfold configure. unfold bind at 1. fold status_url.
    destruct (Part1 (emit (EvPost status_url StEidUnknown) w2) Hbefore Hg)
      as (w3 & E3 & T3 & Fe3 & Ft3).
    rewrite E3. cbn [truthy PyStr.nonempty negb].
    destruct (Counts [EvPost status_url StEidUnknown] eq_refl) as (C1 & C2 & C3 & C4).
    exists w3. eexists. split; [reflexivity|].
    split; [|repeat split; [exact C1 | exact C2 | exact C3 | exact C4 | | ]].
    + rewrite T3. cbn [trace emit]. rewrite T. cbn [app]. rewrite <- !app_assoc.
      reflexivity.
    + rewrite Fe3. exact Fe.
    + rewrite Ft3. exact Ft.
Qed.

Lemma blank_token_is_failure_witness :
  exists w' new,
    process_event Example.cfg_direct Example.env_blank_later 3 (boot (Content "ev-1") None)
    = (Ret false, w') /\
    trace w' = new ++ [] /\
    count is_token_get new = 2%nat /\
    existsb is_token_write new = false /\
    existsb is_playbook new = false /\
    existsb is_cache_write new = false /\
    event_file w' = Content "ev-1" /\
    token_file w' = None.
Proof.
  eapply (proj2 (blank_token_is_failure Example.cfg_direct Example.env_blank_later 3
                   "https://cluster.example"
                   (Build_response 200 "  " None None
                      "https://cluster.example/control/getToken") 1
                   eq_refl eq_refl ltac:(lia))
            (boot (Content "ev-1") None) _ _ (Some "ev-1") (PStr "ev-2")).
  - reflexivity.
  - reflexivity.
  - reflexivity.
  - reflexivity.
  - reflexivity.
  - intros c H. inversion H; subst. reflexivity.
  - intros i Hi. assert (i = 0%nat) by lia. subst i. reflexivity.
  - reflexivity.
Defined.

(* ===================================================================== *)
(** * Orchestrator: the phases of a run *)
(* ===================================================================== *)

(** A case split on an event and on whatever the predicates look at. *)
Ltac by_event :=
  let e := fresh "e" in
  intros e; unfold ev_quiet; destruct e; simpl; try congruence;
  repeat (match goal with
          | |- context [match ?x with _ => _ end] => destruct x
          end; simpl; try congruence).

Lemma early_quiet : forall e, ev_early e = true -> ev_quiet e = true.
Proof. by_event. Qed.

Lemma token_quiet : forall e, ev_token e = true -> ev_quiet e = true.
Proof. by_event. Qed.

Lemma playbook_quiet : forall e, ev_playbook e = true -> ev_quiet e = true.
Proof. by_event. Qed.

Lemma early_no_playbook_ok : forall e, ev_early e = true -> playbook_ok e = false.
Proof. by_event. Qed.

Lemma token_no_playbook_ok : forall e, ev_token e = true -> playbook_ok e = false.
Proof. by_event. Qed.

Lemma quiet_no_cache_write : forall e, ev_quiet e = true -> is_cache_write e = false.
Proof. by_event. Qed.

Lemma quiet_no_cache_written : forall e, ev_quiet e = true -> cache_written e = false.
Proof. by_event. Qed.

Lemma quiet_no_skupper : forall e, ev_quiet e = true -> is_skupper e = false.
Proof. by_event. Qed.

Lemma quiet_no_probe_up : forall e, ev_quiet e = true -> probe_up e = false.
Proof. by_event. Qed.

Lemma quiet_no_unlink : forall e, ev_quiet e = true -> is_unlink e = false.
Proof. by_event. Qed.

Lemma quiet_no_unlinked : forall e, ev_quiet e = true -> unlinked e = false.
Proof. by_event. Qed.

Lemma forallb_In (P : event -> bool) (l : list event) (e : event) :
  forallb P l = true -> In e l -> P e = true.
Proof.
  intros H Hin. rewrite forallb_forall in H. apply H. exact Hin.
Qed.

(** A run of [process_event] either stays quiet (no playbook exits 0, the
    cache file is as it was, the token file is not removed), or it gets a
    token, sees the playbook exit 0, and ends with the commit phase for the
    event id it queried. *)
Lemma process_event_phases (cfg : Config) (env : Env) (fuel : nat) (w : world)
    (r : result bool) (w' : world) :
  process_event cfg env fuel w = (r, w') ->
  exists new,
    trace w' = new ++ trace w /\
    ((forallb ev_quiet new = true /\
      existsb playbook_ok new = false /\
      event_file w' = event_file w /\
      (token_file w <> None -> token_file w' <> None)) \/
     (exists nc rest cur done,
        new = nc ++ rest /\
        forallb ev_quiet rest = true /\
        existsb playbook_ok rest = true /\
        existsb token_retrieved rest = true /\
        queried cfg env w = Some cur /\
        committed cur done (event_file w) w' r nc)).
Proof.
  intros H. apply process_event_processed in H. destruct H as (new & T & HP).
  exists new. split; [exact T|].
  destruct HP as [ne Fe Ee Ke | ne nc cur done w2 Fe Hq Ee Ke Hc].
  - left. repeat split.
    + exact (forallb_weaken _ _ _ early_quiet Fe).
    + exact (forallb_excludes _ _ _ early_no_playbook_ok Fe).
    + exact Ee.
    + congruence.
  - pose proof (forallb_weaken _ _ _ early_quiet Fe) as Qe.
    pose proof (forallb_excludes _ _ _ early_no_playbook_ok Fe) as Oe.
    destruct Hc as [nt Ft E2 K2 Hr | nt np post u Ft Rt Fp Op Hpost E2 K2 Hr
                   | nt np nc' u Ft Rt Fp Op Hc].
    + left. repeat split.
      * rewrite forallb_app, (forallb_weaken _ _ _ token_quiet Ft), Qe. reflexivity.
      * rewrite existsb_app, (forallb_excludes _ _ _ token_no_playbook_ok Ft), Oe.
        reflexivity.
      * congruence.
      * congruence.
    + left.
      assert (Qpost : forallb ev_quiet post = true /\ existsb playbook_ok post = false).
      { destruct Hpost as [-> | (u' & ->)]; split; reflexivity. }
      destruct Qpost as [Qp Opost].
      repeat split.
      * rewrite !forallb_app. cbn [forallb].
        rewrite Qp, (forallb_weaken _ _ _ playbook_quiet Fp),
          (forallb_weaken _ _ _ token_quiet Ft), Qe. reflexivity.
      * rewrite !existsb_app. cbn [existsb].
        rewrite Opost, Op, (forallb_excludes _ _ _ token_no_playbook_ok Ft), Oe.
        reflexivity.
      * congruence.
      * intros Hw. apply K2. congruence.
    + right. exists nc', ((np ++ EvPost u StStartingConfigure :: nt) ++ ne), cur, done.
      repeat split.
      * rewrite <- !app_assoc. reflexivity.
      * rewrite !forallb_app. cbn [forallb].
        rewrite (forallb_weaken _ _ _ playbook_quiet Fp),
          (forallb_weaken _ _ _ token_quiet Ft), Qe. reflexivity.
      * rewrite !existsb_app, Op. reflexivity.
      * rewrite !existsb_app. cbn [existsb]. rewrite Rt.
        rewrite !orb_true_r. reflexivity.
      * exact Hq.
      * rewrite <- Ee. exact Hc.
Qed.

(* ===================================================================== *)
(** * Orchestrator: when the cache is written *)
(* ===================================================================== *)

(** First boot, token fetched, playbook exit status 0, and a cache file
    that cannot be written: the provisioning attempt is complete for the
    queried id "ev-42", and the cache is as it was. *)
Lemma cache_not_updated_after_provisioning :
  exists w',
    process_event Example.cfg_direct Example.env_cache_refused 3 (boot Missing None)
    = (Ret false, w') /\
    queried Example.cfg_direct Example.env_cache_refused (boot Missing None)
    = Some (PStr "ev-42") /\
    existsb token_retrieved (trace w') = true /\
    existsb playbook_ok (trace w') = true /\
    event_file w' = Missing.
Proof.
  eexists. split; [reflexivity|]. repeat split; reflexivity.
Qed.

(** Facts about the quiet part of a trace, ready for rewriting. *)
Lemma quiet_facts (l : list event) :
  forallb ev_quiet l = true ->
  existsb is_cache_write l = false /\
  existsb cache_written l = false /\
  existsb is_skupper l = false /\
  existsb probe_up l = false /\
  existsb is_unlink l = false /\
  existsb unlinked l = false.
Proof.
  intros Q. repeat split.
  - exact (forallb_excludes _ _ _ quiet_no_cache_write Q).
  - exact (forallb_excludes _ _ _ quiet_no_cache_written Q).
  - exact (forallb_excludes _ _ _ quiet_no_skupper Q).
  - exact (forallb_excludes _ _ _ quiet_no_probe_up Q).
  - exact (forallb_excludes _ _ _ quiet_no_unlink Q).
  - exact (forallb_excludes _ _ _ quiet_no_unlinked Q).
Qed.

Lemma quiet_not_cache_write (l : list event) (v : pyval) (o : write_outcome) :
  forallb ev_quiet l = true -> ~ In (EvCacheWrite v o) l.
Proof.
  intros Q Hin. pose proof (forallb_In _ _ _ Q Hin) as H. discriminate H.
Qed.

Lemma token_no_playbook : forall e, ev_token e = true -> is_playbook e = false.
Proof. by_event. Qed.

Lemma quiet_no_playbook_run (l : list event) :
  existsb is_playbook l = false -> existsb playbook_ok l = false.
Proof.
  induction l as [|e l IH]; [reflexivity|]. cbn [existsb].
  intros H. apply orb_false_iff in H. destruct H as [He Hl].
  rewrite (IH Hl). destruct e as [| | | | |[]| | |]; simpl in *; congruence.
Qed.

(** Up to the provisioning part a run leaves early events only, and both
    files as they were. *)
Lemma reaches_configure_early (cfg : Config) (env : Env) (w : world)
    (cluster_url : string) (cur : pyval) (done : init_status) (wc : world) :
  reaches_configure cfg env w cluster_url cur done wc ->
  queried cfg env w = Some cur /\
  exists ne, trace wc = ne ++ trace w /\ forallb ev_early ne = true /\
             event_file wc = event_file w /\ token_file wc = token_file w.
Proof.
  intros (cached & w1 & w2 & Ec & Eu & En & Eq & Et & Hc).
  split; [unfold queried; rewrite Eu, En, Eq, Et; reflexivity|].
  destruct (follows_early_files _ _ (queried_early _ _ _ _ _ _ _ _ Eu Eq))
    as (ne & T & F & E & K).
  destruct cached as [c|].
  - destruct Hc as (_ & _ & ->). exists ne. auto.
  - destruct Hc as (_ & ->).
    exists (EvPost (_control_base cluster_url ++ "/initStatus") StEidUnknown :: ne).
    cbn [trace emit event_file token_file forallb ev_early andb].
    rewrite T. auto.
Qed.

(** No usable token: the run ends where the token fetch ends, without a
    run of the playbook and without a write of the cache. *)
Lemma process_event_no_token (cfg : Config) (env : Env) (fuel : nat) (w : world)
    (cluster_url : string) (cur : pyval) (done : init_status) (wc : world)
    (rt : result pyval) (w1 : world) :
  reaches_configure cfg env w cluster_url cur done wc ->
  query_skupper_token env fuel cluster_url wc = (rt, w1) ->
  (forall token, rt = Ret token -> truthy token = false) ->
  snd (process_event cfg env fuel w) = w1 /\
  exists new,
    trace w1 = new ++ trace w /\
    existsb is_playbook new = false /\
    existsb is_cache_write new = false /\
    event_file w1 = event_file w.
Proof.
  intros Hreach Eq Hf.
  rewrite (process_event_configure cfg env fuel _ _ _ _ _ Hreach).
  destruct (reaches_configure_early _ _ _ _ _ _ _ Hreach) as (_ & ne & Te & Fe & Ee & Ke).
  destruct (query_skupper_token_fetched env _ _ _ _ _ Eq) as (nt & Tt & Ft & Et & Kt & _).
  split.
  - unfold configure. unfold bind at 1. rewrite Eq.
    destruct rt as [token| e |]; try reflexivity.
    rewrite (Hf token eq_refl). reflexivity.
  - exists (nt ++ ne). split; [rewrite Tt, Te, app_assoc; reflexivity|].
    destruct (quiet_facts _ (forallb_weaken _ _ _ token_quiet Ft)) as (Q1 & _).
    destruct (quiet_facts _ (forallb_weaken _ _ _ early_quiet Fe)) as (Q2 & _).
    rewrite !existsb_app, Q1, Q2,
      (forallb_excludes _ _ _ token_no_playbook Ft),
      (forallb_excludes _ _ _ early_no_playbook Fe).
    repeat split. congruence.
Qed.

(** C1, amended.  In a run of [process_event] a write of the cache file is
    attempted exactly when the playbook has exited 0 in that run.  Without
    a playbook exit 0 nothing is written and the cache file is as it was;
    this is so when no cluster URL or no event id is obtained and when no
    usable token is obtained (the playbook is then not even run), and when
    the playbook runs without ever exiting 0.  After a playbook exit 0
    there is one write, for the event id queried in that run; it comes
    after the playbook run, which comes after the "token retrieved" post.
    Its outcome decides the rest: when it goes through, the cache file
    holds the queried id and the run returns [True]; when it is refused,
    the file is as it was and the run returns [False]; when it breaks off
    after the file was opened, the file holds only the part of the id that
    arrived and the run returns [False]; a write that is not refused, for
    an id that is not a [str], leaves an empty file and [False]. *)
Theorem cache_written_iff_committed (cfg : Config) (env : Env) (fuel : nat) (w : world)
    (r : result bool) (w' : world) :
  process_event cfg env fuel w = (r, w') ->
  exists new,
    trace w' = new ++ trace w /\
    existsb is_cache_write new = existsb playbook_ok new /\
    (queried cfg env w = None ->
     existsb is_playbook new = false /\
     existsb is_cache_write new = false /\ event_file w' = event_file w) /\
    (forall cluster_url cur done wc rt w1,
       reaches_configure cfg env w cluster_url cur done wc ->
       query_skupper_token env fuel cluster_url wc = (rt, w1) ->
       (forall token, rt = Ret token -> truthy token = false) ->
       existsb is_playbook new = false /\
       existsb is_cache_write new = false /\ event_file w' = event_file w) /\
    (existsb playbook_ok new = false ->
     existsb is_cache_write new = false /\ event_file w' = event_file w) /\
    (existsb playbook_ok new = true ->
     exists cur o later np before,
       queried cfg env w = Some cur /\
       new = later ++ EvCacheWrite cur o :: np ++ before /\
       existsb is_cache_write later = false /\
       existsb is_cache_write (np ++ before) = false /\
       existsb is_playbook later = false /\
       existsb playbook_ok np = true /\
       existsb is_playbook before = false /\
       existsb token_retrieved before = true /\
       match o with
       | WriteRefused => r = Ret false /\ event_file w' = event_file w
       | WriteBroken kept =>
           r = Ret false /\
           event_file w' =
             Content (match cur with PStr s => String.substring 0 kept s | _ => "" end)
       | WriteOk =>
           match cur with
           | PStr s => r = Ret true /\ event_file w' = Content s
           | _ => r = Ret false /\ event_file w' = Content ""
           end
       end).
Proof.
  intros H.
  destruct (process_event_processed _ _ _ _ _ _ H) as (new & T & HP).
  exists new. split; [exact T|].
  assert (Htoken : forall cluster_url cur done wc rt w1,
            reaches_configure cfg env w cluster_url cur done wc ->
            query_skupper_token env fuel cluster_url wc = (rt, w1) ->
            (forall token, rt = Ret token -> truthy token = false) ->
            existsb is_playbook new = false /\
            existsb is_cache_write new = false /\ event_file w' = event_file w).
  { intros cluster_url cur done wc rt w1 Hreach Eq Hf.
    destruct (process_event_no_token _ _ _ _ _ _ _ _ _ _ Hreach Eq Hf)
      as (Ew & new1 & T1 & P1 & C1 & E1).
    rewrite H in Ew. cbn [snd] in Ew. subst w1.
    assert (new1 = new) as <- by (apply (app_inv_tail (trace w)); congruence).
    auto. }
  destruct HP as [ne Fe Ee Ke | ne nc cur done w2 Fe Hq Ee Ke Hc].
  - destruct (quiet_facts _ (forallb_weaken _ _ _ early_quiet Fe)) as (Q1 & _).
    pose proof (forallb_excludes _ _ _ early_no_playbook Fe) as P.
    pose proof (quiet_no_playbook_run _ P) as O.
    split; [congruence|]. split; [auto|]. split; [exact Htoken|].
    split; [auto | congruence].
  - destruct (quiet_facts _ (forallb_weaken _ _ _ early_quiet Fe)) as (Qe & _).
    pose proof (forallb_excludes _ _ _ early_no_playbook Fe) as Pe.
    pose proof (quiet_no_playbook_run _ Pe) as Oe.
    destruct Hc as [nt Ft E2 K2 Hr | nt np post u Ft Rt Fp Op Hpost E2 K2 Hr
                   | nt np nc' u Ft Rt Fp Op Hc].
    + destruct (quiet_facts _ (forallb_weaken _ _ _ token_quiet Ft)) as (Qt & _).
      pose proof (forallb_excludes _ _ _ token_no_playbook Ft) as Pt.
      assert (C : existsb is_cache_write (nt ++ ne) = false)
        by (rewrite existsb_app, Qt, Qe; reflexivity).
      assert (O : existsb playbook_ok (nt ++ ne) = false)
        by (rewrite existsb_app, (quiet_no_playbook_run _ Pt), Oe; reflexivity).
      split; [congruence|]. split; [intros Hn; congruence|]. split; [exact Htoken|].
      split; [intros _; split; [exact C | congruence] | congruence].
    + destruct (quiet_facts _ (forallb_weaken _ _ _ token_quiet Ft)) as (Qt & _).
      destruct (quiet_facts _ (forallb_weaken _ _ _ playbook_quiet Fp)) as (Qp & _).
      pose proof (forallb_excludes _ _ _ token_no_playbook Ft) as Pt.
      assert (Qpost : existsb is_cache_write post = false /\
                      existsb playbook_ok post = false).
      { destruct Hpost as [-> | (u' & ->)]; split; reflexivity. }
      destruct Qpost as [Cpost Opost].
      assert (C : existsb is_cache_write
                    ((post ++ np ++ EvPost u StStartingConfigure :: nt) ++ ne) = false).
      { rewrite !existsb_app. cbn [existsb is_cache_write orb].
        rewrite Cpost, Qp, Qt, Qe. reflexivity. }
      assert (O : existsb playbook_ok
                    ((post ++ np ++ EvPost u StStartingConfigure :: nt) ++ ne) = false).
      { rewrite !existsb_app. cbn [existsb playbook_ok orb].
        rewrite Opost, Op, (quiet_no_playbook_run _ Pt), Oe. reflexivity. }
      split; [congruence|]. split; [intros Hn; congruence|]. split; [exact Htoken|].
      split; [intros _; split; [exact C | congruence] | congruence].
    + destruct (quiet_facts _ (forallb_weaken _ _ _ token_quiet Ft)) as (Qt & _).
      destruct (quiet_facts _ (forallb_weaken _ _ _ playbook_quiet Fp)) as (Qp & _).
      pose proof (forallb_excludes _ _ _ token_no_playbook Ft) as Pt.
      assert (Hshape : exists o later u',
                nc' = later ++ [EvCacheWrite cur o; EvPost u' done] /\
                existsb is_cache_write later = false /\
                existsb is_playbook later = false /\
                match o with
                | WriteRefused => r = Ret false /\ event_file w' = event_file w2
                | WriteBroken kept =>
                    r = Ret false /\
                    event_file w' =
                      Content (match cur with
                               | PStr s => String.substring 0 kept s
                               | _ => ""
                               end)
                | WriteOk =>
                    match cur with
                    | PStr s => r = Ret true /\ event_file w' = Content s
                    | _ => r = Ret false /\ event_file w' = Content ""
                    end
                end).
      { destruct Hc as [u0 o Hcw Hfile Htok | u0 s pr Hcur Hv Hf Htok
                       | u0 s pr ok Hcur Hv Hf Htok].
        - exists o, [], u0. repeat split.
          destruct o as [|kept|]; [auto | auto |].
          destruct cur; try (split; [reflexivity | exact Hfile]).
          discriminate Hcw.
        - exists WriteOk, [EvSkupperStatus pr; EvSleep 15], u0. subst cur.
          repeat split. exact Hf.
        - exists WriteOk, [EvUnlink ok; EvSkupperStatus pr; EvSleep 15], u0. subst cur.
          repeat split. exact Hf. }
      destruct Hshape as (o & later & u' & -> & Cl & Pl & Hout).
      assert (C : existsb is_cache_write
                    (((later ++ [EvCacheWrite cur o; EvPost u' done]) ++
                      np ++ EvPost u StStartingConfigure :: nt) ++ ne) = true).
      { rewrite !existsb_app. cbn [existsb is_cache_write orb].
        rewrite ?orb_true_r. reflexivity. }
      assert (O : existsb playbook_ok
                    (((later ++ [EvCacheWrite cur o; EvPost u' done]) ++
                      np ++ EvPost u StStartingConfigure :: nt) ++ ne) = true).
      { rewrite !existsb_app, Op. rewrite ?orb_true_r. reflexivity. }
      split; [congruence|]. split; [intros Hn; congruence|]. split; [exact Htoken|].
      split; [congruence|]. intros _.
      exists cur, o, later, (EvPost u' done :: np),
        (EvPost u StStartingConfigure :: nt ++ ne).
      split; [exact Hq|].
      split; [rewrite <- !app_assoc; reflexivity|].
      split; [exact Cl|].
      split.
      { cbn [app existsb is_cache_write orb]. rewrite !existsb_app.
        cbn [existsb is_cache_write orb]. rewrite !existsb_app, Qp, Qt, Qe. reflexivity. }
      split; [exact Pl|].
      split; [cbn [existsb playbook_ok orb]; exact Op|].
      split; [cbn [existsb is_playbook orb]; rewrite existsb_app, Pt, Pe; reflexivity|].
      split; [cbn [existsb token_retrieved orb]; rewrite existsb_app, Rt; reflexivity|].
      rewrite <- Ee. exact Hout.
Qed.

Lemma cache_written_iff_committed_witness :
  event_file (snd (process_event Example.cfg_direct Example.env_happy 3 (boot Missing None)))
  = Content "ev-42".
Proof.
  destruct (process_event Example.cfg_direct Example.env_happy 3 (boot Missing None))
    as [r w'] eqn:E.
  destruct (cache_written_iff_committed _ _ _ _ _ _ E)
    as (new & T & _ & _ & _ & _ & Hyes).
  vm_compute in E. inversion E; subst r w'; clear E.
  cbn [trace boot] in T. rewrite app_nil_r in T. subst new.
  destruct (Hyes eq_refl) as (cur & o & later & np & before & Hq & _ & _ & _ & _ & _ & _ & _ & Hout).
  vm_compute in Hq. inversion Hq; subst cur; clear Hq.
  destruct o as [|kept|]; [destruct Hout as [Hr _]; discriminate Hr
                          | destruct Hout as [Hr _]; discriminate Hr |].
  exact (proj2 Hout).
Defined.

(* ===================================================================== *)
(** * Orchestrator: when the token file is removed *)
(* ===================================================================== *)

(** The playbook exits 0 and the tunnel would report "up", but the cache
    file cannot be written: there is no settle delay, no probe and no
    removal, and the token file stays. *)
Lemma token_file_kept_without_probe :
  exists w',
    process_event Example.cfg_direct Example.env_cache_refused 3 (boot Missing None)
    = (Ret false, w') /\
    existsb playbook_ok (trace w') = true /\
    tunnel_verdict (skupper_status Example.env_cache_refused 0) = true /\
    existsb is_sleep (trace w') = false /\
    existsb is_skupper (trace w') = false /\
    existsb is_unlink (trace w') = false /\
    token_file w' = Some "tok".
Proof.
  eexists. split; [reflexivity|]. repeat split; reflexivity.
Qed.

(** C4, amended.  In a run of [process_event] the tunnel is probed exactly
    when the cache write went through (which needs a playbook exit 0
    before it), and then once, right after a pause of 15 seconds that
    follows the write.  The removal of the token file is attempted exactly
    when that probe says "up"; the file is gone at the end if the removal
    went through, and is otherwise never removed: not when the probe says
    "down", not when there is no probe, not when the removal fails. *)
Theorem token_file_removed_iff_probe_up (cfg : Config) (env : Env) (fuel : nat)
    (w : world) (r : result bool) (w' : world) :
  process_event cfg env fuel w = (r, w') ->
  exists new,
    trace w' = new ++ trace w /\
    existsb is_skupper new = existsb cache_written new /\
    (existsb is_skupper new = true ->
     exists pre pr v rest,
       new = pre ++ EvSkupperStatus pr :: EvSleep 15 :: EvCacheWrite v WriteOk :: rest /\
       existsb playbook_ok rest = true /\
       existsb is_skupper rest = false /\
       existsb is_skupper pre = false) /\
    existsb is_unlink new = existsb probe_up new /\
    (existsb unlinked new = true -> token_file w' = None) /\
    (existsb unlinked new = false -> token_file w <> None -> token_file w' <> None).
Proof.
  intros H.
  destruct (process_event_phases _ _ _ _ _ _ H)
    as (new & T & [(Q & O & E & K)
                  | (nc & rest & cur & done & -> & Q & O & R & Hq & Hc)]).
  - exists new. split; [exact T|].
    destruct (quiet_facts _ Q) as (Q1 & Q2 & Q3 & Q4 & Q5 & Q6).
    rewrite Q2, Q3, Q4, Q5, Q6.
    split; [reflexivity|]. split; [discriminate|]. split; [reflexivity|].
    split; [discriminate|]. intros _. exact K.
  - exists (nc ++ rest). split; [exact T|].
    destruct (quiet_facts _ Q) as (Q1 & Q2 & Q3 & Q4 & Q5 & Q6).
    destruct Hc as [u o Hcw Href Htok | u s pr Hcur Hv Hf Htok | u s pr ok Hcur Hv Hf Htok];
      rewrite !existsb_app, Q2, Q3, Q4, Q5, Q6, ?orb_false_r.
    + cbn [existsb is_skupper is_unlink probe_up unlinked orb]. rewrite Hcw.
      split; [reflexivity|]. split; [discriminate|]. split; [reflexivity|].
      split; [discriminate|]. intros _ _. exact Htok.
    + subst cur.
      cbn [existsb is_skupper is_unlink probe_up unlinked cache_written orb].
      rewrite Hv.
      split; [reflexivity|].
      split.
      { intros _. exists [], pr, (PStr s), (EvPost u done :: rest).
        split; [reflexivity|]. cbn [existsb playbook_ok is_skupper orb].
        rewrite O, Q3. repeat split; reflexivity. }
      split; [reflexivity|].
      split; [discriminate|]. intros _ _. exact Htok.
    + subst cur.
      cbn [existsb is_skupper is_unlink probe_up unlinked cache_written orb].
      rewrite Hv, ?orb_false_r.
      split; [reflexivity|].
      split.
      { intros _. exists [EvUnlink ok], pr, (PStr s), (EvPost u done :: rest).
        split; [reflexivity|]. cbn [existsb playbook_ok is_skupper orb].
        rewrite O, Q3. repeat split; reflexivity. }
      split; [reflexivity|].
      split.
      { intros Hok. apply Htok. exact Hok. }
      intros Hok _ Hnone. apply Htok in Hnone. congruence.
Qed.

Lemma token_file_removed_iff_probe_up_witness :
  exists w',
    process_event Example.cfg_direct Example.env_happy 3 (boot Missing None)
    = (Ret true, w') /\
    token_file w' = None.
Proof.
  eexists. split; [reflexivity|].
  destruct (token_file_removed_iff_probe_up Example.cfg_direct Example.env_happy 3
              (boot Missing None) _ _ eq_refl)
    as (new & T & _ & _ & _ & Hu & _).
  apply Hu. cbn [trace boot] in T. rewrite app_nil_r in T. rewrite <- T. reflexivity.
Defined.

(* ===================================================================== *)
(** * Start-up *)
(* ===================================================================== *)

(** A service with neither [REDIRECT_URL] nor [RCS_GIT_REPO] does not
    start: [main] ends with the [ValueError] of the constructor before the
    start-up delay and before any request, the world is as it was, and the
    process exits with status 1.  With one of the two set, and the state
    directories in place, [main] is [run]. *)
Theorem main_requires_a_source (cfg : Config) (env : Env) (fuel : nat) (w : world) :
  (PyStr.nonempty (REDIRECT_URL cfg) = false ->
   PyStr.nonempty (RCS_GIT_REPO cfg) = false ->
   main cfg env true fuel w = (Raise ValueError, w) /\
   exit_status (fst (main cfg env true fuel w)) = Some 1) /\
  (PyStr.nonempty (REDIRECT_URL cfg) || PyStr.nonempty (RCS_GIT_REPO cfg) = true ->
   main cfg env true fuel w = run cfg env fuel w) /\
  main cfg env false fuel w = (Raise OSError, w).
Proof.
  unfold main, __init__, bind, lift. split; [|split].
  - intros -> ->. split; reflexivity.
  - intros H. destruct (PyStr.nonempty (REDIRECT_URL cfg));
      destruct (PyStr.nonempty (RCS_GIT_REPO cfg)); try discriminate; reflexivity.
  - reflexivity.
Qed.

Lemma main_requires_a_source_witness :
  main Example.cfg Example.env_offline true 3 (boot Missing None)
  = run Example.cfg Example.env_offline 3 (boot Missing None).
Proof.
  apply (proj1 (proj2 (main_requires_a_source Example.cfg Example.env_offline 3
                         (boot Missing None)))).
  reflexivity.
Defined.

(* ===================================================================== *)
(** * StateStore: reading and writing *)
(* ===================================================================== *)

Lemma rstrip_idempotent (s : string) : PyStr.rstrip (PyStr.rstrip s) = PyStr.rstrip s.
Proof.
  induction s as [|c s IH]; [reflexivity|].
  cbn [PyStr.rstrip]. destruct (PyStr.rstrip s) as [|d r] eqn:E.
  - destruct (PyStr.is_space c) eqn:Ec; [reflexivity|].
    cbn [PyStr.rstrip]. rewrite Ec. reflexivity.
  - cbn [PyStr.rstrip]. cbn [PyStr.rstrip] in IH.
    destruct (match PyStr.rstrip r with
              | "" => if PyStr.is_space d then "" else String d ""
              | String a s0 => String d (String a s0)
              end) eqn:E2; [discriminate IH|].
    rewrite IH. reflexivity.
Qed.

Lemma lstrip_no_leading_space (s : string) : no_leading_space (PyStr.lstrip s) = true.
Proof.
  induction s as [|c s IH]; [reflexivity|].
  cbn [PyStr.lstrip]. destruct (PyStr.is_space c) eqn:E; [exact IH|].
  cbn [no_leading_space]. rewrite E. reflexivity.
Qed.

Lemma rstrip_no_leading_space (s : string) :
  no_leading_space s = true -> no_leading_space (PyStr.rstrip s) = true.
Proof.
  destruct s as [|c s]; [reflexivity|].
  cbn [no_leading_space PyStr.rstrip]. intros H.
  destruct (PyStr.rstrip s).
  - apply negb_true_iff in H. rewrite H. cbn [no_leading_space]. rewrite H. reflexivity.
  - cbn [no_leading_space]. exact H.
Qed.

Lemma lstrip_fixed (s : string) : no_leading_space s = true -> PyStr.lstrip s = s.
Proof.
  destruct s as [|c s]; [reflexivity|].
  cbn [no_leading_space PyStr.lstrip]. intros H.
  apply negb_true_iff in H. rewrite H. reflexivity.
Qed.

Lemma strip_idempotent (s : string) : PyStr.strip (PyStr.strip s) = PyStr.strip s.
Proof.
  unfold PyStr.strip.
  rewrite (lstrip_fixed (PyStr.rstrip (PyStr.lstrip s))).
  - apply rstrip_idempotent.
  - apply rstrip_no_leading_space, lstrip_no_leading_space.
Qed.

(** Reading the cache changes nothing and never raises, and an id it
    gives is non-empty and has no white space around it: stripping it
    again gives the same id. *)
Theorem get_cached_event_id_clean (w : world) :
  exists cached,
    get_cached_event_id w = (Ret cached, w) /\
    forall s, cached = Some s -> s <> ""%string /\ PyStr.strip s = s.
Proof.
  unfold get_cached_event_id. destruct (event_file w) as [| |c].
  - exists None. split; [reflexivity | discriminate].
  - exists None. split; [reflexivity | discriminate].
  - destruct (PyStr.nonempty (PyStr.strip (PyStr.universal_newlines c))) eqn:E.
    + eexists. split; [reflexivity|]. intros s Hs. inversion Hs; subst.
      split; [apply nonempty_iff; exact E | apply strip_idempotent].
    + exists None. split; [reflexivity | discriminate].
Qed.

(** Writing the cache never raises and leaves the token file alone.  It
    makes one attempt; [True] means that the id is a [str] and that the
    file now holds exactly that id; an id that is not a [str] gives
    [False]; a refused write leaves the file as it was. *)
Theorem cache_event_id_never_raises (env : Env) (event_id : pyval) (w : world) :
  exists ok o w',
    cache_event_id env event_id w = (Ret ok, w') /\
    trace w' = EvCacheWrite event_id o :: trace w /\
    token_file w' = token_file w /\
    (ok = true -> exists s, event_id = PStr s /\ event_file w' = Content s) /\
    ((forall s, event_id <> PStr s) -> ok = false) /\
    (o = WriteRefused -> ok = false /\ event_file w' = event_file w).
Proof.
  unfold cache_event_id.
  destruct (cache_write env (count is_cache_write (trace w))) as [|kept|] eqn:Eo;
    destruct event_id; eexists; eexists; eexists;
    (split; [reflexivity|]); (split; [reflexivity|]); (split; [reflexivity|]);
    (split; [|split]); try discriminate; try (intros; reflexivity);
    try (intros _; eexists; split; reflexivity);
    try (intros _; split; reflexivity);
    try (intros Hn; exfalso; eapply Hn; reflexivity).
Qed.

(* ===================================================================== *)
(** * Which exceptions escape *)
(* ===================================================================== *)

Section Raises.

Context {A : Type}.
Variable allowed : exn -> bool.




End Raises.







Section ResolverRaises.

Variable cfg : Config.
Variable env : Env.






End ResolverRaises.

Section Unreachable.

Variable cfg : Config.
Variable env : Env.

Hypothesis unreachable : forall n u, http_get env n u = RequestError.
Hypothesis delay_ok : REDIRECT_RETRY_DELAY cfg <= sleep_max.





End Unreachable.



Section OrchestratorRaises.

Variable cfg : Config.
Variable env : Env.














End OrchestratorRaises.



(* ===================================================================== *)
(** * ControlPlaneClient: the endpoints *)
(* ===================================================================== *)

Lemma string_app_assoc (a b c : string) : ((a ++ b) ++ c = a ++ (b ++ c))%string.
Proof.
  induction a as [|x a IH]; simpl; [reflexivity|]. rewrite IH. reflexivity.
Qed.

Lemma has_char_app (ch : ascii) (u v : string) :
  has_char ch (u ++ v) = has_char ch u || has_char ch v.
Proof.
  induction u as [|c u IH]; simpl; [reflexivity|].
  rewrite IH, orb_assoc. reflexivity.
Qed.

Lemma before_first_without (ch : ascii) (u : string) :
  has_char ch u = false -> PyStr.before_first ch u = u.
Proof.
  induction u as [|c u IH]; simpl; [reflexivity|].
  intros H. apply orb_false_iff in H. destruct H as [Hc Hu].
  rewrite Hc, (IH Hu). reflexivity.
Qed.

Lemma before_first_cut (ch : ascii) (u q : string) :
  has_char ch u = false -> PyStr.before_first ch (u ++ String ch q) = u.
Proof.
  induction u as [|c u IH]; simpl.
  - intros _. rewrite Ascii.eqb_refl. reflexivity.
  - intros H. apply orb_false_iff in H. destruct H as [Hc Hu].
    rewrite Hc, (IH Hu). reflexivity.
Qed.

Lemma rstrip_char_snoc (ch : ascii) (u : string) :
  PyStr.rstrip_char ch (u ++ String ch "") = PyStr.rstrip_char ch u.
Proof.
  induction u as [|c u IH]; simpl.
  - rewrite Ascii.eqb_refl. reflexivity.
  - rewrite IH. reflexivity.
Qed.

Lemma rstrip_char_no_trailing (ch : ascii) (s : string) :
  forall pre, PyStr.rstrip_char ch s <> (pre ++ String ch "")%string.
Proof.
  induction s as [|c s IH]; intros pre; simpl.
  - destruct pre; discriminate.
  - destruct (PyStr.rstrip_char ch s) as [|d r] eqn:E.
    + destruct (Ascii.eqb c ch) eqn:Ec.
      * destruct pre; discriminate.
      * destruct pre as [|p pre]; simpl.
        -- intros H. inversion H; subst. rewrite Ascii.eqb_refl in Ec. discriminate.
        -- intros H. inversion H. destruct pre; discriminate.
    + destruct pre as [|p pre]; simpl.
      * discriminate.
      * intros H. inversion H as [[Hp Hr]]. exact (IH pre Hr).
Qed.

Lemma rstrip_char_keeps_without (ch c : ascii) (s : string) :
  has_char c s = false -> has_char c (PyStr.rstrip_char ch s) = false.
Proof.
  induction s as [|x s IH]; simpl; [reflexivity|].
  intros H. apply orb_false_iff in H. destruct H as [Hx Hs].
  specialize (IH Hs).
  destruct (PyStr.rstrip_char ch s) as [|d r].
  - destruct (Ascii.eqb x ch); simpl; [reflexivity|]. rewrite Hx. reflexivity.
  - cbn [has_char]. cbn [has_char] in IH. rewrite Hx, IH. reflexivity.
Qed.

Lemma before_first_has_none (ch : ascii) (s : string) :
  has_char ch (PyStr.before_first ch s) = false.
Proof.
  induction s as [|c s IH]; simpl; [reflexivity|].
  destruct (Ascii.eqb c ch) eqn:E; simpl; [reflexivity|].
  rewrite E, IH. reflexivity.
Qed.

(** The control base does not depend on how the cluster URL ends: a
    trailing slash and a query string are dropped, so that
    [_control_base] always is a base without question mark and without
    trailing slash, followed by "/control". *)
Theorem control_base_normalises (u q : string) :
  (exists base,
     _control_base u = (base ++ "/control")%string /\
     has_char "?" base = false /\
     forall pre, base <> (pre ++ "/")%string) /\
  (has_char "?" u = false ->
   _control_base (u ++ "/") = _control_base u /\
   _control_base (u ++ "?" ++ q) = _control_base u).
Proof.
  unfold _control_base. split.
  - exists (PyStr.rstrip_char "/" (PyStr.before_first "?" u)).
    split; [reflexivity|]. split.
    + apply rstrip_char_keeps_without, before_first_has_none.
    + apply rstrip_char_no_trailing.
  - intros H. split.
    + rewrite before_first_without.
      * rewrite rstrip_char_snoc, (before_first_without _ _ H). reflexivity.
      * rewrite has_char_app, H. reflexivity.
    + change (u ++ "?" ++ q)%string with (u ++ String "?" q)%string.
      rewrite (before_first_cut _ _ _ H), (before_first_without _ _ H). reflexivity.
Qed.

Lemma control_base_normalises_witness :
  _control_base ("https://cluster.example" ++ "/") = _control_base "https://cluster.example" /\
  _control_base ("https://cluster.example" ++ "?" ++ "robot=1")
  = _control_base "https://cluster.example".
Proof.
  apply (proj2 (control_base_normalises "https://cluster.example" "robot=1")).
  reflexivity.
Defined.

(** [query_event_id] makes exactly one request, a GET of "eventId" under
    the control base, and changes nothing else.  A network error gives
    [None], and so does an answer with an HTTP status from 400 to 599;
    an answer with any other status gives the id parsed from its body,
    and a JSON body that is not an object makes the [AttributeError] of
    [data.get] escape. *)
Theorem query_event_id_one_request (env : Env) (cluster_url : string) (w : world) :
  let endpoint := (_control_base cluster_url ++ "/eventId")%string in
  let answer := http_get env (count is_get (trace w)) endpoint in
  exists r,
    query_event_id env cluster_url w = (r, emit (EvGet GetEventId endpoint) w) /\
    (answer = RequestError -> r = Ret PNone) /\
    (forall resp, answer = Response resp -> 400 <= status_code resp < 600 ->
                  r = Ret PNone) /\
    (forall resp, answer = Response resp ->
                  status_code resp < 400 \/ 600 <= status_code resp ->
                  r = parse_body env resp "event_id" "eventId") /\
    (forall resp data, answer = Response resp ->
                       status_code resp < 400 \/ 600 <= status_code resp ->
                       json resp = Some data ->
                       (forall items, data <> PDict items) ->
                       r = Raise AttributeError).
Proof.
  intros endpoint answer.
  assert (Hep : (PyStr.rstrip_char "/" (PyStr.before_first "?" cluster_url)
                 ++ "/control/eventId")%string = endpoint).
  { unfold endpoint, _control_base. rewrite string_app_assoc. reflexivity. }
  unfold query_event_id, try_except, bind, get. rewrite Hep. fold answer.
  destruct answer as [resp|] eqn:Ea.
  - destruct (raises_for_status resp) eqn:Es.
    + assert (Hin : 400 <= status_code resp < 600).
      { unfold raises_for_status in Es. apply andb_true_iff in Es.
        destruct Es as [E1 E2]. apply Z.leb_le in E1. apply Z.ltb_lt in E2. lia. }
      exists (Ret PNone). split; [reflexivity|].
      split; [reflexivity|]. split; [reflexivity|].
      split; [intros resp' H Hc | intros resp' data H Hc _ _];
        inversion H; subst resp'; lia.
    + assert (Hout : status_code resp < 400 \/ 600 <= status_code resp).
      { unfold raises_for_status in Es. apply andb_false_iff in Es.
        destruct Es as [E | E]; [apply Z.leb_gt in E | apply Z.ltb_ge in E]; lia. }
      unfold lift. exists (parse_body env resp "event_id" "eventId").
      split.
      { unfold parse_body, pick. destruct (json resp) as [[]|]; reflexivity. }
      split; [discriminate|].
      split; [intros resp' H; inversion H; subst; lia|].
      split; [intros resp' H _; inversion H; subst; reflexivity|].
      intros resp' data H _ Hj Hd. inversion H; subst resp'.
      unfold parse_body, pick. rewrite Hj.
      destruct data; try reflexivity. destruct (Hd _ eq_refl).
  - exists (Ret PNone). split; [reflexivity|].
    split; [reflexivity|]. split; [discriminate|]. split; discriminate.
Qed.

Lemma query_event_id_one_request_witness :
  fst (query_event_id Example.env_bare_json "https://cluster.example" (boot Missing None))
  = Raise AttributeError.
Proof.
  destruct (query_event_id_one_request Example.env_bare_json "https://cluster.example"
              (boot Missing None)) as (r & E & _ & _ & _ & Hbare).
  rewrite E. cbn [fst].
  apply (Hbare {| status_code := 200; text := "ev-42"; json := Some (PStr "ev-42");
                  location := None;
                  url := "https://cluster.example/control/eventId" |} (PStr "ev-42")).
  - reflexivity.
  - left. simpl. lia.
  - reflexivity.
  - discriminate.
Defined.

(* ===================================================================== *)
(** * EndpointResolver: the GitHub strategy *)
(* ===================================================================== *)

(** A raw base is only ever built for a repository on github.com, under
    raw.githubusercontent.com, for an "owner/repository" path and a branch
    that is never empty ("main" when none is configured); it is never the
    empty string. *)
Theorem github_raw_base_shape (cfg : Config) (env : Env) (raw_base : string) :
  _github_raw_base_url cfg env = Some raw_base ->
  exists parsed p,
    urlparse env (PyStr.strip (RCS_GIT_REPO cfg)) = Some parsed /\
    netloc parsed = "github.com"%string /\
    raw_base
    = ("https://raw.githubusercontent.com/" ++ p ++ "/" ++ RCS_GIT_BRANCH cfg)%string /\
    PyStr.contains "/" p = true /\
    PyStr.nonempty (RCS_GIT_BRANCH cfg) = true /\
    PyStr.nonempty raw_base = true.
Proof.
  unfold _github_raw_base_url.
  destruct (negb (PyStr.nonempty (RCS_GIT_REPO cfg))); [discriminate|].
  destruct (urlparse env (PyStr.strip (RCS_GIT_REPO cfg))) as [parsed|]; [|discriminate].
  destruct (String.eqb (netloc parsed) "github.com") eqn:En; cbn [negb orb];
    [|discriminate].
  destruct (negb (PyStr.nonempty (path parsed))); [discriminate|].
  set (p0 := PyStr.strip_char "/" (path parsed)).
  set (p := if PyStr.endswith ".git" p0
            then String.substring 0 (String.length p0 - 4) p0 else p0).
  destruct (PyStr.contains "/" p) eqn:Ec; cbn [negb]; [|discriminate].
  intros H. inversion H; subst raw_base; clear H.
  exists parsed, p. split; [reflexivity|].
  split; [apply String.eqb_eq; exact En|].
  split; [reflexivity|]. split; [exact Ec|].
  split; [|reflexivity].
  unfold RCS_GIT_BRANCH.
  destruct (PyStr.nonempty (PyStr.strip (env_RCS_GIT_BRANCH cfg))) eqn:Eb;
    [exact Eb | reflexivity].
Qed.

Lemma github_raw_base_shape_witness :
  exists parsed p,
    urlparse Example.env_github (PyStr.strip (RCS_GIT_REPO Example.cfg_github)) = Some parsed /\
    netloc parsed = "github.com"%string /\
    "https://raw.githubusercontent.com/org/robots/main"%string
    = ("https://raw.githubusercontent.com/" ++ p ++ "/"
       ++ RCS_GIT_BRANCH Example.cfg_github)%string /\
    PyStr.contains "/" p = true /\
    PyStr.nonempty (RCS_GIT_BRANCH Example.cfg_github) = true /\
    PyStr.nonempty "https://raw.githubusercontent.com/org/robots/main" = true.
Proof.
  apply (github_raw_base_shape Example.cfg_github Example.env_github
           "https://raw.githubusercontent.com/org/robots/main").
  reflexivity.
Defined.

Lemma github_raw_base_nonempty (cfg : Config) (env : Env) (raw_base : string) :
  _github_raw_base_url cfg env = Some raw_base -> PyStr.nonempty raw_base = true.
Proof.
  unfold _github_raw_base_url.
  destruct (negb (PyStr.nonempty (RCS_GIT_REPO cfg))); [discriminate|].
  destruct (urlparse env (PyStr.strip (RCS_GIT_REPO cfg))) as [parsed|]; [|discriminate].
  destruct (negb (String.eqb (netloc parsed) "github.com")
            || negb (PyStr.nonempty (path parsed))); [discriminate|].
  destruct (negb (PyStr.contains "/" _)); [discriminate|].
  intros H. inversion H. reflexivity.
Qed.

Section GitHubStrategy.

Variable cfg : Config.
Variable env : Env.

Lemma fetch_names_raw (raw_base : string) (names : list string) :
  respects ev_raw (fetch_names env raw_base names).
Proof.
  induction names as [|name rest IH]; simpl; frame.
Qed.

Lemma retry_pause_raw (attempt : Z) : respects ev_raw (retry_pause cfg attempt).
Proof.
  unfold retry_pause. frame.
Qed.

Lemma raw_attempts_raw (raw_base : string) (todo : nat) :
  forall attempt, respects ev_raw (raw_attempts cfg env raw_base todo attempt).
Proof.
  induction todo as [|todo IH]; intros attempt; simpl.
  - frame.
  - apply respects_bind; [apply fetch_names_raw | intros cluster_url].
    destruct (opt_truthy cluster_url); [frame|].
    apply respects_bind; [apply retry_pause_raw | intros _; apply IH].
Qed.

Lemma fetch_names_found (raw_base : string) (names : list string) :
  forall w u w',
    fetch_names env raw_base names w = (Ret (Some u), w') ->
    u <> ""%string /\ PyStr.strip u = u.
Proof.
  induction names as [|name rest IH]; intros w u w'; cbn [fetch_names].
  - discriminate.
  - unfold bind, get.
    destruct (http_get env _ _) as [resp|]; [|apply IH].
    destruct (status_code resp =? 200); [|apply IH].
    destruct (PyStr.nonempty (PyStr.strip (text resp))) eqn:E; [|apply IH].
    intros H. inversion H; subst.
    split; [apply nonempty_iff; exact E | apply strip_idempotent].
Qed.

Lemma raw_attempts_found (raw_base : string) (todo : nat) :
  forall attempt w u w',
    raw_attempts cfg env raw_base todo attempt w = (Ret (Some u), w') ->
    u <> ""%string /\ PyStr.strip u = u.
Proof.
  induction todo as [|todo IH]; intros attempt w u w'; cbn [raw_attempts].
  - discriminate.
  - unfold bind at 1.
    destruct (_fetch_cluster_url_from_github_raw cfg env raw_base w)
      as [[found| e |] w1] eqn:Ef; try discriminate.
    destruct (opt_truthy found) eqn:Et.
    + intros H. inversion H; subst. exact (fetch_names_found _ _ _ _ _ Ef).
    + unfold bind. destruct (retry_pause cfg attempt w1) as [[[]| e |] w2];
        try discriminate. apply IH.
Qed.

Lemma raw_no_files (e : event) :
  ev_raw e = true ->
  is_cache_write e = false /\ is_token_write e = false /\ is_unlink e = false.
Proof.
  destruct e as [[] ?| ? ?| ?| ?| ?| ?| ?| ? ?| ?]; simpl; try discriminate; auto.
Qed.

End GitHubStrategy.

(** When [RCS_GIT_REPO] gives a raw base, [get_cluster_url] uses GitHub
    alone: however it ends, it has made GETs of raw files and pauses only,
    at most two GETs per configured attempt, and it has never followed
    [REDIRECT_URL], not even when GitHub gives nothing.  It ends; a URL it
    returns is non-empty and has no white space around it; the two files
    are as they were. *)
Theorem github_strategy_excludes_redirect (cfg : Config) (env : Env) (raw_base : string)
    (w : world) :
  REDIRECT_URL_IS_CLUSTER cfg && PyStr.nonempty (REDIRECT_URL cfg) = false ->
  _github_raw_base_url cfg env = Some raw_base ->
  exists r w' new,
    get_cluster_url cfg env w = (r, w') /\
    r <> OutOfFuel /\
    trace w' = new ++ trace w /\
    forallb ev_raw new = true /\
    (count is_get new <= 2 * Z.to_nat (REDIRECT_RETRIES cfg))%nat /\
    event_file w' = event_file w /\
    token_file w' = token_file w /\
    (forall u, r = Ret (Some u) -> u <> ""%string /\ PyStr.strip u = u).
Proof.
  intros Hdirect Hraw.
  assert (Hg : get_cluster_url cfg env w
               = raw_attempts cfg env raw_base (Z.to_nat (REDIRECT_RETRIES cfg)) 0 w).
  { unfold get_cluster_url.
    rewrite Hdirect, Hraw, (github_raw_base_nonempty _ _ _ Hraw). reflexivity. }
  destruct (raw_attempts cfg env raw_base (Z.to_nat (REDIRECT_RETRIES cfg)) 0 w)
    as [r w'] eqn:E.
  destruct (raw_attempts_gets cfg env raw_base _ _ _ _ _ E) as (Hfuel & new & T & C).
  destruct (raw_attempts_raw cfg env raw_base _ _ _ _ _ E) as (new' & T' & F & Fc & Ft & _).
  assert (new' = new) by (apply (app_inv_tail (trace w)); congruence). subst new'.
  exists r, w', new. rewrite Hg.
  split; [reflexivity|]. split; [exact Hfuel|]. split; [exact T|].
  split; [exact F|]. split; [exact C|].
  split; [|split].
  - apply Fc. eapply forallb_excludes; [|exact F]. intros e He.
    apply (raw_no_files e He).
  - apply Ft; (eapply forallb_excludes; [|exact F]); intros e He;
      apply (raw_no_files e He).
  - intros u Hr. subst r. exact (raw_attempts_found cfg env _ _ _ _ _ _ E).
Qed.

Lemma github_strategy_excludes_redirect_witness :
  exists r w' new,
    get_cluster_url Example.cfg_github Example.env_github (boot Missing None) = (r, w') /\
    r <> OutOfFuel /\
    trace w' = new ++ [] /\
    forallb ev_raw new = true /\
    (count is_get new <= 2 * 3)%nat /\
    event_file w' = Missing /\
    token_file w' = None /\
    (forall u, r = Ret (Some u) -> u <> ""%string /\ PyStr.strip u = u).
Proof.
  apply (github_strategy_excludes_redirect Example.cfg_github Example.env_github
           "https://raw.githubusercontent.com/org/robots/main" (boot Missing None)).
  - reflexivity.
  - reflexivity.
Defined.

(* ===================================================================== *)
(** * EndpointResolver: attempts and pauses *)
(* ===================================================================== *)

(** With [REDIRECT_RETRIES] at 0 or below there is no attempt at all:
    unless [REDIRECT_URL] is used as the cluster URL, [get_cluster_url]
    gives [None] without a single request, and [process_event] returns
    [False] at once, the world untouched. *)
Theorem no_attempts_no_resolution (cfg : Config) (env : Env) (w : world) :
  REDIRECT_RETRIES cfg <= 0 ->
  REDIRECT_URL_IS_CLUSTER cfg && PyStr.nonempty (REDIRECT_URL cfg) = false ->
  get_cluster_url cfg env w = (Ret None, w) /\
  forall fuel, process_event cfg env fuel w = (Ret false, w).
Proof.
  intros Hr Hdirect.
  assert (Hg : get_cluster_url cfg env w = (Ret None, w)).
  { unfold get_cluster_url. rewrite Hdirect.
    replace (Z.to_nat (REDIRECT_RETRIES cfg)) with 0%nat by lia.
    destruct (_github_raw_base_url cfg env) as [raw_base|].
    - destruct (PyStr.nonempty raw_base); [reflexivity|].
      destruct (negb (PyStr.nonempty (REDIRECT_URL cfg))); reflexivity.
    - destruct (negb (PyStr.nonempty (REDIRECT_URL cfg))); reflexivity. }
  split; [exact Hg|].
  intros fuel. unfold process_event. unfold bind at 1.
  destruct (get_cached_event_id_pure w) as (c & ->).
  unfold bind. rewrite Hg. reflexivity.
Qed.

Lemma no_attempts_no_resolution_witness :
  get_cluster_url
    {| REDIRECT_URL := "https://hub.example/start"; REDIRECT_RETRIES := 0;
       REDIRECT_RETRY_DELAY := 10; REDIRECT_URL_IS_CLUSTER := false;
       env_RCS_GIT_REPO := ""; env_RCS_GIT_BRANCH := "main";
       SERVICE_STARTUP_DELAY := 0; env_PLAYBOOK_RETRIES := 2;
       PLAYBOOK_RETRY_DELAY := 30; env_ANSIBLE_OUTPUT_LOG := "";
       robot_name := "robot1" |}
    Example.env_happy (boot Missing None)
  = (Ret None, boot Missing None).
Proof.
  refine (proj1 (no_attempts_no_resolution _ Example.env_happy (boot Missing None) _ _)).
  - simpl. lia.
  - reflexivity.
Defined.

Section Offline.

Variable cfg : Config.
Variable env : Env.

Hypothesis offline : forall n u, http_get env n u = RequestError.




End Offline.



(* ===================================================================== *)
(** * Provisioner: the token file and the playbook *)
(* ===================================================================== *)

Lemma once_rejects_non_string (cfg : Config) (env : Env) (token : pyval) (w : world) :
  (forall s, token <> PStr s) ->
  exists e w',
    _run_ansible_playbook_once cfg env token w = (Raise e, w') /\
    (e = TypeError \/ e = OSError) /\
    count is_playbook (trace w') = count is_playbook (trace w) /\
    event_file w' = event_file w /\
    token_file w' = token_file w.
Proof.
  intros Hn.
  unfold _run_ansible_playbook_once, write_token_file, bind.
  destruct (token_write env (count is_token_write (trace w)));
    destruct token as [| | | | s | |];
    try (exfalso; eapply Hn; reflexivity);
    eexists; eexists; (split; [reflexivity|]); (split; [auto|]);
    repeat split; reflexivity.
Qed.

Lemma once_returns (cfg : Config) (env : Env) (token : pyval) (w : world)
    (ok : bool) (w' : world) :
  _run_ansible_playbook_once cfg env token w = (Ret ok, w') ->
  exists s returncode out err,
    token = PStr s /\
    token_file w' = Some s /\
    ansible_playbook env (count is_playbook (trace w)) = Completed returncode out err /\
    ok = (returncode =? 0).
Proof.
  unfold _run_ansible_playbook_once, write_token_file, run_playbook_process,
    append_audit, bind, ret, raise, tell.
  destruct (token_write env (count is_token_write (trace w))) as [|[k|]|];
    destruct token as [| | | | s | |]; try discriminate.
  cbn [trace emit set_token_file].
  change (count is_playbook (EvTokenWrite TokenWritten :: trace w))
    with (count is_playbook (trace w)).
  destruct (ansible_playbook env (count is_playbook (trace w)))
    as [returncode out err| | |]; try discriminate.
  destruct (PyStr.nonempty (ANSIBLE_OUTPUT_LOG cfg)); intros H; inversion H; subst;
    exists s, returncode, out, err; repeat split; reflexivity.
Qed.

(** [_run_ansible_playbook_once] returns only after it has written the
    token file and the playbook has run to its end: the file then holds
    the token, and the result is [True] exactly for exit status 0.  A
    token that is not a [str] never reaches the playbook: the call raises
    before any run, and the token file is as it was.  The cache file is
    never touched, and a token file that exists is never removed. *)
Theorem run_ansible_playbook_once_writes_token_first (cfg : Config) (env : Env)
    (token : pyval) (w : world) (r : result bool) (w' : world) :
  _run_ansible_playbook_once cfg env token w = (r, w') ->
  (forall ok, r = Ret ok ->
     exists s returncode out err,
       token = PStr s /\
       token_file w' = Some s /\
       ansible_playbook env (count is_playbook (trace w)) = Completed returncode out err /\
       ok = (returncode =? 0)) /\
  ((forall s, token <> PStr s) ->
   (r = Raise TypeError \/ r = Raise OSError) /\
   count is_playbook (trace w') = count is_playbook (trace w) /\
   token_file w' = token_file w) /\
  event_file w' = event_file w /\
  (token_file w <> None -> token_file w' <> None) /\
  r <> OutOfFuel.
Proof.
  intros H.
  destruct (once_provisioned cfg env token w r w' H) as (new & _ & _ & He & Hk & _ & _ & Hf).
  split; [|split; [|split; [exact He | split; [exact Hk | exact Hf]]]].
  - intros ok Hr. subst r. exact (once_returns _ _ _ _ _ _ H).
  - intros Hn.
    destruct (once_rejects_non_string cfg env token w Hn) as (e & w1 & E & He' & Hc & _ & Ht).
    rewrite H in E. inversion E; subst.
    split; [destruct He' as [-> | ->]; auto|]. split; assumption.
Qed.

Lemma run_ansible_playbook_once_writes_token_first_witness :
  token_file (snd (_run_ansible_playbook_once Example.cfg_direct Example.env_playbook_fails
                     (PStr "tok") (boot Missing None))) = Some "tok"%string.
Proof.
  destruct (run_ansible_playbook_once_writes_token_first
              Example.cfg_direct Example.env_playbook_fails (PStr "tok") (boot Missing None)
              _ _ eq_refl) as (Hret & _).
  destruct (Hret false eq_refl) as (s & rc & out & err & Hs & Hf & _).
  inversion Hs; subst s. exact Hf.
Defined.

(** A token that is not a [str] (a number in a JSON answer, say) makes
    [run_ansible_playbook] end with [NameError] before the playbook has
    run once; neither file changes. *)
Theorem non_string_token_never_reaches_playbook (cfg : Config) (env : Env)
    (token : pyval) (w : world) :
  (forall s, token <> PStr s) ->
  exists w',
    run_ansible_playbook cfg env token w = (Raise NameError, w') /\
    count is_playbook (trace w') = count is_playbook (trace w) /\
    event_file w' = event_file w /\
    token_file w' = token_file w.
Proof.
  intros Hn.
  assert (Hattempts : exists n, Z.to_nat (PLAYBOOK_RETRIES cfg) = S n).
  { exists (Nat.pred (Z.to_nat (PLAYBOOK_RETRIES cfg))). unfold PLAYBOOK_RETRIES. lia. }
  destruct Hattempts as (n & Hattempts).
  destruct (once_rejects_non_string cfg env token w Hn) as (e & w1 & E & He & Hc & Hf & Ht).
  exists w1. split; [|repeat split; assumption].
  unfold run_ansible_playbook, try_except. rewrite Hattempts.
  cbn [playbook_attempts]. unfold bind at 1. change (1 >? 1) with false. cbn [ret].
  unfold bind at 1. rewrite E.
  destruct He as [-> | ->]; reflexivity.
Qed.

Lemma non_string_token_never_reaches_playbook_witness :
  exists w',
    run_ansible_playbook Example.cfg_direct Example.env_happy (PInt 12345)
      (boot Missing None)
    = (Raise NameError, w') /\
    count is_playbook (trace w') = 0%nat /\
    event_file w' = Missing /\
    token_file w' = None.
Proof.
  apply (non_string_token_never_reaches_playbook Example.cfg_direct Example.env_happy
           (PInt 12345) (boot Missing None)).
  intros s. discriminate.
Defined.

(** [PLAYBOOK_RETRIES] has a floor of one attempt: configured as 1, 0 or
    a negative number, [run_ansible_playbook] makes exactly one attempt,
    without a pause, and the outcome of that attempt is the outcome of the
    method: what the attempt returns is returned, and an exception of the
    attempt ends in the [NameError] of the handler.  The attempt tries
    once to write the token file.  When the token is a [str] and that
    write goes through, the playbook runs exactly once, the token file
    holds the token, and the exit status of the playbook decides between
    [True] and [False]; when the write fails, or the token is no [str],
    the playbook does not run at all. *)
Theorem playbook_runs_at_least_once (cfg : Config) (env : Env) (token : pyval)
    (w : world) :
  env_PLAYBOOK_RETRIES cfg <= 1 ->
  exists r1 w',
    _run_ansible_playbook_once cfg env token w = (r1, w') /\
    run_ansible_playbook cfg env token w
    = (match r1 with
       | Ret ok => Ret ok
       | Raise _ => Raise NameError
       | OutOfFuel => OutOfFuel
       end, w') /\
    r1 <> OutOfFuel /\
    exists new,
      trace w' = new ++ trace w /\
      count is_token_write new = 1%nat /\
      count is_sleep new = 0%nat /\
      (forall s,
         token = PStr s ->
         token_write env (count is_token_write (trace w)) = TokenWritten ->
         count is_playbook new = 1%nat /\
         token_file w' = Some s /\
         r1 = once_outcome (ansible_playbook env (count is_playbook (trace w)))) /\
      (token_write env (count is_token_write (trace w)) <> TokenWritten \/
       (forall s, token <> PStr s) ->
       count is_playbook new = 0%nat /\
       exists e, r1 = Raise e).
Proof.
  intros Hcfg.
  assert (Hattempts : Z.to_nat (PLAYBOOK_RETRIES cfg) = 1%nat)
    by (unfold PLAYBOOK_RETRIES; lia).
  unfold run_ansible_playbook, try_except. rewrite Hattempts.
  cbn [playbook_attempts]. unfold bind at 1. change (1 >? 1) with false. cbn [ret].
  unfold bind at 1.
  unfold _run_ansible_playbook_once, write_token_file, run_playbook_process,
    append_audit, bind, ret, raise, tell.
  destruct (token_write env (count is_token_write (trace w))) as [|[kept|]|] eqn:Ew;
    destruct token as [| | | | s | |];
    cbn [trace emit set_token_file];
    try change (count is_playbook (EvTokenWrite TokenWritten :: trace w))
          with (count is_playbook (trace w));
    try (destruct (ansible_playbook env (count is_playbook (trace w)))
           as [rc out err| | |] eqn:Er;
         [destruct (PyStr.nonempty (ANSIBLE_OUTPUT_LOG cfg)); destruct (rc =? 0) eqn:Erc
         | | |]);
    eexists; eexists; (split; [reflexivity|]); (split; [reflexivity|]);
    (split; [discriminate|]); cbn [trace emit set_token_file]; give_new;
    (split; [reflexivity|]); (split; [reflexivity|]); (split; [reflexivity|]);
    (split;
     [ intros s0 Hs Hw;
       first [ discriminate Hs | discriminate Hw
             | inversion Hs; subst s0; cbn [once_outcome]; rewrite ?Erc; repeat split ]
     | intros [Hw | Hs];
       [ first [ exfalso; apply Hw; reflexivity
               | split; [reflexivity | eexists; reflexivity] ]
       | first [ exfalso; eapply Hs; reflexivity
               | split; [reflexivity | eexists; reflexivity] ] ] ]).
Qed.

Lemma playbook_runs_at_least_once_witness :
  fst (run_ansible_playbook Example.cfg_github Example.env_playbook_fails (PStr "tok")
         (boot Missing None)) = Ret false.
Proof.
  destruct (playbook_runs_at_least_once Example.cfg_github Example.env_playbook_fails
              (PStr "tok") (boot Missing None) ltac:(simpl; lia))
    as (r1 & w' & E1 & E & _).
  rewrite E. cbn [fst]. vm_compute in E1. inversion E1. reflexivity.
Defined.

(* ===================================================================== *)
(** * Orchestrator: what a run never does *)
(* ===================================================================== *)

Lemma early_no_token_work :
  forall e, ev_early e = true -> is_token_write e = false /\ is_playbook e = false.
Proof.
  intros e He. split; [apply early_no_token_write | apply early_no_playbook]; exact He.
Qed.

Lemma token_no_token_work :
  forall e, ev_token e = true -> is_token_write e = false /\ is_playbook e = false.
Proof.
  destruct e as [[] ?| ? ?| ?| ?| ?| ?| ?| ? ?| ?]; simpl; try discriminate; auto.
Qed.

(** In a run of [process_event] the token file is written and the playbook
    is run only after the token was received in that same run: whenever
    the run holds a write of the token file or a run of the playbook, its
    events split into a later part and an earlier one, the earlier one
    holds the "token retrieved" post, and every write of the token file
    and every run of the playbook is in the later one.  The run writes the
    cache at most once, probes the tunnel at most once and tries to remove
    the token file at most once. *)
Theorem process_event_needs_token (cfg : Config) (env : Env) (fuel : nat) (w : world)
    (r : result bool) (w' : world) :
  process_event cfg env fuel w = (r, w') ->
  exists new,
    trace w' = new ++ trace w /\
    (existsb is_token_write new || existsb is_playbook new = true ->
     exists later earlier,
       new = later ++ earlier /\
       existsb token_retrieved earlier = true /\
       existsb is_token_write earlier = false /\
       existsb is_playbook earlier = false) /\
    (count is_cache_write new <= 1)%nat /\
    (count is_skupper new <= 1)%nat /\
    (count is_unlink new <= 1)%nat.
Proof.
  intros H.
  pose proof (process_event_processed cfg env fuel w r w' H) as (new & T & HP).
  exists new. split; [exact T|]. split.
  - assert (Hearlier : forall u nt ne,
              forallb ev_token nt = true ->
              forallb ev_early ne = true ->
              existsb token_retrieved nt = true ->
              existsb token_retrieved (EvPost u StStartingConfigure :: nt ++ ne) = true /\
              existsb is_token_write (EvPost u StStartingConfigure :: nt ++ ne) = false /\
              existsb is_playbook (EvPost u StStartingConfigure :: nt ++ ne) = false).
    { intros u nt ne Ft Fe Rt. cbn [existsb token_retrieved is_token_write is_playbook orb].
      rewrite !existsb_app, Rt,
        (forallb_excludes _ _ _ (fun e He => proj1 (early_no_token_work e He)) Fe),
        (forallb_excludes _ _ _ (fun e He => proj2 (early_no_token_work e He)) Fe),
        (forallb_excludes _ _ _ (fun e He => proj1 (token_no_token_work e He)) Ft),
        (forallb_excludes _ _ _ (fun e He => proj2 (token_no_token_work e He)) Ft).
      repeat split. }
    destruct HP as [ne Fe Ee Ke | ne nc cur done w2 Fe Hq Ee Ke Hc].
    + rewrite (forallb_excludes _ _ _ (fun e He => proj1 (early_no_token_work e He)) Fe),
        (forallb_excludes _ _ _ (fun e He => proj2 (early_no_token_work e He)) Fe).
      discriminate.
    + destruct Hc as [nt Ft E2 K2 Hr | nt np post u Ft Rt Fp Op Hpost E2 K2 Hr
                     | nt np nc' u Ft Rt Fp Op Hc].
      * rewrite !existsb_app,
          (forallb_excludes _ _ _ (fun e He => proj1 (early_no_token_work e He)) Fe),
          (forallb_excludes _ _ _ (fun e He => proj2 (early_no_token_work e He)) Fe),
          (forallb_excludes _ _ _ (fun e He => proj1 (token_no_token_work e He)) Ft),
          (forallb_excludes _ _ _ (fun e He => proj2 (token_no_token_work e He)) Ft).
        discriminate.
      * intros _. exists (post ++ np), (EvPost u StStartingConfigure :: nt ++ ne).
        split; [rewrite <- !app_assoc; reflexivity|].
        exact (Hearlier u nt ne Ft Fe Rt).
      * intros _. exists (nc' ++ np), (EvPost u StStartingConfigure :: nt ++ ne).
        split; [rewrite <- !app_assoc; reflexivity|].
        exact (Hearlier u nt ne Ft Fe Rt).
  - destruct (process_event_phases cfg env fuel w r w' H)
      as (new' & T' & [(Q & _) | (nc & rest & cur & done & Hn & Q & _ & _ & _ & Hc)]);
      assert (new' = new) by (apply (app_inv_tail (trace w)); congruence); subst new'.
    + rewrite (count_excluded _ _ _ quiet_no_cache_write Q),
        (count_excluded _ _ _ quiet_no_skupper Q),
        (count_excluded _ _ _ quiet_no_unlink Q). lia.
    + subst new. rewrite !count_app.
      rewrite (count_excluded _ _ _ quiet_no_cache_write Q),
        (count_excluded _ _ _ quiet_no_skupper Q),
        (count_excluded _ _ _ quiet_no_unlink Q).
      destruct Hc; unfold count; simpl; lia.
Qed.

Lemma process_event_needs_token_witness :
  exists later earlier,
    trace (snd (process_event Example.cfg_direct Example.env_happy 3 (boot Missing None)))
    = later ++ earlier /\
    existsb token_retrieved earlier = true /\
    existsb is_token_write earlier = false /\
    existsb is_playbook earlier = false.
Proof.
  destruct (process_event_needs_token Example.cfg_direct Example.env_happy 3
              (boot Missing None) (Ret true) _ eq_refl) as (new & T & Horder & _).
  cbn [trace boot] in T. rewrite app_nil_r in T.
  destruct (Horder ltac:(rewrite <- T; vm_compute; reflexivity))
    as (later & earlier & E & H1 & H2 & H3).
  exists later, earlier. rewrite <- E. auto.
Defined.



(* ===================================================================== *)
(** * EndpointResolver: the robot's own file comes first *)
(* ===================================================================== *)

(** [_fetch_cluster_url_from_github_raw] asks for the file named after the
    robot first.  A usable answer (HTTP 200 with a body that is not blank)
    is returned at once, and "catch-all" is not requested; otherwise
    "catch-all" is requested, and its answer decides. *)
Theorem fetch_prefers_robot_file (cfg : Config) (env : Env) (raw_base : string)
    (w : world) :
  let base := PyStr.rstrip_char "/" raw_base in
  let own := (base ++ "/" ++ robot_name cfg)%string in
  let shared := (base ++ "/" ++ "catch-all")%string in
  let n0 := count is_get (trace w) in
  (forall u,
     raw_answer (http_get env n0 own) = Some u ->
     _fetch_cluster_url_from_github_raw cfg env raw_base w
     = (Ret (Some u), emit (EvGet GetRaw own) w)) /\
  (raw_answer (http_get env n0 own) = None ->
   _fetch_cluster_url_from_github_raw cfg env raw_base w
   = (Ret (raw_answer (http_get env (S n0) shared)),
      emit (EvGet GetRaw shared) (emit (EvGet GetRaw own) w))).
Proof.
  intros base own shared n0. subst n0.
  unfold _fetch_cluster_url_from_github_raw. cbn [fetch_names].
  fold base. fold own. fold shared.
  unfold raw_answer, bind, get, ret.
  split; [intros u Hu | intros Hnone];
    destruct (http_get env (count is_get (trace w)) own) as [resp|];
    try destruct (status_code resp =? 200);
    try destruct (PyStr.nonempty (PyStr.strip (text resp)));
    cbn [andb] in *; try discriminate;
    try (inversion Hu; subst; reflexivity);
    cbv beta; cbn [trace emit];
    change (count is_get (EvGet GetRaw own :: trace w))
      with (S (count is_get (trace w)));
    (destruct (http_get env (S (count is_get (trace w))) shared) as [resp2|];
     [|reflexivity]);
    (destruct (status_code resp2 =? 200); [|reflexivity]);
    destruct (PyStr.nonempty (PyStr.strip (text resp2))); reflexivity.
Qed.

Lemma fetch_prefers_robot_file_witness :
  _fetch_cluster_url_from_github_raw Example.cfg_github Example.env_github
    "https://raw.githubusercontent.com/org/robots/main" (boot Missing None)
  = (Ret (Some "https://cluster.example"%string),
     emit (EvGet GetRaw "https://raw.githubusercontent.com/org/robots/main/catch-all")
       (emit (EvGet GetRaw "https://raw.githubusercontent.com/org/robots/main/robot1")
          (boot Missing None))).
Proof.
  apply (proj2 (fetch_prefers_robot_file Example.cfg_github Example.env_github
                  "https://raw.githubusercontent.com/org/robots/main" (boot Missing None))).
  reflexivity.
Defined.
